(** * raylib project creator: configuration codec and project generation

    A shallow embedding of
    - [rpconfig.h]: [LoadProjectConfigRaw], [SaveProjectConfigRaw],
      [SyncProjectConfig], [UpdateEntryValue], [SyncProjectConfigRaw];
    - [rpc.c]: [SetupProject], [UnpackDirectoryData], [LoadFileTextPack],
      [GetSubtextPtrs].

    C strings are [string]s; a [char] array is the [string] of all its
    cells (NUL cells included), and the C string it holds is the part before
    the first NUL.  Code that can touch memory outside an array returns in
    the [result] monad, [MemFault] standing for the undefined behaviour. *)

From Stdlib Require Import String Ascii List ZArith Lia Bool Arith DecimalString.
Import ListNotations.
Open Scope string_scope.

(* ================================================================== *)
(** ** Memory-fault monad *)

Inductive result (A : Type) : Type :=
| Ok (a : A)
| MemFault.
Arguments Ok {A} a.
Arguments MemFault {A}.

Definition bind {A B} (r : result A) (k : A -> result B) : result B :=
  match r with
  | Ok a => k a
  | MemFault => MemFault
  end.

Notation "x <- r ;; k" := (bind r (fun x => k))
  (at level 61, r at next level, right associativity).

Fixpoint mapM {A B} (f : A -> result B) (l : list A) : result (list B) :=
  match l with
  | [] => Ok []
  | a :: l' => b <- f a ;; bs <- mapM f l' ;; Ok (b :: bs)
  end.

Fixpoint foldM {A S} (f : A -> S -> result S) (l : list A) (s : S) : result S :=
  match l with
  | [] => Ok s
  | a :: l' => s' <- f a s ;; foldM f l' s'
  end.

(* ================================================================== *)
(** ** C strings and character arrays *)

Module CStr.

Definition NUL : ascii := "000"%char.

(** A zero-filled array of [n] chars: [char buf[n] = { 0 }]. *)
Fixpoint zeros (n : nat) : string :=
  match n with
  | 0 => ""
  | S n' => String NUL (zeros n')
  end.

(** The suffix of an array from cell [off]: the cells reachable from the
    pointer [buf + off]. *)
Fixpoint skip (off : nat) (buf : string) : string :=
  match off, buf with
  | 0, _ => buf
  | S _, EmptyString => EmptyString
  | S off', String _ rest => skip off' rest
  end.

(** The C string stored at the start of an array: the chars before the
    first NUL.  A read that reaches the end of the array without meeting a
    NUL runs off the array. *)
Fixpoint cstr (buf : string) : result string :=
  match buf with
  | EmptyString => MemFault
  | String ch rest =>
      if Ascii.eqb ch NUL then Ok ""
      else s <- cstr rest ;; Ok (String ch s)
  end.

(** Same chars, for a comparison that is known to stop early: an
    unterminated array yields all its cells. *)
Fixpoint cstr_prefix (buf : string) : string :=
  match buf with
  | EmptyString => ""
  | String ch rest => if Ascii.eqb ch NUL then "" else String ch (cstr_prefix rest)
  end.

(** A C string laid out in an array of [n] cells. *)
Definition in_array (n : nat) (s : string) : string :=
  s ++ zeros (n - String.length s).

(** [strcpy(dst, src)] into an array of [cap] cells: the string and its
    terminator must fit. *)
Definition strcpy (cap : nat) (src : string) : result string :=
  if (String.length src <? cap)%nat then Ok src else MemFault.

(** The [n] chars [strncpy] writes: the source up to its NUL, then NUL
    padding. *)
Fixpoint strncpy_cells (src : string) (n : nat) {struct n} : result string :=
  match n with
  | 0 => Ok ""
  | S n' =>
      match src with
      | EmptyString => MemFault
      | String ch rest =>
          if Ascii.eqb ch NUL then Ok (zeros n)
          else w <- strncpy_cells rest n' ;; Ok (String ch w)
      end
  end.

(** [strncpy(dst, src, n)]: [dst] is the whole destination array. *)
Definition strncpy (dst src : string) (n : nat) : result string :=
  if (n <=? String.length dst)%nat
  then w <- strncpy_cells src n ;; Ok (w ++ skip n dst)
  else MemFault.

(** [memcpy(dst, src, n)]: [n] raw cells, no NUL handling. *)
Definition memcpy (dst src : string) (n : nat) : result string :=
  if ((n <=? String.length dst) && (n <=? String.length src))%nat
  then Ok (substring 0 n src ++ skip n dst)
  else MemFault.

End CStr.

(* ================================================================== *)
(** ** raylib text helpers used by the sources

    These functions belong to the raylib library, not to this repository;
    they are written down after the library's documented behaviour. *)

Module RaylibAPI.

(** [TextIsEqual(a, b)]: [strcmp(a, b) == 0]. *)
Definition TextIsEqual (a b : string) : bool := String.eqb a b.

(** [TextFindIndex(text, search)]: position of the first occurrence, or
    [-1]. *)
Definition TextFindIndex (text search : string) : Z :=
  match index 0 search text with
  | Some p => Z.of_nat p
  | None => (-1)%Z
  end.

(** Leftmost, non-overlapping replacement of every occurrence of [search].
    [skipn] counts the chars of a match still to be dropped. *)
Fixpoint replace_from (search replacement text : string) (skipn : nat) : string :=
  match text with
  | EmptyString => EmptyString
  | String ch rest =>
      match skipn with
      | S k => replace_from search replacement rest k
      | 0 =>
          if prefix search text
          then replacement ++ replace_from search replacement rest
                                (String.length search - 1)
          else String ch (replace_from search replacement rest 0)
      end
  end.

(** [TextReplace(text, search, replacement)]: [NULL] for a [NULL] text or an
    empty search string. *)
Definition TextReplace (text : option string) (search replacement : string)
  : option string :=
  match text with
  | None => None
  | Some t =>
      if String.eqb search "" then None
      else Some (replace_from search replacement t 0)
  end.

(** [TextJoin(list, count, delimiter)]. *)
Fixpoint TextJoin (l : list string) (delimiter : string) : string :=
  match l with
  | [] => ""
  | [s] => s
  | s :: l' => s ++ delimiter ++ TextJoin l' delimiter
  end.

Definition lower_char (ch : ascii) : ascii :=
  let n := nat_of_ascii ch in
  if ((65 <=? n) && (n <=? 90))%nat then ascii_of_nat (n + 32) else ch.

(** [TextToLower(text)]. *)
Fixpoint TextToLower (s : string) : string :=
  match s with
  | EmptyString => EmptyString
  | String ch rest => String (lower_char ch) (TextToLower rest)
  end.

(** The part of [path] after its last ['/'] or ['\'], given the chars seen
    since the last separator. *)
Fixpoint file_name_from (path acc : string) : string :=
  match path with
  | EmptyString => acc
  | String ch rest =>
      if (Ascii.eqb ch "/") || (Ascii.eqb ch "\")
      then file_name_from rest ""
      else file_name_from rest (acc ++ String ch "")
  end.

(** [GetFileName(filePath)]. *)
Definition GetFileName (path : string) : string := file_name_from path "".

(** The suffix of [s] from its last ['.'], if any. *)
Fixpoint last_dot (s : string) : option string :=
  match s with
  | EmptyString => None
  | String ch rest =>
      match last_dot rest with
      | Some e => Some e
      | None => if Ascii.eqb ch "." then Some s else None
      end
  end.

(** [GetFileExtension(fileName)]: [NULL] without a dot, or when the only dot
    is the first char. *)
Definition GetFileExtension (fileName : string) : option string :=
  match last_dot fileName with
  | Some e => if String.eqb e fileName then None else Some e
  | None => None
  end.

(** [IsFileExtension(fileName, ext)] for a single extension [ext]. *)
Definition IsFileExtension (fileName ext : string) : bool :=
  match GetFileExtension fileName with
  | Some e => String.eqb (TextToLower e) (TextToLower ext)
  | None => false
  end.

Definition digit_val (ch : ascii) : option Z :=
  let n := nat_of_ascii ch in
  if ((48 <=? n) && (n <=? 57))%nat then Some (Z.of_nat (n - 48)) else None.

(** The value an [int] holds after an operation whose exact result is [z]:
    32 bits, two's complement, wrapping around. *)
Definition wrap_int (z : Z) : Z :=
  ((z + 2147483648) mod 4294967296 - 2147483648)%Z.

(** [value = value*10 + (int)(text[i] - '0')] over the leading digits, in
    [int] arithmetic. *)
Fixpoint digits_value (s : string) (acc : Z) : Z :=
  match s with
  | EmptyString => acc
  | String ch rest =>
      match digit_val ch with
      | Some d => digits_value rest (wrap_int (acc * 10 + d))
      | None => acc
      end
  end.

(** [TextToInteger(text)]: optional sign, then leading decimal digits; the
    result is [value*sign] in [int] arithmetic, so a digit string past the
    range of an [int] wraps around. *)
Definition TextToInteger (s : string) : Z :=
  match s with
  | String "+" rest => wrap_int (digits_value rest 0 * 1)
  | String "-" rest => wrap_int (digits_value rest 0 * -1)
  | _ => wrap_int (digits_value s 0 * 1)
  end.

(** [TextFormat("%i", v)]. *)
Definition format_int (v : Z) : string := NilZero.string_of_int (Z.to_int v).

End RaylibAPI.

(* ================================================================== *)
(** ** rpconfig.h: project configuration data and its codec *)

Module RpConfig.
Import CStr RaylibAPI.

(** *** Property enumerations ([int] constants, as in C) *)

(* rpcPropertyEntryCategory *)
Definition RPC_CAT_PROJECT : Z := 0.
Definition RPC_CAT_BUILD : Z := 1.
Definition RPC_CAT_PLATFORM : Z := 2.
Definition RPC_CAT_DEPLOY : Z := 3.
Definition RPC_CAT_IMAGERY : Z := 4.
Definition RPC_CAT_RAYLIB : Z := 5.

(* rpcPropertyEntryType *)
Definition RPC_TYPE_BOOL : Z := 0.
Definition RPC_TYPE_VALUE : Z := 1.
Definition RPC_TYPE_TEXT : Z := 2.
Definition RPC_TYPE_TEXT_FILE : Z := 3.
Definition RPC_TYPE_TEXT_PATH : Z := 4.

(* rpcPlatform *)
Definition RPC_PLATFORM_WINDOWS : Z := 0.
Definition RPC_PLATFORM_LINUX : Z := 1.
Definition RPC_PLATFORM_MACOS : Z := 2.
Definition RPC_PLATFORM_HTML5 : Z := 3.
Definition RPC_PLATFORM_ANDROID : Z := 4.
Definition RPC_PLATFORM_DRM : Z := 5.
Definition RPC_PLATFORM_SWITCH : Z := 6.
Definition RPC_PLATFORM_DREAMCAST : Z := 7.
Definition RPC_PLATFORM_FREEBSD : Z := 8.
Definition RPC_PLATFORM_ANY : Z := 9.

(** *** rpcPropertyEntry

    [key], [text], [desc] and [name] hold the C string of the
    corresponding [char] array ([key[64]], [text[256]], [desc[128]],
    [name[64]]). *)
Record rpcPropertyEntry := mkEntry {
  key : string;
  text : string;
  desc : string;
  name : string;
  category : Z;
  platform : Z;
  type : Z;
  value : Z;
  editMode : bool
}.

(** An entry as [RL_CALLOC] leaves it. *)
Definition zero_entry : rpcPropertyEntry :=
  mkEntry "" "" "" "" 0 0 0 0 false.

Definition set_key (v : string) (e : rpcPropertyEntry) :=
  mkEntry v (text e) (desc e) (name e) (category e) (platform e) (type e) (value e) (editMode e).
Definition set_text (v : string) (e : rpcPropertyEntry) :=
  mkEntry (key e) v (desc e) (name e) (category e) (platform e) (type e) (value e) (editMode e).
Definition set_desc (v : string) (e : rpcPropertyEntry) :=
  mkEntry (key e) (text e) v (name e) (category e) (platform e) (type e) (value e) (editMode e).
Definition set_name (v : string) (e : rpcPropertyEntry) :=
  mkEntry (key e) (text e) (desc e) v (category e) (platform e) (type e) (value e) (editMode e).
Definition set_category (v : Z) (e : rpcPropertyEntry) :=
  mkEntry (key e) (text e) (desc e) (name e) v (platform e) (type e) (value e) (editMode e).
Definition set_platform (v : Z) (e : rpcPropertyEntry) :=
  mkEntry (key e) (text e) (desc e) (name e) (category e) v (type e) (value e) (editMode e).
Definition set_type (v : Z) (e : rpcPropertyEntry) :=
  mkEntry (key e) (text e) (desc e) (name e) (category e) (platform e) v (value e) (editMode e).
Definition set_value (v : Z) (e : rpcPropertyEntry) :=
  mkEntry (key e) (text e) (desc e) (name e) (category e) (platform e) (type e) v (editMode e).

(** [rpcProjectConfigRaw]: [entryCount] and the heap array of that many
    entries, kept as the list of the entries. *)
Definition rpcProjectConfigRaw := list rpcPropertyEntry.
Definition entryCount (raw : rpcProjectConfigRaw) : nat := List.length raw.

(** Modelled from the spec: the value record of the rini key/value store
    ([external/rini.h] is not among the sources).  It has the four members
    [LoadProjectConfigRaw] reads; [key] is the whole [char] array, [text] and
    [desc] the C strings held in theirs, [isText] tells a quoted value from
    an unquoted one. *)
Module rini.
Record value := mk {
  key : string;
  text : string;
  desc : string;
  isText : bool
}.
End rini.

(** *** LoadProjectConfigRaw *)

(** [for (int c = 0; c < 128; c++) { if (p[c] != '_') len++; else break; }]
    over the cells reachable from [p]; [c] and [len] advance together.
    [iters] is the number of iterations left. *)
Fixpoint segment_len (cells : string) (iters len : nat) {struct iters} : result nat :=
  match iters with
  | 0 => Ok len
  | S iters' =>
      match cells with
      | EmptyString => MemFault
      | String ch rest =>
          if Ascii.eqb ch "_" then Ok len
          else segment_len rest iters' (S len)
      end
  end.

(** The platform table of the [PLATFORM] branch; the entry keeps the
    platform it has when no name matches. *)
Definition platform_of (platformText : string) (current : Z) : Z :=
  if TextIsEqual platformText "WINDOWS" then RPC_PLATFORM_WINDOWS
  else if TextIsEqual platformText "LINUX" then RPC_PLATFORM_LINUX
  else if TextIsEqual platformText "MACOS" then RPC_PLATFORM_MACOS
  else if TextIsEqual platformText "HTML5" then RPC_PLATFORM_HTML5
  else if TextIsEqual platformText "ANDROID" then RPC_PLATFORM_ANDROID
  else if TextIsEqual platformText "DRM" then RPC_PLATFORM_DRM
  else if TextIsEqual platformText "SWITCH" then RPC_PLATFORM_SWITCH
  else if TextIsEqual platformText "DREAMCAST" then RPC_PLATFORM_DREAMCAST
  else if TextIsEqual platformText "FREEBSD" then RPC_PLATFORM_FREEBSD
  else current.

(** Body of the first loop: key, description, name, category, platform. *)
Definition load_entry_names (v : rini.value) (e : rpcPropertyEntry)
  : result rpcPropertyEntry :=
  k <- cstr (rini.key v) ;;
  k <- strcpy 64 k ;;
  d <- strcpy 128 (rini.desc v) ;;
  let e := set_platform RPC_PLATFORM_ANY (set_desc d (set_key k e)) in
  (* Category is parsed from first word on key *)
  categoryLen <- segment_len (rini.key v) 128 0 ;;
  category <- strncpy (zeros 32) (rini.key v) categoryLen ;;
  n <- cstr (skip (categoryLen + 1) (rini.key v)) ;;
  n <- strcpy 64 (replace_from "_" " " n 0) ;;
  let e := set_name n e in
  let category := cstr_prefix category in
  if TextIsEqual category "PROJECT" then Ok (set_category RPC_CAT_PROJECT e)
  else if TextIsEqual category "BUILD" then Ok (set_category RPC_CAT_BUILD e)
  else if TextIsEqual category "PLATFORM" then
    let e := set_category RPC_CAT_PLATFORM e in
    (* Get platform from key *)
    platformLen <- segment_len (skip (categoryLen + 1) (rini.key v)) 128 0 ;;
    platform' <- memcpy (zeros 32) (skip (categoryLen + 1) (rini.key v)) platformLen ;;
    let e := set_platform (platform_of (cstr_prefix platform') (platform e)) e in
    n <- cstr (skip (categoryLen + platformLen + 2) (rini.key v)) ;;
    n <- strcpy 64 n ;;
    Ok (set_name n e)
  else if TextIsEqual category "DEPLOY" then Ok (set_category RPC_CAT_DEPLOY e)
  else if TextIsEqual category "IMAGERY" then Ok (set_category RPC_CAT_IMAGERY e)
  else if TextIsEqual category "RAYLIB" then Ok (set_category RPC_CAT_RAYLIB e)
  else Ok e.

(** C truth value of an [int] used as a condition. *)
Definition c_true (z : Z) : bool := negb (z =? 0)%Z.

(** Body of the second loop: type, value, text. *)
Definition load_entry_type (v : rini.value) (e : rpcPropertyEntry)
  : result rpcPropertyEntry :=
  if negb (rini.isText v) then
    let e :=
      if c_true (TextFindIndex (key e) "_FLAG") then set_type RPC_TYPE_BOOL e
      else set_type RPC_TYPE_VALUE e in
    (* Get the value *)
    Ok (set_value (TextToInteger (rini.text v)) e)
  else (* Value is text *)
    let e :=
      if (TextFindIndex (key e) "_FILES" >? 0)%Z then set_type RPC_TYPE_TEXT_FILE e
      else if (TextFindIndex (key e) "_FILE" >? 0)%Z then set_type RPC_TYPE_TEXT_FILE e
      else if (TextFindIndex (key e) "_PATH" >? 0)%Z then set_type RPC_TYPE_TEXT_PATH e
      else set_type RPC_TYPE_TEXT e in
    t <- strcpy 256 (rini.text v) ;;
    Ok (set_text t e).

(** The whole per-entry work of the two loops; the loops touch entry [i]
    only, so they compose entry by entry. *)
Definition load_entry (v : rini.value) : result rpcPropertyEntry :=
  e <- load_entry_names v zero_entry ;;
  load_entry_type v e.

(** [LoadProjectConfigRaw(fileName)], given what [rini_load] returns for the
    file; [None] when [FileExists] is false. *)
Definition LoadProjectConfigRaw (config : option (list rini.value))
  : result rpcProjectConfigRaw :=
  match config with
  | None => Ok []
  | Some values =>
      raw <- mapM (fun v => load_entry_names v zero_entry) values ;;
      mapM (fun ve => load_entry_type (fst ve) (snd ve)) (combine values raw)
  end.

(** *** rpcProjectConfig

    One module per nested [struct]; [char] arrays are the C strings they
    hold, [char] scalars and [int]s are in [Z].  [Imagery.images] (raylib
    [Image]s) is left out: no function here reads it.  The header names
    [Project.selectedTemplate] [selectedSource]; [SetupProject] reads it
    under the name used here. *)

Module Project.
Record t := mk {
  commercialName : string;
  repoName : string;
  internalName : string;
  shortName : string;
  year : Z;
  version : string;
  description : string;
  publisherName : string;
  developerName : string;
  developerUrl : string;
  developerEmail : string;
  iconFile : string;
  sourcePath : string;
  assetsPath : string;
  assetsOutPath : string;
  sourceFileCount : nat;
  sourceFilePaths : list string;
  assetFileCount : nat;
  assetFilePaths : list string;
  selectedTemplate : Z;
  generationOutPath : string
}.
Definition set_commercialName (v : string) (r : t) : t :=
  mk v (repoName r) (internalName r) (shortName r) (year r) (version r) (description r) (publisherName r) (developerName r) (developerUrl r) (developerEmail r) (iconFile r) (sourcePath r) (assetsPath r) (assetsOutPath r) (sourceFileCount r) (sourceFilePaths r) (assetFileCount r) (assetFilePaths r) (selectedTemplate r) (generationOutPath r).
Definition set_repoName (v : string) (r : t) : t :=
  mk (commercialName r) v (internalName r) (shortName r) (year r) (version r) (description r) (publisherName r) (developerName r) (developerUrl r) (developerEmail r) (iconFile r) (sourcePath r) (assetsPath r) (assetsOutPath r) (sourceFileCount r) (sourceFilePaths r) (assetFileCount r) (assetFilePaths r) (selectedTemplate r) (generationOutPath r).
Definition set_internalName (v : string) (r : t) : t :=
  mk (commercialName r) (repoName r) v (shortName r) (year r) (version r) (description r) (publisherName r) (developerName r) (developerUrl r) (developerEmail r) (iconFile r) (sourcePath r) (assetsPath r) (assetsOutPath r) (sourceFileCount r) (sourceFilePaths r) (assetFileCount r) (assetFilePaths r) (selectedTemplate r) (generationOutPath r).
Definition set_shortName (v : string) (r : t) : t :=
  mk (commercialName r) (repoName r) (internalName r) v (year r) (version r) (description r) (publisherName r) (developerName r) (developerUrl r) (developerEmail r) (iconFile r) (sourcePath r) (assetsPath r) (assetsOutPath r) (sourceFileCount r) (sourceFilePaths r) (assetFileCount r) (assetFilePaths r) (selectedTemplate r) (generationOutPath r).
Definition set_version (v : string) (r : t) : t :=
  mk (commercialName r) (repoName r) (internalName r) (shortName r) (year r) v (description r) (publisherName r) (developerName r) (developerUrl r) (developerEmail r) (iconFile r) (sourcePath r) (assetsPath r) (assetsOutPath r) (sourceFileCount r) (sourceFilePaths r) (assetFileCount r) (assetFilePaths r) (selectedTemplate r) (generationOutPath r).
Definition set_description (v : string) (r : t) : t :=
  mk (commercialName r) (repoName r) (internalName r) (shortName r) (year r) (version r) v (publisherName r) (developerName r) (developerUrl r) (developerEmail r) (iconFile r) (sourcePath r) (assetsPath r) (assetsOutPath r) (sourceFileCount r) (sourceFilePaths r) (assetFileCount r) (assetFilePaths r) (selectedTemplate r) (generationOutPath r).
Definition set_publisherName (v : string) (r : t) : t :=
  mk (commercialName r) (repoName r) (internalName r) (shortName r) (year r) (version r) (description r) v (developerName r) (developerUrl r) (developerEmail r) (iconFile r) (sourcePath r) (assetsPath r) (assetsOutPath r) (sourceFileCount r) (sourceFilePaths r) (assetFileCount r) (assetFilePaths r) (selectedTemplate r) (generationOutPath r).
Definition set_developerName (v : string) (r : t) : t :=
  mk (commercialName r) (repoName r) (internalName r) (shortName r) (year r) (version r) (description r) (publisherName r) v (developerUrl r) (developerEmail r) (iconFile r) (sourcePath r) (assetsPath r) (assetsOutPath r) (sourceFileCount r) (sourceFilePaths r) (assetFileCount r) (assetFilePaths r) (selectedTemplate r) (generationOutPath r).
Definition set_developerUrl (v : string) (r : t) : t :=
  mk (commercialName r) (repoName r) (internalName r) (shortName r) (year r) (version r) (description r) (publisherName r) (developerName r) v (developerEmail r) (iconFile r) (sourcePath r) (assetsPath r) (assetsOutPath r) (sourceFileCount r) (sourceFilePaths r) (assetFileCount r) (assetFilePaths r) (selectedTemplate r) (generationOutPath r).
Definition set_developerEmail (v : string) (r : t) : t :=
  mk (commercialName r) (repoName r) (internalName r) (shortName r) (year r) (version r) (description r) (publisherName r) (developerName r) (developerUrl r) v (iconFile r) (sourcePath r) (assetsPath r) (assetsOutPath r) (sourceFileCount r) (sourceFilePaths r) (assetFileCount r) (assetFilePaths r) (selectedTemplate r) (generationOutPath r).
Definition set_iconFile (v : string) (r : t) : t :=
  mk (commercialName r) (repoName r) (internalName r) (shortName r) (year r) (version r) (description r) (publisherName r) (developerName r) (developerUrl r) (developerEmail r) v (sourcePath r) (assetsPath r) (assetsOutPath r) (sourceFileCount r) (sourceFilePaths r) (assetFileCount r) (assetFilePaths r) (selectedTemplate r) (generationOutPath r).
Definition set_sourcePath (v : string) (r : t) : t :=
  mk (commercialName r) (repoName r) (internalName r) (shortName r) (year r) (version r) (description r) (publisherName r) (developerName r) (developerUrl r) (developerEmail r) (iconFile r) v (assetsPath r) (assetsOutPath r) (sourceFileCount r) (sourceFilePaths r) (assetFileCount r) (assetFilePaths r) (selectedTemplate r) (generationOutPath r).
Definition set_assetsPath (v : string) (r : t) : t :=
  mk (commercialName r) (repoName r) (internalName r) (shortName r) (year r) (version r) (description r) (publisherName r) (developerName r) (developerUrl r) (developerEmail r) (iconFile r) (sourcePath r) v (assetsOutPath r) (sourceFileCount r) (sourceFilePaths r) (assetFileCount r) (assetFilePaths r) (selectedTemplate r) (generationOutPath r).
Definition set_assetsOutPath (v : string) (r : t) : t :=
  mk (commercialName r) (repoName r) (internalName r) (shortName r) (year r) (version r) (description r) (publisherName r) (developerName r) (developerUrl r) (developerEmail r) (iconFile r) (sourcePath r) (assetsPath r) v (sourceFileCount r) (sourceFilePaths r) (assetFileCount r) (assetFilePaths r) (selectedTemplate r) (generationOutPath r).
End Project.

Module Build.
Record t := mk {
  outputPath : string;
  assetsValidation : bool;
  assetsPackaging : bool;
  rrpPackagerPath : string;
  requestedBuildSystems : list bool;
  targetPlatform : string;
  targetArchitecture : string;
  targetMode : string
}.
Definition set_outputPath (v : string) (r : t) : t :=
  mk v (assetsValidation r) (assetsPackaging r) (rrpPackagerPath r) (requestedBuildSystems r) (targetPlatform r) (targetArchitecture r) (targetMode r).
Definition set_assetsValidation (v : bool) (r : t) : t :=
  mk (outputPath r) v (assetsPackaging r) (rrpPackagerPath r) (requestedBuildSystems r) (targetPlatform r) (targetArchitecture r) (targetMode r).
Definition set_assetsPackaging (v : bool) (r : t) : t :=
  mk (outputPath r) (assetsValidation r) v (rrpPackagerPath r) (requestedBuildSystems r) (targetPlatform r) (targetArchitecture r) (targetMode r).
Definition set_targetPlatform (v : string) (r : t) : t :=
  mk (outputPath r) (assetsValidation r) (assetsPackaging r) (rrpPackagerPath r) (requestedBuildSystems r) v (targetArchitecture r) (targetMode r).
Definition set_targetArchitecture (v : string) (r : t) : t :=
  mk (outputPath r) (assetsValidation r) (assetsPackaging r) (rrpPackagerPath r) (requestedBuildSystems r) (targetPlatform r) v (targetMode r).
Definition set_targetMode (v : string) (r : t) : t :=
  mk (outputPath r) (assetsValidation r) (assetsPackaging r) (rrpPackagerPath r) (requestedBuildSystems r) (targetPlatform r) (targetArchitecture r) v.
End Build.

Module Platform.
Module Windows.
Record t := mk {
  msbuildPath : string;
  w64devkitPath : string;
  signtoolPath : string;
  signCertFile : string
}.
Definition set_msbuildPath (v : string) (r : t) : t :=
  mk v (w64devkitPath r) (signtoolPath r) (signCertFile r).
Definition set_w64devkitPath (v : string) (r : t) : t :=
  mk (msbuildPath r) v (signtoolPath r) (signCertFile r).
Definition set_signtoolPath (v : string) (r : t) : t :=
  mk (msbuildPath r) (w64devkitPath r) v (signCertFile r).
Definition set_signCertFile (v : string) (r : t) : t :=
  mk (msbuildPath r) (w64devkitPath r) (signtoolPath r) v.
End Windows.

Module Linux.
Record t := mk {
  useCrossCompiler : bool;
  crossCompilerPath : Z
}.
Definition set_useCrossCompiler (v : bool) (r : t) : t :=
  mk v (crossCompilerPath r).
End Linux.

Module macOS.
Record t := mk {
  bundleInfoFile : string;
  bundleName : string;
  bundleVersion : string;
  bundleIconFile : string
}.
Definition set_bundleInfoFile (v : string) (r : t) : t :=
  mk v (bundleName r) (bundleVersion r) (bundleIconFile r).
Definition set_bundleName (v : string) (r : t) : t :=
  mk (bundleInfoFile r) v (bundleVersion r) (bundleIconFile r).
Definition set_bundleVersion (v : string) (r : t) : t :=
  mk (bundleInfoFile r) (bundleName r) v (bundleIconFile r).
End macOS.

Module HTML5.
Record t := mk {
  emsdkPath : string;
  shellFile : string;
  heapMemorySize : Z;
  useAsincify : bool;
  useWebGL2 : bool
}.
Definition set_emsdkPath (v : string) (r : t) : t :=
  mk v (shellFile r) (heapMemorySize r) (useAsincify r) (useWebGL2 r).
Definition set_shellFile (v : string) (r : t) : t :=
  mk (emsdkPath r) v (heapMemorySize r) (useAsincify r) (useWebGL2 r).
Definition set_heapMemorySize (v : Z) (r : t) : t :=
  mk (emsdkPath r) (shellFile r) v (useAsincify r) (useWebGL2 r).
Definition set_useAsincify (v : bool) (r : t) : t :=
  mk (emsdkPath r) (shellFile r) (heapMemorySize r) v (useWebGL2 r).
End HTML5.

Module Android.
Record t := mk {
  sdkPath : string;
  ndkPath : string;
  javaSdkPath : string;
  manifestFile : string;
  minSdkVersion : Z;
  targetSdkVersion : Z
}.
Definition set_sdkPath (v : string) (r : t) : t :=
  mk v (ndkPath r) (javaSdkPath r) (manifestFile r) (minSdkVersion r) (targetSdkVersion r).
Definition set_ndkPath (v : string) (r : t) : t :=
  mk (sdkPath r) v (javaSdkPath r) (manifestFile r) (minSdkVersion r) (targetSdkVersion r).
Definition set_javaSdkPath (v : string) (r : t) : t :=
  mk (sdkPath r) (ndkPath r) v (manifestFile r) (minSdkVersion r) (targetSdkVersion r).
Definition set_manifestFile (v : string) (r : t) : t :=
  mk (sdkPath r) (ndkPath r) (javaSdkPath r) v (minSdkVersion r) (targetSdkVersion r).
Definition set_minSdkVersion (v : Z) (r : t) : t :=
  mk (sdkPath r) (ndkPath r) (javaSdkPath r) (manifestFile r) v (targetSdkVersion r).
Definition set_targetSdkVersion (v : Z) (r : t) : t :=
  mk (sdkPath r) (ndkPath r) (javaSdkPath r) (manifestFile r) (minSdkVersion r) v.
End Android.

Module DRM.
Record t := mk {
  useCrossCompiler : bool;
  crossCompilerPath : Z
}.
Definition set_useCrossCompiler (v : bool) (r : t) : t :=
  mk v (crossCompilerPath r).
End DRM.

Module FreeBSD.
Record t := mk {
  placeholder : bool
}.
End FreeBSD.

Module Dreamcast.
Record t := mk {
  sdkPath : string
}.
Definition set_sdkPath (v : string) (r : t) : t :=
  mk v.
End Dreamcast.

Record t := mk {
  Windows : Windows.t;
  Linux : Linux.t;
  macOS : macOS.t;
  HTML5 : HTML5.t;
  Android : Android.t;
  DRM : DRM.t;
  FreeBSD : FreeBSD.t;
  Dreamcast : Dreamcast.t
}.
Definition set_Windows (v : Windows.t) (r : t) : t :=
  mk v (Linux r) (macOS r) (HTML5 r) (Android r) (DRM r) (FreeBSD r) (Dreamcast r).
Definition set_Linux (v : Linux.t) (r : t) : t :=
  mk (Windows r) v (macOS r) (HTML5 r) (Android r) (DRM r) (FreeBSD r) (Dreamcast r).
Definition set_macOS (v : macOS.t) (r : t) : t :=
  mk (Windows r) (Linux r) v (HTML5 r) (Android r) (DRM r) (FreeBSD r) (Dreamcast r).
Definition set_HTML5 (v : HTML5.t) (r : t) : t :=
  mk (Windows r) (Linux r) (macOS r) v (Android r) (DRM r) (FreeBSD r) (Dreamcast r).
Definition set_Android (v : Android.t) (r : t) : t :=
  mk (Windows r) (Linux r) (macOS r) (HTML5 r) v (DRM r) (FreeBSD r) (Dreamcast r).
Definition set_DRM (v : DRM.t) (r : t) : t :=
  mk (Windows r) (Linux r) (macOS r) (HTML5 r) (Android r) v (FreeBSD r) (Dreamcast r).
Definition set_Dreamcast (v : Dreamcast.t) (r : t) : t :=
  mk (Windows r) (Linux r) (macOS r) (HTML5 r) (Android r) (DRM r) (FreeBSD r) v.
End Platform.

Module Deploy.
Record t := mk {
  zipPackage : bool;
  rifInstaller : bool;
  rifInstallerPath : string;
  includeREADME : bool;
  readmePath : string;
  includeEULA : bool;
  eulaPath : string
}.
Definition set_zipPackage (v : bool) (r : t) : t :=
  mk v (rifInstaller r) (rifInstallerPath r) (includeREADME r) (readmePath r) (includeEULA r) (eulaPath r).
Definition set_rifInstaller (v : bool) (r : t) : t :=
  mk (zipPackage r) v (rifInstallerPath r) (includeREADME r) (readmePath r) (includeEULA r) (eulaPath r).
Definition set_rifInstallerPath (v : string) (r : t) : t :=
  mk (zipPackage r) (rifInstaller r) v (includeREADME r) (readmePath r) (includeEULA r) (eulaPath r).
Definition set_readmePath (v : string) (r : t) : t :=
  mk (zipPackage r) (rifInstaller r) (rifInstallerPath r) (includeREADME r) v (includeEULA r) (eulaPath r).
Definition set_includeEULA (v : bool) (r : t) : t :=
  mk (zipPackage r) (rifInstaller r) (rifInstallerPath r) (includeREADME r) (readmePath r) v (eulaPath r).
Definition set_eulaPath (v : string) (r : t) : t :=
  mk (zipPackage r) (rifInstaller r) (rifInstallerPath r) (includeREADME r) (readmePath r) (includeEULA r) v.
End Deploy.

Module Imagery.
Record t := mk {
  logoFile : string;
  splashFile : string;
  genImageryAuto : bool
}.
Definition set_logoFile (v : string) (r : t) : t :=
  mk v (splashFile r) (genImageryAuto r).
Definition set_splashFile (v : string) (r : t) : t :=
  mk (logoFile r) v (genImageryAuto r).
Definition set_genImageryAuto (v : bool) (r : t) : t :=
  mk (logoFile r) (splashFile r) v.
End Imagery.

Module raylib.
Record t := mk {
  srcPath : string;
  version : string;
  glVersion : string
}.
Definition set_srcPath (v : string) (r : t) : t :=
  mk v (version r) (glVersion r).
Definition set_glVersion (v : string) (r : t) : t :=
  mk (srcPath r) (version r) v.
End raylib.

Record rpcProjectConfig := mkConfig {
  Project : Project.t;
  Build : Build.t;
  Platform : Platform.t;
  Deploy : Deploy.t;
  Imagery : Imagery.t;
  raylib : raylib.t
}.
Definition set_Project (v : Project.t) (r : rpcProjectConfig) : rpcProjectConfig :=
  mkConfig v (Build r) (Platform r) (Deploy r) (Imagery r) (raylib r).
Definition set_Build (v : Build.t) (r : rpcProjectConfig) : rpcProjectConfig :=
  mkConfig (Project r) v (Platform r) (Deploy r) (Imagery r) (raylib r).
Definition set_Platform (v : Platform.t) (r : rpcProjectConfig) : rpcProjectConfig :=
  mkConfig (Project r) (Build r) v (Deploy r) (Imagery r) (raylib r).
Definition set_Deploy (v : Deploy.t) (r : rpcProjectConfig) : rpcProjectConfig :=
  mkConfig (Project r) (Build r) (Platform r) v (Imagery r) (raylib r).
Definition set_Imagery (v : Imagery.t) (r : rpcProjectConfig) : rpcProjectConfig :=
  mkConfig (Project r) (Build r) (Platform r) (Deploy r) v (raylib r).
Definition set_raylib (v : raylib.t) (r : rpcProjectConfig) : rpcProjectConfig :=
  mkConfig (Project r) (Build r) (Platform r) (Deploy r) (Imagery r) v.


(** A configuration as [RL_CALLOC] leaves it. *)
Definition zero_config : rpcProjectConfig :=
  mkConfig
    (Project.mk "" "" "" "" 0 "" "" "" "" "" "" "" "" "" "" 0 [] 0 [] 0 "")
    (Build.mk "" false false "" [false; false; false; false; false; false] "" "" "")
    (Platform.mk
       (Platform.Windows.mk "" "" "" "")
       (Platform.Linux.mk false 0)
       (Platform.macOS.mk "" "" "" "")
       (Platform.HTML5.mk "" "" 0 false false)
       (Platform.Android.mk "" "" "" "" 0 0)
       (Platform.DRM.mk false 0)
       (Platform.FreeBSD.mk false)
       (Platform.Dreamcast.mk ""))
    (Deploy.mk false false "" false "" false "")
    (Imagery.mk "" "" false)
    (raylib.mk "" "" "").

(** *** Integer conversions *)

(** [int] to [bool]. *)
Definition int_to_bool (v : Z) : bool := negb (v =? 0)%Z.
(** [bool] to [int]. *)
Definition bool_to_int (b : bool) : Z := if b then 1%Z else 0%Z.
(** [int] to (signed, 8-bit) [char]. *)
Definition int_to_char (v : Z) : Z := ((v + 128) mod 256 - 128)%Z.

(** *** SyncProjectConfig: raw entries to configuration *)

Definition SyncProjectConfig_entry (e : rpcPropertyEntry) (dst : rpcProjectConfig)
  : result rpcProjectConfig :=
  if TextIsEqual (key e) "PROJECT_INTERNAL_NAME" then
    v <- strcpy 64 (text e) ;;
    Ok (set_Project (Project.set_internalName v (Project dst)) dst)
  else if TextIsEqual (key e) "PROJECT_REPO_NAME" then
    v <- strcpy 64 (text e) ;;
    Ok (set_Project (Project.set_repoName v (Project dst)) dst)
  else if TextIsEqual (key e) "PROJECT_COMMERCIAL_NAME" then
    v <- strcpy 64 (text e) ;;
    Ok (set_Project (Project.set_commercialName v (Project dst)) dst)
  else if TextIsEqual (key e) "PROJECT_SHORT_NAME" then
    v <- strcpy 64 (text e) ;;
    Ok (set_Project (Project.set_shortName v (Project dst)) dst)
  else if TextIsEqual (key e) "PROJECT_VERSION" then
    v <- strcpy 16 (text e) ;;
    Ok (set_Project (Project.set_version v (Project dst)) dst)
  else if TextIsEqual (key e) "PROJECT_DESCRIPTION" then
    v <- strcpy 256 (text e) ;;
    Ok (set_Project (Project.set_description v (Project dst)) dst)
  else if TextIsEqual (key e) "PROJECT_PUBLISHER_NAME" then
    v <- strcpy 64 (text e) ;;
    Ok (set_Project (Project.set_publisherName v (Project dst)) dst)
  else if TextIsEqual (key e) "PROJECT_DEVELOPER_NAME" then
    v <- strcpy 64 (text e) ;;
    Ok (set_Project (Project.set_developerName v (Project dst)) dst)
  else if TextIsEqual (key e) "PROJECT_DEVELOPER_URL" then
    v <- strcpy 64 (text e) ;;
    Ok (set_Project (Project.set_developerUrl v (Project dst)) dst)
  else if TextIsEqual (key e) "PROJECT_DEVELOPER_EMAIL" then
    v <- strcpy 64 (text e) ;;
    Ok (set_Project (Project.set_developerEmail v (Project dst)) dst)
  else if TextIsEqual (key e) "PROJECT_ICON_FILE" then
    v <- strcpy 256 (text e) ;;
    Ok (set_Project (Project.set_iconFile v (Project dst)) dst)
  else if TextIsEqual (key e) "PROJECT_SOURCE_PATH" then
    v <- strcpy 256 (text e) ;;
    Ok (set_Project (Project.set_sourcePath v (Project dst)) dst)
  else if TextIsEqual (key e) "PROJECT_ASSETS_PATH" then
    v <- strcpy 256 (text e) ;;
    Ok (set_Project (Project.set_assetsPath v (Project dst)) dst)
  else if TextIsEqual (key e) "PROJECT_ASSETS_OUTPUT_PATH" then
    v <- strcpy 256 (text e) ;;
    Ok (set_Project (Project.set_assetsOutPath v (Project dst)) dst)
  else if TextIsEqual (key e) "RAYLIB_SRC_PATH" then
    v <- strcpy 256 (text e) ;;
    Ok (set_raylib (raylib.set_srcPath v (raylib dst)) dst)
  else if TextIsEqual (key e) "RAYLIB_OPENGL_VERSION" then
    v <- strcpy 16 (text e) ;;
    Ok (set_raylib (raylib.set_glVersion v (raylib dst)) dst)
  else if TextIsEqual (key e) "BUILD_OUTPUT_PATH" then
    v <- strcpy 256 (text e) ;;
    Ok (set_Build (Build.set_outputPath v (Build dst)) dst)
  else if TextIsEqual (key e) "BUILD_TARGET_PLATFORM" then
    v <- strcpy 64 (text e) ;;
    Ok (set_Build (Build.set_targetPlatform v (Build dst)) dst)
  else if TextIsEqual (key e) "BUILD_TARGET_ARCHITECTURE" then
    v <- strcpy 64 (text e) ;;
    Ok (set_Build (Build.set_targetArchitecture v (Build dst)) dst)
  else if TextIsEqual (key e) "BUILD_TARGET_MODE" then
    v <- strcpy 64 (text e) ;;
    Ok (set_Build (Build.set_targetMode v (Build dst)) dst)
  else if TextIsEqual (key e) "BUILD_FLAG_ASSETS_VALIDATION" then
    Ok (set_Build (Build.set_assetsValidation (int_to_bool (value e)) (Build dst)) dst)
  else if TextIsEqual (key e) "BUILD_FLAG_ASSETS_PACKAGING" then
    Ok (set_Build (Build.set_assetsPackaging (int_to_bool (value e)) (Build dst)) dst)
  else if TextIsEqual (key e) "PLATFORM_WINDOWS_MSBUILD_PATH" then
    v <- strcpy 256 (text e) ;;
    Ok (set_Platform (Platform.set_Windows (Platform.Windows.set_msbuildPath v (Platform.Windows (Platform dst))) (Platform dst)) dst)
  else if TextIsEqual (key e) "PLATFORM_WINDOWS_W64DEVKIT_PATH" then
    v <- strcpy 256 (text e) ;;
    Ok (set_Platform (Platform.set_Windows (Platform.Windows.set_w64devkitPath v (Platform.Windows (Platform dst))) (Platform dst)) dst)
  else if TextIsEqual (key e) "PLATFORM_WINDOWS_SIGNTOOL_PATH" then
    v <- strcpy 256 (text e) ;;
    Ok (set_Platform (Platform.set_Windows (Platform.Windows.set_signtoolPath v (Platform.Windows (Platform dst))) (Platform dst)) dst)
  else if TextIsEqual (key e) "PLATFORM_WINDOWS_SIGNCERT_FILE" then
    v <- strcpy 256 (text e) ;;
    Ok (set_Platform (Platform.set_Windows (Platform.Windows.set_signCertFile v (Platform.Windows (Platform dst))) (Platform dst)) dst)
  else if TextIsEqual (key e) "PLATFORM_LINUX_FLAG_CROSS_COMPILE" then
    Ok (set_Platform (Platform.set_Linux (Platform.Linux.set_useCrossCompiler (int_to_bool (value e)) (Platform.Linux (Platform dst))) (Platform dst)) dst)
  else if TextIsEqual (key e) "PLATFORM_LINUX_CROSS_COMPILER_PATH" then
    (* strcpy to a [char] taken as a pointer *)
    MemFault
  else if TextIsEqual (key e) "PLATFORM_MACOS_BUNDLE_INFO_FILE" then
    v <- strcpy 256 (text e) ;;
    Ok (set_Platform (Platform.set_macOS (Platform.macOS.set_bundleInfoFile v (Platform.macOS (Platform dst))) (Platform dst)) dst)
  else if TextIsEqual (key e) "PLATFORM_MACOS_BUNDLE_NAME" then
    v <- strcpy 256 (text e) ;;
    Ok (set_Platform (Platform.set_macOS (Platform.macOS.set_bundleName v (Platform.macOS (Platform dst))) (Platform dst)) dst)
  else if TextIsEqual (key e) "PLATFORM_MACOS_BUNDLE_VERSION" then
    v <- strcpy 16 (text e) ;;
    Ok (set_Platform (Platform.set_macOS (Platform.macOS.set_bundleVersion v (Platform.macOS (Platform dst))) (Platform dst)) dst)
  else if TextIsEqual (key e) "PLATFORM_HTML5_EMSDK_PATH" then
    v <- strcpy 256 (text e) ;;
    Ok (set_Platform (Platform.set_HTML5 (Platform.HTML5.set_emsdkPath v (Platform.HTML5 (Platform dst))) (Platform dst)) dst)
  else if TextIsEqual (key e) "PLATFORM_HTML5_SHELL_FILE" then
    v <- strcpy 256 (text e) ;;
    Ok (set_Platform (Platform.set_HTML5 (Platform.HTML5.set_shellFile v (Platform.HTML5 (Platform dst))) (Platform dst)) dst)
  else if TextIsEqual (key e) "PLATFORM_HTML5_HEAP_MEMORY_SIZE" then
    Ok (set_Platform (Platform.set_HTML5 (Platform.HTML5.set_heapMemorySize (value e) (Platform.HTML5 (Platform dst))) (Platform dst)) dst)
  else if TextIsEqual (key e) "PLATFORM_HTML5_FLAG_USE_ASINCIFY" then
    Ok (set_Platform (Platform.set_HTML5 (Platform.HTML5.set_useAsincify (int_to_bool (value e)) (Platform.HTML5 (Platform dst))) (Platform dst)) dst)
  else if TextIsEqual (key e) "PLATFORM_HTML5_FLAG_USE_WEBGL2" then
    (* [Platform.HTML5.useWebGL2, value;] a comma expression: nothing is stored *)
    Ok dst
  else if TextIsEqual (key e) "PLATFORM_ANDROID_SDK_PATH" then
    v <- strcpy 256 (text e) ;;
    Ok (set_Platform (Platform.set_Android (Platform.Android.set_sdkPath v (Platform.Android (Platform dst))) (Platform dst)) dst)
  else if TextIsEqual (key e) "PLATFORM_ANDROID_NDK_PATH" then
    v <- strcpy 256 (text e) ;;
    Ok (set_Platform (Platform.set_Android (Platform.Android.set_ndkPath v (Platform.Android (Platform dst))) (Platform dst)) dst)
  else if TextIsEqual (key e) "PLATFORM_ANDROID_JAVA_SDK_PATH" then
    v <- strcpy 256 (text e) ;;
    Ok (set_Platform (Platform.set_Android (Platform.Android.set_javaSdkPath v (Platform.Android (Platform dst))) (Platform dst)) dst)
  else if TextIsEqual (key e) "PLATFORM_ANDROID_MANIFEST_FILE" then
    v <- strcpy 256 (text e) ;;
    Ok (set_Platform (Platform.set_Android (Platform.Android.set_manifestFile v (Platform.Android (Platform dst))) (Platform dst)) dst)
  else if TextIsEqual (key e) "PLATFORM_ANDROID_MIN_SDK_VERSION" then
    Ok (set_Platform (Platform.set_Android (Platform.Android.set_minSdkVersion (int_to_char (value e)) (Platform.Android (Platform dst))) (Platform dst)) dst)
  else if TextIsEqual (key e) "PLATFORM_ANDROID_TARGET_SDK_VERSION" then
    Ok (set_Platform (Platform.set_Android (Platform.Android.set_targetSdkVersion (int_to_char (value e)) (Platform.Android (Platform dst))) (Platform dst)) dst)
  else if TextIsEqual (key e) "PLATFORM_DRM_FLAG_CROSS_COMPILE" then
    Ok (set_Platform (Platform.set_DRM (Platform.DRM.set_useCrossCompiler (int_to_bool (value e)) (Platform.DRM (Platform dst))) (Platform dst)) dst)
  else if TextIsEqual (key e) "PLATFORM_DRM_CROSS_COMPILER_PATH" then
    (* strcpy to a [char] taken as a pointer *)
    MemFault
  else if TextIsEqual (key e) "PLATFORM_DREAMCAST_SDK_PATH" then
    v <- strcpy 256 (text e) ;;
    Ok (set_Platform (Platform.set_Dreamcast (Platform.Dreamcast.set_sdkPath v (Platform.Dreamcast (Platform dst))) (Platform dst)) dst)
  else if TextIsEqual (key e) "DEPLOY_FLAG_ZIP_PACKAGE" then
    Ok (set_Deploy (Deploy.set_zipPackage (int_to_bool (value e)) (Deploy dst)) dst)
  else if TextIsEqual (key e) "DEPLOY_FLAG_RIF_INSTALLER" then
    Ok (set_Deploy (Deploy.set_rifInstaller (int_to_bool (value e)) (Deploy dst)) dst)
  else if TextIsEqual (key e) "DEPLOY_RIF_INSTALLER_PATH" then
    v <- strcpy 256 (text e) ;;
    Ok (set_Deploy (Deploy.set_rifInstallerPath v (Deploy dst)) dst)
  else if TextIsEqual (key e) "DEPLOY_FLAG_INCUDE_README" then
    (* [Deploy.includeREADME, value;] a comma expression: nothing is stored *)
    Ok dst
  else if TextIsEqual (key e) "DEPLOY_README_FILE" then
    v <- strcpy 256 (text e) ;;
    Ok (set_Deploy (Deploy.set_readmePath v (Deploy dst)) dst)
  else if TextIsEqual (key e) "DEPLOY_FLAG_INCUDE_EULA" then
    Ok (set_Deploy (Deploy.set_includeEULA (int_to_bool (value e)) (Deploy dst)) dst)
  else if TextIsEqual (key e) "DEPLOY_EULA_FILE" then
    v <- strcpy 256 (text e) ;;
    Ok (set_Deploy (Deploy.set_eulaPath v (Deploy dst)) dst)
  else if TextIsEqual (key e) "IMAGERY_LOGO_FILE" then
    v <- strcpy 256 (text e) ;;
    Ok (set_Imagery (Imagery.set_logoFile v (Imagery dst)) dst)
  else if TextIsEqual (key e) "IMAGERY_SPLASH_FILE" then
    v <- strcpy 256 (text e) ;;
    Ok (set_Imagery (Imagery.set_splashFile v (Imagery dst)) dst)
  else if TextIsEqual (key e) "IMAGERY_FLAG_GENERATE" then
    Ok (set_Imagery (Imagery.set_genImageryAuto (int_to_bool (value e)) (Imagery dst)) dst)
  else Ok dst.


Definition SyncProjectConfig (src : rpcProjectConfigRaw) (dst : rpcProjectConfig)
  : result rpcProjectConfig :=
  foldM SyncProjectConfig_entry src dst.

(** *** SyncProjectConfigRaw: configuration to raw entries *)

(** [UpdateEntryValue(entry, value)]: an [int] prints in at most 11 chars,
    so the copy into [text[256]] fits. *)
Definition UpdateEntryValue (e : rpcPropertyEntry) (v : Z) : rpcPropertyEntry :=
  set_text (format_int v) (set_value v e).

Definition SyncProjectConfigRaw_entry (src : rpcProjectConfig) (e : rpcPropertyEntry)
  : result rpcPropertyEntry :=
  if TextIsEqual (key e) "PROJECT_INTERNAL_NAME" then
    t <- strcpy 256 (Project.internalName (Project src)) ;; Ok (set_text t e)
  else if TextIsEqual (key e) "PROJECT_REPO_NAME" then
    t <- strcpy 256 (Project.repoName (Project src)) ;; Ok (set_text t e)
  else if TextIsEqual (key e) "PROJECT_COMMERCIAL_NAME" then
    t <- strcpy 256 (Project.commercialName (Project src)) ;; Ok (set_text t e)
  else if TextIsEqual (key e) "PROJECT_SHORT_NAME" then
    t <- strcpy 256 (Project.shortName (Project src)) ;; Ok (set_text t e)
  else if TextIsEqual (key e) "PROJECT_VERSION" then
    t <- strcpy 256 (Project.version (Project src)) ;; Ok (set_text t e)
  else if TextIsEqual (key e) "PROJECT_DESCRIPTION" then
    t <- strcpy 256 (Project.description (Project src)) ;; Ok (set_text t e)
  else if TextIsEqual (key e) "PROJECT_PUBLISHER_NAME" then
    t <- strcpy 256 (Project.publisherName (Project src)) ;; Ok (set_text t e)
  else if TextIsEqual (key e) "PROJECT_DEVELOPER_NAME" then
    t <- strcpy 256 (Project.developerName (Project src)) ;; Ok (set_text t e)
  else if TextIsEqual (key e) "PROJECT_DEVELOPER_URL" then
    t <- strcpy 256 (Project.developerUrl (Project src)) ;; Ok (set_text t e)
  else if TextIsEqual (key e) "PROJECT_DEVELOPER_EMAIL" then
    t <- strcpy 256 (Project.developerEmail (Project src)) ;; Ok (set_text t e)
  else if TextIsEqual (key e) "PROJECT_ICON_FILE" then
    t <- strcpy 256 (Project.iconFile (Project src)) ;; Ok (set_text t e)
  else if TextIsEqual (key e) "PROJECT_SOURCE_PATH" then
    t <- strcpy 256 (Project.sourcePath (Project src)) ;; Ok (set_text t e)
  else if TextIsEqual (key e) "PROJECT_ASSETS_PATH" then
    t <- strcpy 256 (Project.assetsPath (Project src)) ;; Ok (set_text t e)
  else if TextIsEqual (key e) "PROJECT_ASSETS_OUTPUT_PATH" then
    t <- strcpy 256 (Project.assetsOutPath (Project src)) ;; Ok (set_text t e)
  else if TextIsEqual (key e) "RAYLIB_SRC_PATH" then
    t <- strcpy 256 (raylib.srcPath (raylib src)) ;; Ok (set_text t e)
  else if TextIsEqual (key e) "RAYLIB_OPENGL_VERSION" then
    t <- strcpy 256 (raylib.glVersion (raylib src)) ;; Ok (set_text t e)
  else if TextIsEqual (key e) "BUILD_OUTPUT_PATH" then
    t <- strcpy 256 (Build.outputPath (Build src)) ;; Ok (set_text t e)
  else if TextIsEqual (key e) "BUILD_TARGET_PLATFORM" then
    t <- strcpy 256 (Build.targetPlatform (Build src)) ;; Ok (set_text t e)
  else if TextIsEqual (key e) "BUILD_TARGET_ARCHITECTURE" then
    t <- strcpy 256 (Build.targetArchitecture (Build src)) ;; Ok (set_text t e)
  else if TextIsEqual (key e) "BUILD_TARGET_MODE" then
    t <- strcpy 256 (Build.targetMode (Build src)) ;; Ok (set_text t e)
  else if TextIsEqual (key e) "BUILD_FLAG_ASSETS_VALIDATION" then
    Ok (UpdateEntryValue e (bool_to_int (Build.assetsValidation (Build src))))
  else if TextIsEqual (key e) "BUILD_FLAG_ASSETS_PACKAGING" then
    Ok (UpdateEntryValue e (bool_to_int (Build.assetsPackaging (Build src))))
  else if TextIsEqual (key e) "PLATFORM_WINDOWS_MSBUILD_PATH" then
    t <- strcpy 256 (Platform.Windows.msbuildPath (Platform.Windows (Platform src))) ;; Ok (set_text t e)
  else if TextIsEqual (key e) "PLATFORM_WINDOWS_W64DEVKIT_PATH" then
    t <- strcpy 256 (Platform.Windows.w64devkitPath (Platform.Windows (Platform src))) ;; Ok (set_text t e)
  else if TextIsEqual (key e) "PLATFORM_WINDOWS_SIGNTOOL_PATH" then
    t <- strcpy 256 (Platform.Windows.signtoolPath (Platform.Windows (Platform src))) ;; Ok (set_text t e)
  else if TextIsEqual (key e) "PLATFORM_WINDOWS_SIGNCERT_FILE" then
    t <- strcpy 256 (Platform.Windows.signCertFile (Platform.Windows (Platform src))) ;; Ok (set_text t e)
  else if TextIsEqual (key e) "PLATFORM_LINUX_FLAG_CROSS_COMPILE" then
    Ok (UpdateEntryValue e (bool_to_int (Platform.Linux.useCrossCompiler (Platform.Linux (Platform src)))))
  else if TextIsEqual (key e) "PLATFORM_LINUX_CROSS_COMPILER_PATH" then
    (* strcpy from a [char] taken as a pointer *)
    MemFault
  else if TextIsEqual (key e) "PLATFORM_MACOS_BUNDLE_INFO_FILE" then
    t <- strcpy 256 (Platform.macOS.bundleInfoFile (Platform.macOS (Platform src))) ;; Ok (set_text t e)
  else if TextIsEqual (key e) "PLATFORM_MACOS_BUNDLE_NAME" then
    t <- strcpy 256 (Platform.macOS.bundleName (Platform.macOS (Platform src))) ;; Ok (set_text t e)
  else if TextIsEqual (key e) "PLATFORM_MACOS_BUNDLE_VERSION" then
    t <- strcpy 256 (Platform.macOS.bundleVersion (Platform.macOS (Platform src))) ;; Ok (set_text t e)
  else if TextIsEqual (key e) "PLATFORM_HTML5_EMSDK_PATH" then
    t <- strcpy 256 (Platform.HTML5.emsdkPath (Platform.HTML5 (Platform src))) ;; Ok (set_text t e)
  else if TextIsEqual (key e) "PLATFORM_HTML5_SHELL_FILE" then
    t <- strcpy 256 (Platform.HTML5.shellFile (Platform.HTML5 (Platform src))) ;; Ok (set_text t e)
  else if TextIsEqual (key e) "PLATFORM_HTML5_HEAP_MEMORY_SIZE" then
    Ok (UpdateEntryValue e (Platform.HTML5.heapMemorySize (Platform.HTML5 (Platform src))))
  else if TextIsEqual (key e) "PLATFORM_HTML5_FLAG_USE_ASINCIFY" then
    Ok (UpdateEntryValue e (bool_to_int (Platform.HTML5.useAsincify (Platform.HTML5 (Platform src)))))
  else if TextIsEqual (key e) "PLATFORM_HTML5_FLAG_USE_WEBGL2" then
    Ok (UpdateEntryValue e (bool_to_int (Platform.HTML5.useWebGL2 (Platform.HTML5 (Platform src)))))
  else if TextIsEqual (key e) "PLATFORM_ANDROID_SDK_PATH" then
    t <- strcpy 256 (Platform.Android.sdkPath (Platform.Android (Platform src))) ;; Ok (set_text t e)
  else if TextIsEqual (key e) "PLATFORM_ANDROID_NDK_PATH" then
    t <- strcpy 256 (Platform.Android.ndkPath (Platform.Android (Platform src))) ;; Ok (set_text t e)
  else if TextIsEqual (key e) "PLATFORM_ANDROID_JAVA_SDK_PATH" then
    t <- strcpy 256 (Platform.Android.javaSdkPath (Platform.Android (Platform src))) ;; Ok (set_text t e)
  else if TextIsEqual (key e) "PLATFORM_ANDROID_MANIFEST_FILE" then
    t <- strcpy 256 (Platform.Android.manifestFile (Platform.Android (Platform src))) ;; Ok (set_text t e)
  else if TextIsEqual (key e) "PLATFORM_ANDROID_MIN_SDK_VERSION" then
    Ok (UpdateEntryValue e (Platform.Android.minSdkVersion (Platform.Android (Platform src))))
  else if TextIsEqual (key e) "PLATFORM_ANDROID_TARGET_SDK_VERSION" then
    Ok (UpdateEntryValue e (Platform.Android.targetSdkVersion (Platform.Android (Platform src))))
  else if TextIsEqual (key e) "PLATFORM_DRM_FLAG_CROSS_COMPILE" then
    Ok (UpdateEntryValue e (bool_to_int (Platform.DRM.useCrossCompiler (Platform.DRM (Platform src)))))
  else if TextIsEqual (key e) "PLATFORM_DRM_CROSS_COMPILER_PATH" then
    (* strcpy from a [char] taken as a pointer *)
    MemFault
  else if TextIsEqual (key e) "PLATFORM_DREAMCAST_SDK_PATH" then
    t <- strcpy 256 (Platform.Dreamcast.sdkPath (Platform.Dreamcast (Platform src))) ;; Ok (set_text t e)
  else if TextIsEqual (key e) "DEPLOY_FLAG_ZIP_PACKAGE" then
    Ok (UpdateEntryValue e (bool_to_int (Deploy.zipPackage (Deploy src))))
  else if TextIsEqual (key e) "DEPLOY_FLAG_RIF_INSTALLER" then
    Ok (UpdateEntryValue e (bool_to_int (Deploy.rifInstaller (Deploy src))))
  else if TextIsEqual (key e) "DEPLOY_RIF_INSTALLER_PATH" then
    t <- strcpy 256 (Deploy.rifInstallerPath (Deploy src)) ;; Ok (set_text t e)
  else if TextIsEqual (key e) "DEPLOY_FLAG_INCUDE_README" then
    Ok (UpdateEntryValue e (bool_to_int (Deploy.includeREADME (Deploy src))))
  else if TextIsEqual (key e) "DEPLOY_README_FILE" then
    t <- strcpy 256 (Deploy.readmePath (Deploy src)) ;; Ok (set_text t e)
  else if TextIsEqual (key e) "DEPLOY_FLAG_INCUDE_EULA" then
    Ok (UpdateEntryValue e (bool_to_int (Deploy.includeEULA (Deploy src))))
  else if TextIsEqual (key e) "DEPLOY_EULA_FILE" then
    t <- strcpy 256 (Deploy.eulaPath (Deploy src)) ;; Ok (set_text t e)
  else if TextIsEqual (key e) "IMAGERY_LOGO_FILE" then
    t <- strcpy 256 (Imagery.logoFile (Imagery src)) ;; Ok (set_text t e)
  else if TextIsEqual (key e) "IMAGERY_SPLASH_FILE" then
    t <- strcpy 256 (Imagery.splashFile (Imagery src)) ;; Ok (set_text t e)
  else if TextIsEqual (key e) "IMAGERY_FLAG_GENERATE" then
    Ok (UpdateEntryValue e (bool_to_int (Imagery.genImageryAuto (Imagery src))))
  else Ok e.

Definition SyncProjectConfigRaw (src : rpcProjectConfig) (dst : rpcProjectConfigRaw)
  : result rpcProjectConfigRaw :=
  mapM (SyncProjectConfigRaw_entry src) dst.

(** *** SaveProjectConfigRaw *)

(** The calls made on the rini store the function fills, in program order;
    the store starts empty ([rini_load(NULL)]) and is released at the end.
    A comment line gets the text pointer it is passed, [None] for [NULL]. *)
Inductive rini_call : Type :=
| rini_set_comment_line (text : option string)
| rini_set_value (key : string) (value : Z) (desc : string)
| rini_set_value_text (key text desc : string)
| rini_save (fileName : string).

(** The header comment lines.  The line on integers is written in the
    source as two adjacent literals, which the compiler joins. *)
Definition header_comment_lines : list (option string) :=
  [ None;
    Some "raylib project configuration";
    None;
    Some "This file contains all required data to define a raylib C/C++ project";
    Some "and allow building it for multiple platforms using [rpb] tool";
    None;
    Some "Project configuration is organized in several categories, depending on usage requirements";
    Some "CATEGORIES:";
    Some "   - PROJECT: Project definition properties, required for project generation";
    Some "   - BUILD: Project build properties, required for project building, generic for all platforms";
    Some "   - PLATFORM: Platform-specific properies, required for building for that platform";
    Some "   - DEPLOY: Deployment properties, required to distribute the generated build";
    Some "   - IMAGERY: Project imagery properties, required for distribution on some stores and marketing";
    None;
    Some "This file follow certain conventions to be able to display the information in";
    Some "an easy-configurable UI manner when loaded through [rpb - raylib project builder] tool";
    Some "CONVENTIONS:";
    Some "   - ID containing [_FLAG_]: Value is considered a boolean, it displays with a [GuiCheckBox]";
    Some ("   - ID do not contain " ++ ": Value is considered as an integer, it displays as [GuiValueBox]");
    Some "   - ID ends with _FILE or _FILES: Value is considered as a text file path, it displays as [GuiTextBox] with a [BROWSE-File] button";
    Some "   - ID ends with _PATH: Value is considered as a text directory path, it displays as [GuiTextBox] with a [BROWSE-Dir] button";
    None;
    Some "NOTE: The comments/description for each entry is used as tooltip when editing the entry on [rpb]";
    Some (String (ascii_of_nat 10) "") ].

(** Body of the saving loop: the category test and the [switch] on the
    entry type. *)
Definition save_entry (entry : rpcPropertyEntry) : list rini_call :=
  if (category entry =? RPC_CAT_PROJECT)%Z then
    if ((type entry =? RPC_TYPE_BOOL) || (type entry =? RPC_TYPE_VALUE))%Z then
      [ rini_set_value (key entry) (value entry) (desc entry) ]
    else if ((type entry =? RPC_TYPE_TEXT) || (type entry =? RPC_TYPE_TEXT_FILE)
             || (type entry =? RPC_TYPE_TEXT_PATH))%Z then
      [ rini_set_value_text (key entry) (text entry) (desc entry) ]
    else []
  else [].

(** [SaveProjectConfigRaw(data, fileName, flags)]. *)
Definition SaveProjectConfigRaw (data : rpcProjectConfigRaw) (fileName : string)
    (flags : Z) : list rini_call :=
  map rini_set_comment_line header_comment_lines ++
  (* Saving PROJECT category data *)
  [ rini_set_comment_line (Some "Project settings");
    rini_set_comment_line
      (Some "------------------------------------------------------------------------------------") ] ++
  flat_map save_entry data ++
  [ rini_save fileName ].

End RpConfig.

(* ================================================================== *)
(** ** rpc.c: project generation from the template directory *)

Module Rpc.
Import RaylibAPI RpConfig.

(** What [SetupProject] reads from its surroundings: the directory of the
    executable and the file system as it is when the function starts.  The
    template tree is read only; the output tree is assumed not to overlap
    it.  [SetupProject] copies the directory of the executable, followed by
    [/template], into [templatePath[256]] without a bound:
    [templatePath_fits] is the hypothesis that the copy stays inside the
    array, made of every environment. *)
Record Env := mkEnv {
  GetApplicationDirectory : string;
  DirectoryExists : string -> bool;
  FileExists : string -> bool;
  LoadFileText : string -> option string;
  templatePath_fits :
    (String.length (GetApplicationDirectory ++ "/template") <? 256)%nat = true
}.

(** The calls with an effect, in program order.  [SaveFileText] gets the
    text pointer it is passed, [None] for [NULL]. *)
Inductive call : Type :=
| LOG (msg : string)
| MakeDirectory (dirPath : string)
| FileCopy (srcPath dstPath : string)
| SaveFileText (fileName : string) (text : option string).

Definition nl : string := String (ascii_of_nat 10) "".
Definition dq : string := String (ascii_of_nat 34) "".

(** [config->Build.requestedBuildSystems[i]]. *)
Definition requested (config : rpcProjectConfig) (i : nat) : bool :=
  nth i (Build.requestedBuildSystems (Build config)) false.

(** [config->Project.sourceFilePaths[0 .. sourceFileCount-1]]; cells of the
    array never written hold the empty string. *)
Definition source_paths (config : rpcProjectConfig) : list string :=
  map (fun i => nth i (Project.sourceFilePaths (Project config)) "")
      (seq 0 (Project.sourceFileCount (Project config))).

(** The [srcFileNames] array after the scan for [.c] files; its length is
    [codeFileCount]. *)
Definition srcFileNames (config : rpcProjectConfig) : list string :=
  map GetFileName
      (filter (fun p => IsFileExtension p ".c") (source_paths config)).

(** [TextFormat("%s/%s", generationOutPath, repoName)]. *)
Definition out_dir (config : rpcProjectConfig) : string :=
  Project.generationOutPath (Project config) ++ "/" ++ Project.repoName (Project config).

Section Steps.
Variable env : Env.
Variable config : rpcProjectConfig.
Variable templatePath : string.

Let internalName := Project.internalName (Project config).
Let selectedTemplate := Project.selectedTemplate (Project config).
Let w64devkitPath := Platform.Windows.w64devkitPath (Platform.Windows (Platform config)).
Let srcPath := raylib.srcPath (raylib config).

(** Copy project source file(s) provided. *)
Definition copy_sources : list call :=
  MakeDirectory (out_dir config ++ "/src/external") ::
  if (selectedTemplate =? 0)%Z then
    [ FileCopy (templatePath ++ "/src/project_name.c")
               (out_dir config ++ "/src/" ++ internalName ++ ".c");
      LOG ("INFO: Copied src/" ++ internalName ++ ".c successfully" ++ nl) ]
  else if (selectedTemplate =? 1)%Z then
    [ FileCopy (templatePath ++ "/src/raylib_advanced.c")
               (out_dir config ++ "/src/" ++ internalName ++ ".c");
      FileCopy (templatePath ++ "/src/screens.h") (out_dir config ++ "/src/screens.h");
      FileCopy (templatePath ++ "/src/screen_logo.c") (out_dir config ++ "/src/screen_logo.c");
      FileCopy (templatePath ++ "/src/screen_title.c") (out_dir config ++ "/src/screen_title.c");
      FileCopy (templatePath ++ "/src/screen_options.c") (out_dir config ++ "/src/screen_options.c");
      FileCopy (templatePath ++ "/src/screen_gameplay.c") (out_dir config ++ "/src/screen_gameplay.c");
      FileCopy (templatePath ++ "/src/screen_ending.c") (out_dir config ++ "/src/screen_ending.c");
      LOG ("INFO: Copied advance project with src/" ++ internalName ++ ".c successfully" ++ nl) ]
  else if (selectedTemplate =? 2)%Z then
    flat_map (fun p =>
      [ FileCopy p (out_dir config ++ "/src/" ++ GetFileName p);
        LOG ("INFO: Copied src/" ++ GetFileName p ++ " successfully" ++ nl) ])
      (source_paths config)
  else [].

(** Project configuration file (.rpc). *)
Definition project_rpc : list call :=
  let fileText := LoadFileText env (templatePath ++ "/project_name.rpc") in
  let u0 := TextReplace fileText "$(project_name)" internalName in
  let u1 := TextReplace u0 "$(repo-name)" (Project.repoName (Project config)) in
  let u2 := TextReplace u1 "$(CommercialName)" (Project.commercialName (Project config)) in
  let u3 := TextReplace u2 "$(ShortName)" (Project.shortName (Project config)) in
  let u4 := TextReplace u3 "$(ProjectVersion)" (Project.version (Project config)) in
  let u5 := TextReplace u4 "$(ProjectDescription)" (Project.description (Project config)) in
  let u6 := TextReplace u5 "$(PublisherName)" (Project.publisherName (Project config)) in
  let u7 := TextReplace u6 "$(ProjectDeveloper)" (Project.developerName (Project config)) in
  let u8 := TextReplace u7 "$(DeveloperUrl)" (Project.developerUrl (Project config)) in
  let u9 := TextReplace u8 "$(DeveloperEmail)" (Project.developerUrl (Project config)) in
  [ SaveFileText (Project.generationOutPath (Project config) ++ "/" ++ internalName ++ ".rpc") u9 ].

(** Project build system: Scripts. *)
Definition build_scripts : list call :=
  if requested config 0 then
    let fileText := LoadFileText env (templatePath ++ "/projects/scripts/build.bat") in
    let u0 := TextReplace fileText "project_name" internalName in
    let u1 := TextReplace u0 "ProjectDescription" (Project.description (Project config)) in
    let u2 := TextReplace u1 "C:\raylib\w64devkit\bin" w64devkitPath in
    [ MakeDirectory (Project.generationOutPath (Project config) ++ "/" ++ internalName
                       ++ "/projects/scripts");
      SaveFileText (out_dir config ++ "/projects/scripts/build.bat") u2;
      LOG ("INFO: Updated build system successfully: Script (src/build.bat)" ++ nl) ]
  else [].

(** The first replacement of the source-file placeholder, shared by the
    Makefile and the VSCode tasks; slot 0 keeps [NULL] for any other
    template number. *)
Definition source_files_replaced (fileText : option string) : option string :=
  if (selectedTemplate =? 0)%Z then
    TextReplace fileText "project_name.c" (internalName ++ ".c")
  else if (selectedTemplate =? 1)%Z then
    TextReplace fileText "project_name.c"
      (internalName ++ ".c screen_logo.c screen_title.c screen_options.c screen_gameplay.c screen_ending.c")
  else if (selectedTemplate =? 2)%Z then
    TextReplace fileText "project_name.c" (TextJoin (srcFileNames config) " ")
  else None.

(** The four buffers of the Makefile chain, [fileTextUpdated[0..3]]. *)
Definition makefile_buffers (fileText : option string)
  : option string * option string * option string * option string :=
  let u0 := source_files_replaced fileText in
  let u1 := TextReplace fileText "project_name" internalName in
  let u2 := TextReplace u0 "C:\raylib\w64devkit\bin" w64devkitPath in
  let u3 := TextReplace u1 "C:/raylib/raylib/src" srcPath in
  (u0, u1, u2, u3).

(** Project build system: Makefile. *)
Definition build_makefile : list call :=
  if requested config 1 then
    let fileText := LoadFileText env (templatePath ++ "/src/Makefile") in
    let '(_, _, _, u3) := makefile_buffers fileText in
    [ SaveFileText (out_dir config ++ "/src/Makefile") u3;
      LOG ("INFO: Updated build system successfully: Makefile (src/Makefile)" ++ nl) ]
  else [].

(** Project build system: VSCode. *)
Definition build_vscode : list call :=
  if requested config 2 then
    let launch :=
      let fileText := LoadFileText env (templatePath ++ "/projects/VSCode/.vscode/launch.json") in
      let u0 := TextReplace fileText "project_name" internalName in
      TextReplace u0 "C:/raylib/w64devkit/bin" w64devkitPath in
    let props :=
      let fileText := LoadFileText env (templatePath ++ "/projects/VSCode/.vscode/c_cpp_properties.json") in
      let u0 := TextReplace fileText "C:/raylib/raylib/src" srcPath in
      TextReplace u0 "C:/raylib/w64devkit/bin" w64devkitPath in
    let tasks :=
      let fileText := LoadFileText env (templatePath ++ "/projects/VSCode/.vscode/tasks.json") in
      let u0 := source_files_replaced fileText in
      let u1 := TextReplace fileText "project_name" internalName in
      let u2 := TextReplace u1 "C:/raylib/raylib/src" srcPath in
      TextReplace u2 "C:/raylib/w64devkit/bin" w64devkitPath in
    [ MakeDirectory (out_dir config ++ "/projects/VSCode/.vscode");
      SaveFileText (out_dir config ++ "/projects/VSCode/.vscode/launch.json") launch;
      SaveFileText (out_dir config ++ "/projects/VSCode/.vscode/c_cpp_properties.json") props;
      SaveFileText (out_dir config ++ "/projects/VSCode/.vscode/tasks.json") tasks;
      FileCopy (templatePath ++ "/projects/VSCode/.vscode/settings.json")
               (out_dir config ++ "/projects/VSCode/.vscode/settings.json");
      FileCopy (templatePath ++ "/projects/VSCode/main.code-workspace")
               (out_dir config ++ "/projects/VSCode/main.code-workspace");
      FileCopy (templatePath ++ "/projects/VSCode/README.md")
               (out_dir config ++ "/projects/VSCode/README.md");
      LOG ("INFO: Updated build system successfully: VSCode (projects/VSCode)" ++ nl) ]
  else [].

(** One [<ClCompile>] item of the VS2022 project. *)
Definition cl_compile (fileName : string) : string :=
  "<ClCompile Include=" ++ dq ++ "..\..\..\src\" ++ fileName ++ dq ++ " />" ++ nl.

(** The replacement text of the advanced template: the literal spans five
    source lines joined by line continuations, so the indentation of each
    continued line is part of it. *)
Definition advanced_items : string :=
  cl_compile "screen_logo.c" ++ "             " ++
  cl_compile "screen_title.c" ++ "             " ++
  cl_compile "screen_options.c" ++ "             " ++
  cl_compile "screen_gameplay.c" ++ "             " ++
  cl_compile "screen_ending.c".

(** [TextAppend(text, append, &position)] on an array of [cap] cells
    holding the string [text], [position] being its length:
    [strcpy(text + position, append)]. *)
Definition TextAppend (cap : nat) (text append : string) : result string :=
  a <- CStr.strcpy (cap - String.length text) append ;; Ok (text ++ a).

(** [srcFilesBlock[1024]] after the loop: one item per code file after the
    first, appended without a bound. *)
Definition srcFilesBlock (names : list string) : result string :=
  fold_left (fun block n => b <- block ;; TextAppend 1024 b (cl_compile n ++ "    "))
            (tl names) (Ok "").

(** Project build system: VS2022.  The calls the step makes, and how it
    ends: when the items of the custom sources do not fit [srcFilesBlock],
    the step stops there, after its first three calls. *)
Definition build_vs2022 : list call * result unit :=
  if requested config 3 then
    let raylib_vcxproj :=
      let fileText := LoadFileText env (templatePath ++ "/projects/VS2022/raylib/raylib.vcxproj") in
      TextReplace fileText "C:\raylib\raylib\src" srcPath in
    let made :=
      [ MakeDirectory (out_dir config ++ "/projects/VS2022/raylib");
        MakeDirectory (out_dir config ++ "/projects/VS2022/" ++ internalName);
        SaveFileText (out_dir config ++ "/projects/VS2022/raylib/raylib.vcxproj") raylib_vcxproj ] in
    let fileText := LoadFileText env (templatePath ++ "/projects/VS2022/project_name/project_name.vcxproj") in
    let u1 : result (option string) :=
      if (selectedTemplate =? 0)%Z then
        let u0 := TextReplace fileText "project_name.c" (internalName ++ ".c") in
        Ok (TextReplace u0 "project_name" "project_name")
      else if (selectedTemplate =? 1)%Z then
        let u0 := TextReplace fileText "project_name.c" (internalName ++ ".c") in
        Ok (TextReplace u0 "<!--Additional Compile Items-->" advanced_items)
      else if (selectedTemplate =? 2)%Z then
        let u0 := TextReplace fileText "project_name.c" (nth 0 (srcFileNames config) "") in
        block <- srcFilesBlock (srcFileNames config) ;;
        Ok (TextReplace u0 "<!--Additional Compile Items-->" block)
      else Ok None in
    match u1 with
    | MemFault => (made, MemFault)
    | Ok u1 =>
        let project_vcxproj :=
          let u2 := TextReplace u1 "project_name" internalName in
          TextReplace u2 "C:\raylib\raylib\src" srcPath in
        let sln :=
          let fileText := LoadFileText env (templatePath ++ "/projects/VS2022/project_name.sln") in
          TextReplace fileText "project_name" internalName in
        ((made ++
          [ SaveFileText (out_dir config ++ "/projects/VS2022/" ++ internalName ++ "/" ++ internalName ++ ".vcxproj")
                         project_vcxproj;
            SaveFileText (out_dir config ++ "/projects/VS2022/" ++ internalName ++ ".sln") sln;
            LOG ("INFO: Updated build system successfully: VS2022 (projects/VS2022)" ++ nl) ])%list,
         Ok tt)
    end
  else ([], Ok tt).

(** Project build system: GitHub Actions. *)
Definition github_workflows : list call :=
  [ MakeDirectory (out_dir config ++ "/.github/workflows");
    SaveFileText (out_dir config ++ "/.github/workflows/windows.yml")
                 (LoadFileText env (templatePath ++ "/.github/workflows/windows.yml"));
    SaveFileText (out_dir config ++ "/.github/workflows/linux.yml")
                 (LoadFileText env (templatePath ++ "/.github/workflows/linux.yml"));
    SaveFileText (out_dir config ++ "/.github/workflows/macos.yml")
                 (LoadFileText env (templatePath ++ "/.github/workflows/macos.yml"));
    SaveFileText (out_dir config ++ "/.github/workflows/webassembly.yml")
                 (LoadFileText env (templatePath ++ "/.github/workflows/webassembly.yml"));
    LOG ("INFO: Updated build system successfully: GitHub Actions CI/CD workflows (.github)" ++ nl) ].

(** Additional files required for product building. *)
Definition product_files : list call :=
  let commercialName := Project.commercialName (Project config) in
  let description := Project.description (Project config) in
  let developerName := Project.developerName (Project config) in
  let year := format_int (Project.year (Project config)) in
  let rc :=
    let fileText := LoadFileText env (templatePath ++ "/src/project_name.rc") in
    let u0 := TextReplace fileText "CommercialName" commercialName in
    let u1 := TextReplace u0 "project_name" internalName in
    let u2 := TextReplace u1 "ProjectDescription" description in
    let u3 := TextReplace u2 "ProjectDeveloper" developerName in
    TextReplace u3 "ProjectYear" year in
  let plist :=
    let fileText := LoadFileText env (templatePath ++ "/src/Info.plist") in
    let u0 := TextReplace fileText "CommercialName" commercialName in
    let u1 := TextReplace u0 "project_name" internalName in
    let u2 := TextReplace u1 "ProjectDescription" description in
    let u3 := TextReplace u2 "ProjectDeveloper" developerName in
    let u4 := TextReplace u3 "project_developer" (TextToLower developerName) in
    TextReplace u4 "ProjectYear" year in
  let minshell :=
    let fileText := LoadFileText env (templatePath ++ "/src/minshell.html") in
    let u0 := TextReplace fileText "CommercialName" commercialName in
    let u1 := TextReplace u0 "project_name" internalName in
    let u2 := TextReplace u1 "ProjectDescription" description in
    let u3 := TextReplace u2 "ProjectDeveloper" developerName in
    let u4 := TextReplace u3 "project_developer" (TextToLower developerName) in
    TextReplace u4 "ProjectDeveloperUrl" (TextToLower (Project.developerUrl (Project config))) in
  [ SaveFileText (out_dir config ++ "/src/" ++ internalName ++ ".rc") rc;
    LOG ("INFO: Updated src/" ++ internalName ++ ".rc successfully" ++ nl);
    FileCopy (templatePath ++ "/src/project_name.ico")
             (out_dir config ++ "/src/" ++ internalName ++ ".ico");
    LOG ("INFO: Copied src/" ++ internalName ++ ".ico successfully" ++ nl);
    FileCopy (templatePath ++ "/src/project_name.icns")
             (out_dir config ++ "/src/" ++ internalName ++ ".icns");
    LOG ("INFO: Copied src/" ++ internalName ++ ".icns successfully" ++ nl);
    SaveFileText (out_dir config ++ "/src/Info.plist") plist;
    LOG ("INFO: Updated src/Info.plist successfully" ++ nl);
    SaveFileText (out_dir config ++ "/src/minshell.html") minshell;
    LOG ("INFO: Updated src/minshell.html successfully" ++ nl) ].

(** README.md, LICENSE, and the files copied as they are. *)
Definition project_docs : list call :=
  let developerName := Project.developerName (Project config) in
  let year := format_int (Project.year (Project config)) in
  let readme :=
    let fileText := LoadFileText env (templatePath ++ "/README.md") in
    let u0 := TextReplace fileText "CommercialName" (Project.commercialName (Project config)) in
    let u1 := TextReplace u0 "project_name" internalName in
    let u2 := TextReplace u1 "ProjectDescription" (Project.description (Project config)) in
    let u3 := TextReplace u2 "ProjectDeveloper" developerName in
    TextReplace u3 "ProjectYear" year in
  let license :=
    let fileText := LoadFileText env (templatePath ++ "/LICENSE") in
    let u0 := TextReplace fileText "ProjectDeveloper" developerName in
    TextReplace u0 "ProjectYear" year in
  [ SaveFileText (out_dir config ++ "/README.md") readme;
    LOG ("INFO: Updated README.md successfully" ++ nl);
    SaveFileText (out_dir config ++ "/LICENSE") license;
    LOG ("INFO: Updated LICENSE successfully" ++ nl);
    FileCopy (templatePath ++ "/CONVENTIONS.md") (out_dir config ++ "/CONVENTIONS.md");
    FileCopy (templatePath ++ "/.gitignore") (out_dir config ++ "/.gitignore");
    LOG ("INFO: GitHub " ++ internalName ++ " project generated successfully!" ++ nl) ].

End Steps.

(** [if (repoName[0] == '\0') strcpy(repoName, internalName)]; both arrays
    have 64 cells. *)
Definition default_repoName (config : rpcProjectConfig) : rpcProjectConfig :=
  if String.eqb (Project.repoName (Project config)) ""
  then set_Project (Project.set_repoName (Project.internalName (Project config))
                                         (Project config)) config
  else config.

(** The security check on the template directory. *)
Definition template_available (env : Env) (templatePath : string) : bool :=
  DirectoryExists env templatePath &&
  DirectoryExists env (templatePath ++ "/src") &&
  DirectoryExists env (templatePath ++ "/projects") &&
  FileExists env (templatePath ++ "/project_name.rpc").

(** A run of [SetupProject(config)]: the configuration as the function
    leaves it ([repoName] may be filled in), the calls it makes, in order,
    and how it ends.  A run that leaves [templatePath[256]] or
    [srcFilesBlock[1024]] ends in [MemFault], with the calls made up to
    there.  The buffers of [TextFormat] and [TextJoin] are taken to be large
    enough for what is built in them. *)
Definition SetupProject_run (env : Env) (config : rpcProjectConfig)
  : rpcProjectConfig * (list call * result unit) :=
  match CStr.strcpy 256 (GetApplicationDirectory env ++ "/template") with
  | MemFault => (config, ([], MemFault))
  | Ok templatePath =>
      if negb (template_available env templatePath) then
        (config,
         ([ LOG ("WARNING: Project generation template required files can not be found" ++ nl) ],
          Ok tt))
      else
        let config := default_repoName config in
        let vs2022 := build_vs2022 env config templatePath in
        (config,
         (LOG ("INFO: Output path: " ++ out_dir config ++ nl) ::
          copy_sources config templatePath ++
          project_rpc env config templatePath ++
          build_scripts env config templatePath ++
          build_makefile env config templatePath ++
          build_vscode env config templatePath ++
          fst vs2022 ++
          match snd vs2022 with
          | Ok _ =>
              github_workflows env config templatePath ++
              product_files env config templatePath ++
              project_docs env config templatePath
          | MemFault => []
          end,
          snd vs2022))
  end.

(** [SetupProject(config)]: the configuration as the function leaves it and
    the calls it makes, up to its return or to the write that leaves an
    array. *)
Definition SetupProject (env : Env) (config : rpcProjectConfig)
  : rpcProjectConfig * list call :=
  (fst (SetupProject_run env config), fst (snd (SetupProject_run env config))).

(** How the call ends: [Ok] when it returns. *)
Definition SetupProject_end (env : Env) (config : rpcProjectConfig) : result unit :=
  snd (snd (SetupProject_run env config)).

(** *** Reading a trace of calls *)

(** The file a call writes, if it writes one. *)
Definition written_file (c : call) : option string :=
  match c with
  | FileCopy _ dstPath => Some dstPath
  | SaveFileText fileName _ => Some fileName
  | _ => None
  end.

(** The directory a call creates, if it creates one. *)
Definition made_directory (c : call) : option string :=
  match c with
  | MakeDirectory dirPath => Some dirPath
  | _ => None
  end.

Fixpoint omap {A B} (f : A -> option B) (l : list A) : list B :=
  match l with
  | [] => []
  | a :: l' =>
      match f a with
      | Some b => b :: omap f l'
      | None => omap f l'
      end
  end.

Definition files_written (t : list call) : list string := omap written_file t.
Definition directories_made (t : list call) : list string := omap made_directory t.

(** The text last saved under [path] by [SaveFileText]. *)
Fixpoint saved_text (path : string) (t : list call) : option (option string) :=
  match t with
  | [] => None
  | c :: t' =>
      match saved_text path t' with
      | Some r => Some r
      | None =>
          match c with
          | SaveFileText fileName text =>
              if String.eqb fileName path then Some text else None
          | _ => None
          end
      end
  end.

(** *** Packed template data *)

(** [PackFileEntry]; [filePath] is the C string held in [filePath[256]]. *)
Record PackFileEntry := mkPackFileEntry {
  fileSize : Z;
  compFileSize : Z;
  filePath : string
}.

(** The calls with an effect of the unpacking functions. *)
Inductive pack_call : Type :=
| PackLOG (msg : string)
| SaveFileData (fileName : string) (data : list Byte.byte) (dataSize : Z).

Section Pack.

(** [DecompressData(data + offset, compDataSize, &dataSize)] for the blob at
    hand, given [offset] and [compDataSize]: the pointer it returns ([None]
    for [NULL]) with the bytes behind it, and the size it reports.  The
    offset is kept in [Z]; [int] overflow is not represented. *)
Variable DecompressData : Z -> Z -> option (list Byte.byte) * Z.

(** The loop of [UnpackDirectoryData] from entry [i] on. *)
Fixpoint unpack_from (outputDirPath : string) (entries : list PackFileEntry)
    (nextFileDataOffset : Z) : list pack_call :=
  match entries with
  | [] => []
  | entry :: rest =>
      (* Decompress entry from data *)
      let '(fileData, fileDataSize) :=
        DecompressData nextFileDataOffset (compFileSize entry) in
      (* Verify process worked as expected *)
      match fileData with
      | Some bytes =>
          if (fileDataSize =? fileSize entry)%Z then
            SaveFileData (outputDirPath ++ "/" ++ filePath entry) bytes fileDataSize ::
            unpack_from outputDirPath rest (nextFileDataOffset + compFileSize entry)
          else [ PackLOG ("WARNING: File data could not be decompressed!" ++ nl) ]
      | None => [ PackLOG ("WARNING: File data could not be decompressed!" ++ nl) ]
      end
  end.

(** [UnpackDirectoryData(outputDirPath, data, dataSize, entries, fileCount)];
    [entries] lists the [fileCount] entries, [dataSize] is not read. *)
Definition UnpackDirectoryData (outputDirPath : string) (entries : list PackFileEntry)
  : list pack_call :=
  unpack_from outputDirPath entries 0.

(** The text [LoadFileTextPack] builds when its test passes: a zeroed array
    of [fileSize + 1] bytes, then [fileDataSize] bytes copied into it. *)
Definition pack_text (uncompFileData : option (list Byte.byte)) (fileDataSize : Z)
  : result (list Byte.byte) :=
  match uncompFileData with
  | Some bytes =>
      if ((0 <=? fileDataSize) && (fileDataSize <=? Z.of_nat (List.length bytes)))%Z
      then Ok (firstn (Z.to_nat fileDataSize) bytes ++ [Byte.x00])%list
      else MemFault
  | None => MemFault
  end.

(** The loop of [LoadFileTextPack] from entry [i] on; [fileData] is the
    local of that name, the pointer the function returns. *)
Fixpoint load_from_pack (fileName : string) (entries : list PackFileEntry)
    (dataOffset : Z) (fileData : option (list Byte.byte))
  : result (option (list Byte.byte) * list pack_call) :=
  match entries with
  | [] => Ok (fileData, [])
  | entry :: rest =>
      if TextIsEqual fileName (filePath entry) then
        let '(uncompFileData, fileDataSize) :=
          DecompressData dataOffset (compFileSize entry) in
        match fileData with
        | Some _ =>
            if (fileDataSize =? fileSize entry)%Z then
              (* NOTE: We make sure the text data ends with /0 *)
              t <- pack_text uncompFileData fileDataSize ;;
              Ok (Some t, [])
            else Ok (fileData, [ PackLOG ("WARNING: File not loaded properly from pack" ++ nl) ])
        | None => Ok (fileData, [ PackLOG ("WARNING: File not loaded properly from pack" ++ nl) ])
        end
      else load_from_pack fileName rest (dataOffset + compFileSize entry) fileData
  end.

(** [LoadFileTextPack(fileName, packData, entries, fileCount)]: [fileData]
    starts as [NULL]. *)
Definition LoadFileTextPack (fileName : string) (entries : list PackFileEntry)
  : result (option (list Byte.byte) * list pack_call) :=
  load_from_pack fileName entries 0 None.

End Pack.

(** *** GetSubtextPtrs *)

Definition MAX_SUBTEXTPTRS_COUNT : nat := 1024.

(** The loop of [GetSubtextPtrs] from index [i] on: [cells] are the cells
    from [text + i], [remaining] is [textLength - i].  It returns the cells
    as the loop leaves them and the pointers it stores in [result], as
    offsets from [text]. *)
Fixpoint subtext_loop (delimiter : ascii) (cells : string) (i remaining counter : nat)
  : string * list nat :=
  match remaining, cells with
  | S remaining', String ch rest =>
      if Ascii.eqb ch CStr.NUL then (cells, [])
      else if Ascii.eqb ch delimiter then
        (* Set an end of string at this point *)
        if (S counter =? MAX_SUBTEXTPTRS_COUNT)%nat then (String CStr.NUL rest, [i + 1])
        else
          let '(rest', ptrs) := subtext_loop delimiter rest (S i) remaining' (S counter) in
          (String CStr.NUL rest', (i + 1) :: ptrs)
      else
        let '(rest', ptrs) := subtext_loop delimiter rest (S i) remaining' counter in
        (String ch rest', ptrs)
  | _, _ => (cells, [])
  end.

(** [GetSubtextPtrs(text, delimiter, &count)]: the array behind [text] as
    the call leaves it, and the first [count] cells of [result], a pointer
    being an offset from [text] or [None] for [NULL].  [text] is the array
    it points into; [TextLength] reads it up to its NUL. *)
Definition GetSubtextPtrs (text : option string) (delimiter : ascii)
  : result (option string * list (option nat)) :=
  match text with
  | None => Ok (None, [None])
  | Some cells =>
      s <- CStr.cstr cells ;;
      let '(cells', ptrs) := subtext_loop delimiter cells 0 (String.length s) 1 in
      Ok (Some cells', Some 0 :: map Some ptrs)
  end.

(** The C string a returned pointer leads to. *)
Definition subtext (cells : string) (ptr : nat) : string :=
  CStr.cstr_prefix (CStr.skip ptr cells).

End Rpc.

(* ================================================================== *)
(** ** The properties under study, in the specification's terms *)

Module Spec.
Import CStr RaylibAPI RpConfig.

(** *** The type of an entry *)

(** [marker] occurs in [s] at position [p]. *)
Definition occurs_at (marker s : string) (p : nat) : Prop :=
  substring p (String.length marker) s = marker.

(** [marker] occurs in [s], and [s] does not begin with it. *)
Definition past_start (marker s : string) : Prop :=
  ~ occurs_at marker s 0 /\ exists p, occurs_at marker s p.

(** [s] contains [marker] somewhere. *)
Definition contains (marker s : string) : bool :=
  match index 0 marker s with
  | Some _ => true
  | None => false
  end.

(** [s] ends with [suffix]. *)
Fixpoint has_suffix (suffix s : string) : bool :=
  String.eqb suffix s ||
  match s with
  | EmptyString => false
  | String _ rest => has_suffix suffix rest
  end.

(** [s] begins with an underscore. *)
Definition leading_underscore (s : string) : bool :=
  match s with
  | String ch _ => Ascii.eqb ch "_"
  | EmptyString => false
  end.

(** The type rule as the specification words it: [_FLAG] anywhere, then the
    suffixes, then quoting. *)
Definition type_rule (k : string) (quoted : bool) : Z :=
  if contains "_FLAG" k then RPC_TYPE_BOOL
  else if has_suffix "_FILES" k || has_suffix "_FILE" k then RPC_TYPE_TEXT_FILE
  else if has_suffix "_PATH" k then RPC_TYPE_TEXT_PATH
  else if quoted then RPC_TYPE_TEXT
  else RPC_TYPE_VALUE.

(** *** Key arrays, segments and platforms *)

(** [s] has a cell equal to [c]. *)
Fixpoint has_char (c : ascii) (s : string) : bool :=
  match s with
  | EmptyString => false
  | String ch rest => Ascii.eqb ch c || has_char c rest
  end.

(** A key array in good order: the C string [k], free of NUL, followed by
    NUL cells only, [n] cells in all. *)
Definition key_array (n : nat) (k : string) (cells : string) : Prop :=
  cells = in_array n k /\ has_char NUL k = false.

(** The first underscore-delimited segment of a key. *)
Fixpoint first_segment (s : string) : string :=
  match s with
  | EmptyString => EmptyString
  | String ch rest =>
      if Ascii.eqb ch "_" then EmptyString else String ch (first_segment rest)
  end.

(** What follows the first underscore, if there is one. *)
Fixpoint after_underscore (s : string) : option string :=
  match s with
  | EmptyString => None
  | String ch rest =>
      if Ascii.eqb ch "_" then Some rest else after_underscore rest
  end.

(** The second underscore-delimited segment of a key, empty when the key
    has no underscore. *)
Definition second_segment (s : string) : string :=
  match after_underscore s with
  | Some rest => first_segment rest
  | None => EmptyString
  end.

(** The platforms of the specification. *)
Inductive PlatformName : Type :=
| PWindows | PLinux | PmacOS | PHTML5 | PAndroid | PDRM | PSwitch | PDreamcast | PFreeBSD | PAny.

Definition platform_code (p : PlatformName) : Z :=
  match p with
  | PWindows => RPC_PLATFORM_WINDOWS
  | PLinux => RPC_PLATFORM_LINUX
  | PmacOS => RPC_PLATFORM_MACOS
  | PHTML5 => RPC_PLATFORM_HTML5
  | PAndroid => RPC_PLATFORM_ANDROID
  | PDRM => RPC_PLATFORM_DRM
  | PSwitch => RPC_PLATFORM_SWITCH
  | PDreamcast => RPC_PLATFORM_DREAMCAST
  | PFreeBSD => RPC_PLATFORM_FREEBSD
  | PAny => RPC_PLATFORM_ANY
  end.

(** The fixed table from key segment to platform. *)
Definition platform_table : list (string * PlatformName) :=
  [ ("WINDOWS", PWindows); ("LINUX", PLinux); ("MACOS", PmacOS);
    ("HTML5", PHTML5); ("ANDROID", PAndroid); ("DRM", PDRM);
    ("SWITCH", PSwitch); ("DREAMCAST", PDreamcast); ("FREEBSD", PFreeBSD) ].

Fixpoint assoc {A} (k : string) (l : list (string * A)) : option A :=
  match l with
  | [] => None
  | (k', a) :: l' => if String.eqb k k' then Some a else assoc k l'
  end.

(** The platform the specification gives a key of category [cat]. *)
Definition platform_rule (cat : Z) (k : string) : PlatformName :=
  if (cat =? RPC_CAT_PLATFORM)%Z then
    match assoc (second_segment k) platform_table with
    | Some p => p
    | None => PAny
    end
  else PAny.


(** *** The key mapping of the two [Sync] functions *)

(** The value of a configuration field with a key mapping. *)
Inductive field_value : Type :=
| FText (s : string)
| FFlag (b : bool)
| FInt (z : Z).

(** The known key mapping: each key with the field it stands for, in the
    order of the two [Sync] functions. *)
Definition field_table : list (string * (rpcProjectConfig -> field_value)) :=
  [
    ("PROJECT_INTERNAL_NAME", fun c => FText (Project.internalName (Project c)));
    ("PROJECT_REPO_NAME", fun c => FText (Project.repoName (Project c)));
    ("PROJECT_COMMERCIAL_NAME", fun c => FText (Project.commercialName (Project c)));
    ("PROJECT_SHORT_NAME", fun c => FText (Project.shortName (Project c)));
    ("PROJECT_VERSION", fun c => FText (Project.version (Project c)));
    ("PROJECT_DESCRIPTION", fun c => FText (Project.description (Project c)));
    ("PROJECT_PUBLISHER_NAME", fun c => FText (Project.publisherName (Project c)));
    ("PROJECT_DEVELOPER_NAME", fun c => FText (Project.developerName (Project c)));
    ("PROJECT_DEVELOPER_URL", fun c => FText (Project.developerUrl (Project c)));
    ("PROJECT_DEVELOPER_EMAIL", fun c => FText (Project.developerEmail (Project c)));
    ("PROJECT_ICON_FILE", fun c => FText (Project.iconFile (Project c)));
    ("PROJECT_SOURCE_PATH", fun c => FText (Project.sourcePath (Project c)));
    ("PROJECT_ASSETS_PATH", fun c => FText (Project.assetsPath (Project c)));
    ("PROJECT_ASSETS_OUTPUT_PATH", fun c => FText (Project.assetsOutPath (Project c)));
    ("RAYLIB_SRC_PATH", fun c => FText (raylib.srcPath (raylib c)));
    ("RAYLIB_OPENGL_VERSION", fun c => FText (raylib.glVersion (raylib c)));
    ("BUILD_OUTPUT_PATH", fun c => FText (Build.outputPath (Build c)));
    ("BUILD_TARGET_PLATFORM", fun c => FText (Build.targetPlatform (Build c)));
    ("BUILD_TARGET_ARCHITECTURE", fun c => FText (Build.targetArchitecture (Build c)));
    ("BUILD_TARGET_MODE", fun c => FText (Build.targetMode (Build c)));
    ("BUILD_FLAG_ASSETS_VALIDATION", fun c => FFlag (Build.assetsValidation (Build c)));
    ("BUILD_FLAG_ASSETS_PACKAGING", fun c => FFlag (Build.assetsPackaging (Build c)));
    ("PLATFORM_WINDOWS_MSBUILD_PATH", fun c => FText (Platform.Windows.msbuildPath (Platform.Windows (Platform c))));
    ("PLATFORM_WINDOWS_W64DEVKIT_PATH", fun c => FText (Platform.Windows.w64devkitPath (Platform.Windows (Platform c))));
    ("PLATFORM_WINDOWS_SIGNTOOL_PATH", fun c => FText (Platform.Windows.signtoolPath (Platform.Windows (Platform c))));
    ("PLATFORM_WINDOWS_SIGNCERT_FILE", fun c => FText (Platform.Windows.signCertFile (Platform.Windows (Platform c))));
    ("PLATFORM_LINUX_FLAG_CROSS_COMPILE", fun c => FFlag (Platform.Linux.useCrossCompiler (Platform.Linux (Platform c))));
    ("PLATFORM_LINUX_CROSS_COMPILER_PATH", fun c => FInt (Platform.Linux.crossCompilerPath (Platform.Linux (Platform c))));
    ("PLATFORM_MACOS_BUNDLE_INFO_FILE", fun c => FText (Platform.macOS.bundleInfoFile (Platform.macOS (Platform c))));
    ("PLATFORM_MACOS_BUNDLE_NAME", fun c => FText (Platform.macOS.bundleName (Platform.macOS (Platform c))));
    ("PLATFORM_MACOS_BUNDLE_VERSION", fun c => FText (Platform.macOS.bundleVersion (Platform.macOS (Platform c))));
    ("PLATFORM_HTML5_EMSDK_PATH", fun c => FText (Platform.HTML5.emsdkPath (Platform.HTML5 (Platform c))));
    ("PLATFORM_HTML5_SHELL_FILE", fun c => FText (Platform.HTML5.shellFile (Platform.HTML5 (Platform c))));
    ("PLATFORM_HTML5_HEAP_MEMORY_SIZE", fun c => FInt (Platform.HTML5.heapMemorySize (Platform.HTML5 (Platform c))));
    ("PLATFORM_HTML5_FLAG_USE_ASINCIFY", fun c => FFlag (Platform.HTML5.useAsincify (Platform.HTML5 (Platform c))));
    ("PLATFORM_HTML5_FLAG_USE_WEBGL2", fun c => FFlag (Platform.HTML5.useWebGL2 (Platform.HTML5 (Platform c))));
    ("PLATFORM_ANDROID_SDK_PATH", fun c => FText (Platform.Android.sdkPath (Platform.Android (Platform c))));
    ("PLATFORM_ANDROID_NDK_PATH", fun c => FText (Platform.Android.ndkPath (Platform.Android (Platform c))));
    ("PLATFORM_ANDROID_JAVA_SDK_PATH", fun c => FText (Platform.Android.javaSdkPath (Platform.Android (Platform c))));
    ("PLATFORM_ANDROID_MANIFEST_FILE", fun c => FText (Platform.Android.manifestFile (Platform.Android (Platform c))));
    ("PLATFORM_ANDROID_MIN_SDK_VERSION", fun c => FInt (Platform.Android.minSdkVersion (Platform.Android (Platform c))));
    ("PLATFORM_ANDROID_TARGET_SDK_VERSION", fun c => FInt (Platform.Android.targetSdkVersion (Platform.Android (Platform c))));
    ("PLATFORM_DRM_FLAG_CROSS_COMPILE", fun c => FFlag (Platform.DRM.useCrossCompiler (Platform.DRM (Platform c))));
    ("PLATFORM_DRM_CROSS_COMPILER_PATH", fun c => FInt (Platform.DRM.crossCompilerPath (Platform.DRM (Platform c))));
    ("PLATFORM_DREAMCAST_SDK_PATH", fun c => FText (Platform.Dreamcast.sdkPath (Platform.Dreamcast (Platform c))));
    ("DEPLOY_FLAG_ZIP_PACKAGE", fun c => FFlag (Deploy.zipPackage (Deploy c)));
    ("DEPLOY_FLAG_RIF_INSTALLER", fun c => FFlag (Deploy.rifInstaller (Deploy c)));
    ("DEPLOY_RIF_INSTALLER_PATH", fun c => FText (Deploy.rifInstallerPath (Deploy c)));
    ("DEPLOY_FLAG_INCUDE_README", fun c => FFlag (Deploy.includeREADME (Deploy c)));
    ("DEPLOY_README_FILE", fun c => FText (Deploy.readmePath (Deploy c)));
    ("DEPLOY_FLAG_INCUDE_EULA", fun c => FFlag (Deploy.includeEULA (Deploy c)));
    ("DEPLOY_EULA_FILE", fun c => FText (Deploy.eulaPath (Deploy c)));
    ("IMAGERY_LOGO_FILE", fun c => FText (Imagery.logoFile (Imagery c)));
    ("IMAGERY_SPLASH_FILE", fun c => FText (Imagery.splashFile (Imagery c)));
    ("IMAGERY_FLAG_GENERATE", fun c => FFlag (Imagery.genImageryAuto (Imagery c)))
  ].

(** The keys whose branch of [SyncProjectConfig] is a comma expression. *)
Definition unassigned_keys : list string :=
  [ "PLATFORM_HTML5_FLAG_USE_WEBGL2"; "DEPLOY_FLAG_INCUDE_README" ].

(** The keys whose field is a single [char] handled as a string. *)
Definition char_path_keys : list string :=
  [ "PLATFORM_LINUX_CROSS_COMPILER_PATH"; "PLATFORM_DRM_CROSS_COMPILER_PATH" ].

(** A value a (signed, 8-bit) [char] can hold. *)
Definition char_range (z : Z) : Prop := (-128 <= z <= 127)%Z.

(** The scalar [char] fields hold [char] values. *)
Definition chars_in_range (c : rpcProjectConfig) : Prop :=
  char_range (Platform.Android.minSdkVersion (Platform.Android (Platform c))) /\
  char_range (Platform.Android.targetSdkVersion (Platform.Android (Platform c))).

(** The mapped [char] arrays of the configuration, each with its size. *)
Definition text_caps : list ((rpcProjectConfig -> string) * nat) :=
  [
    (fun c => Project.internalName (Project c), 64);
    (fun c => Project.repoName (Project c), 64);
    (fun c => Project.commercialName (Project c), 64);
    (fun c => Project.shortName (Project c), 64);
    (fun c => Project.version (Project c), 16);
    (fun c => Project.description (Project c), 256);
    (fun c => Project.publisherName (Project c), 64);
    (fun c => Project.developerName (Project c), 64);
    (fun c => Project.developerUrl (Project c), 64);
    (fun c => Project.developerEmail (Project c), 64);
    (fun c => Project.iconFile (Project c), 256);
    (fun c => Project.sourcePath (Project c), 256);
    (fun c => Project.assetsPath (Project c), 256);
    (fun c => Project.assetsOutPath (Project c), 256);
    (fun c => raylib.srcPath (raylib c), 256);
    (fun c => raylib.glVersion (raylib c), 16);
    (fun c => Build.outputPath (Build c), 256);
    (fun c => Build.targetPlatform (Build c), 64);
    (fun c => Build.targetArchitecture (Build c), 64);
    (fun c => Build.targetMode (Build c), 64);
    (fun c => Platform.Windows.msbuildPath (Platform.Windows (Platform c)), 256);
    (fun c => Platform.Windows.w64devkitPath (Platform.Windows (Platform c)), 256);
    (fun c => Platform.Windows.signtoolPath (Platform.Windows (Platform c)), 256);
    (fun c => Platform.Windows.signCertFile (Platform.Windows (Platform c)), 256);
    (fun c => Platform.macOS.bundleInfoFile (Platform.macOS (Platform c)), 256);
    (fun c => Platform.macOS.bundleName (Platform.macOS (Platform c)), 256);
    (fun c => Platform.macOS.bundleVersion (Platform.macOS (Platform c)), 16);
    (fun c => Platform.HTML5.emsdkPath (Platform.HTML5 (Platform c)), 256);
    (fun c => Platform.HTML5.shellFile (Platform.HTML5 (Platform c)), 256);
    (fun c => Platform.Android.sdkPath (Platform.Android (Platform c)), 256);
    (fun c => Platform.Android.ndkPath (Platform.Android (Platform c)), 256);
    (fun c => Platform.Android.javaSdkPath (Platform.Android (Platform c)), 256);
    (fun c => Platform.Android.manifestFile (Platform.Android (Platform c)), 256);
    (fun c => Platform.Dreamcast.sdkPath (Platform.Dreamcast (Platform c)), 256);
    (fun c => Deploy.rifInstallerPath (Deploy c), 256);
    (fun c => Deploy.readmePath (Deploy c), 256);
    (fun c => Deploy.eulaPath (Deploy c), 256);
    (fun c => Imagery.logoFile (Imagery c), 256);
    (fun c => Imagery.splashFile (Imagery c), 256)
  ].

(** Every mapped [char] array holds a string that fits it. *)
Definition strings_fit (c : rpcProjectConfig) : Prop :=
  Forall (fun gc => String.length (fst gc c) < snd gc) text_caps.

(** *** Output paths *)


(** *** What a loaded entry holds *)

(** A store value [LoadProjectConfigRaw] takes in without leaving an array:
    the key array holds [seg_rest], a first segment of at most 32 chars, an
    underscore and the rest, in under 64 chars; the description and a
    quoted text fit their arrays; a [PLATFORM] key has a second segment of
    at most 32 chars closed by an underscore. *)
Definition loadable (v : rini.value) : Prop :=
  exists seg rest n,
    rini.key v = in_array n (seg ++ String "_" rest) /\
    has_char NUL (seg ++ String "_" rest) = false /\
    has_char "_" seg = false /\
    String.length seg <= 32 /\
    String.length (seg ++ String "_" rest) < 64 /\
    String.length (seg ++ String "_" rest) < n /\
    String.length (rini.desc v) < 128 /\
    (rini.isText v = true -> String.length (rini.text v) < 256) /\
    (seg = "PLATFORM" ->
     exists seg2 rest2,
       rest = seg2 ++ String "_" rest2 /\ has_char "_" seg2 = false /\
       String.length seg2 <= 32).

(** The category of each first segment the loader knows. *)
Definition category_table : list (string * Z) :=
  [ ("PROJECT", RPC_CAT_PROJECT); ("BUILD", RPC_CAT_BUILD);
    ("PLATFORM", RPC_CAT_PLATFORM); ("DEPLOY", RPC_CAT_DEPLOY);
    ("IMAGERY", RPC_CAT_IMAGERY); ("RAYLIB", RPC_CAT_RAYLIB) ].

(** The category of a key: by its first segment, [PROJECT] when the segment
    is not in the table. *)
Definition category_rule (k : string) : Z :=
  match assoc (first_segment k) category_table with
  | Some c => c
  | None => RPC_CAT_PROJECT
  end.

(** [s] with a space for every underscore. *)
Fixpoint underscores_to_spaces (s : string) : string :=
  match s with
  | EmptyString => EmptyString
  | String ch rest =>
      String (if Ascii.eqb ch "_" then " "%char else ch) (underscores_to_spaces rest)
  end.

(** The display name of a key: what follows the first underscore with
    spaces for underscores; for a [PLATFORM] key what follows the second
    underscore, as it is. *)
Definition name_rule (k : string) : option string :=
  match after_underscore k with
  | Some rest =>
      if String.eqb (first_segment k) "PLATFORM" then after_underscore rest
      else Some (underscores_to_spaces rest)
  | None => None
  end.

(** *** What the two [Sync] functions move *)

(** The members [SyncProjectConfigRaw] leaves alone. *)
Definition same_identity (e e' : rpcPropertyEntry) : Prop :=
  key e' = key e /\ desc e' = desc e /\ name e' = name e /\
  category e' = category e /\ platform e' = platform e /\ type e' = type e /\
  editMode e' = editMode e.

(** Entry [e'] carries the field value [f]; [e] is the entry before the
    update.  A text field is in the text and leaves the value alone; a flag
    or an integer is in the value, and the text is its decimal form. *)
Definition entry_holds (f : field_value) (e e' : rpcPropertyEntry) : Prop :=
  match f with
  | FText s => text e' = s /\ value e' = value e
  | FFlag b => value e' = bool_to_int b /\ text e' = format_int (bool_to_int b)
  | FInt z => value e' = z /\ text e' = format_int z
  end.

(** The keys whose field is a [char] scalar. *)
Definition char_keys : list string :=
  [ "PLATFORM_ANDROID_MIN_SDK_VERSION"; "PLATFORM_ANDROID_TARGET_SDK_VERSION" ].

(** The field value [f] of key [k] is read from entry [e]: a text from the
    text, a flag from the value being nonzero, an integer from the value,
    cut down to a [char] for a [char] field. *)
Definition field_reads (k : string) (f : field_value) (e : rpcPropertyEntry) : Prop :=
  match f with
  | FText s => s = text e
  | FFlag b => b = int_to_bool (value e)
  | FInt z =>
      z = if existsb (String.eqb k) char_keys then int_to_char (value e) else value e
  end.

(** The mapped text keys, each with the size of the [char] array
    [SyncProjectConfig] copies its text into. *)
Definition field_caps : list (string * nat) :=
  [ ("PROJECT_INTERNAL_NAME", 64);
    ("PROJECT_REPO_NAME", 64);
    ("PROJECT_COMMERCIAL_NAME", 64);
    ("PROJECT_SHORT_NAME", 64);
    ("PROJECT_VERSION", 16);
    ("PROJECT_DESCRIPTION", 256);
    ("PROJECT_PUBLISHER_NAME", 64);
    ("PROJECT_DEVELOPER_NAME", 64);
    ("PROJECT_DEVELOPER_URL", 64);
    ("PROJECT_DEVELOPER_EMAIL", 64);
    ("PROJECT_ICON_FILE", 256);
    ("PROJECT_SOURCE_PATH", 256);
    ("PROJECT_ASSETS_PATH", 256);
    ("PROJECT_ASSETS_OUTPUT_PATH", 256);
    ("RAYLIB_SRC_PATH", 256);
    ("RAYLIB_OPENGL_VERSION", 16);
    ("BUILD_OUTPUT_PATH", 256);
    ("BUILD_TARGET_PLATFORM", 64);
    ("BUILD_TARGET_ARCHITECTURE", 64);
    ("BUILD_TARGET_MODE", 64);
    ("PLATFORM_WINDOWS_MSBUILD_PATH", 256);
    ("PLATFORM_WINDOWS_W64DEVKIT_PATH", 256);
    ("PLATFORM_WINDOWS_SIGNTOOL_PATH", 256);
    ("PLATFORM_WINDOWS_SIGNCERT_FILE", 256);
    ("PLATFORM_MACOS_BUNDLE_INFO_FILE", 256);
    ("PLATFORM_MACOS_BUNDLE_NAME", 256);
    ("PLATFORM_MACOS_BUNDLE_VERSION", 16);
    ("PLATFORM_HTML5_EMSDK_PATH", 256);
    ("PLATFORM_HTML5_SHELL_FILE", 256);
    ("PLATFORM_ANDROID_SDK_PATH", 256);
    ("PLATFORM_ANDROID_NDK_PATH", 256);
    ("PLATFORM_ANDROID_JAVA_SDK_PATH", 256);
    ("PLATFORM_ANDROID_MANIFEST_FILE", 256);
    ("PLATFORM_DREAMCAST_SDK_PATH", 256);
    ("DEPLOY_RIF_INSTALLER_PATH", 256);
    ("DEPLOY_README_FILE", 256);
    ("DEPLOY_EULA_FILE", 256);
    ("IMAGERY_LOGO_FILE", 256);
    ("IMAGERY_SPLASH_FILE", 256) ].

(** *** Configurations that differ in one respect *)


(** The template files [SetupProject] loads whatever the configuration
    asks for, each with the file its text is saved to: the path below the
    template directory, the path of the output file. *)
Definition loaded_templates (c : rpcProjectConfig) : list (string * string) :=
  let internalName := Project.internalName (Project c) in
  let out := Project.generationOutPath (Project c) ++ "/" ++ Project.repoName (Project c) in
  [ ("/project_name.rpc",
     Project.generationOutPath (Project c) ++ "/" ++ internalName ++ ".rpc");
    ("/.github/workflows/windows.yml", out ++ "/.github/workflows/windows.yml");
    ("/.github/workflows/linux.yml", out ++ "/.github/workflows/linux.yml");
    ("/.github/workflows/macos.yml", out ++ "/.github/workflows/macos.yml");
    ("/.github/workflows/webassembly.yml", out ++ "/.github/workflows/webassembly.yml");
    ("/src/project_name.rc", out ++ "/src/" ++ internalName ++ ".rc");
    ("/src/Info.plist", out ++ "/src/Info.plist");
    ("/src/minshell.html", out ++ "/src/minshell.html");
    ("/README.md", out ++ "/README.md");
    ("/LICENSE", out ++ "/LICENSE") ].

(** [path] is [dir] or begins with it. *)
Definition under (dir path : string) : Prop :=
  exists rest, path = dir ++ rest.

(** *** Saving a loaded store *)

(** The calls of a trace that store a value. *)
Definition stored (t : list rini_call) : list rini_call :=
  filter (fun c => match c with
                   | rini_set_value _ _ _ | rini_set_value_text _ _ _ => true
                   | _ => false
                   end) t.

(** The call that stores the store value [v] again: a quoted value as
    text, an unquoted one as the integer it reads as. *)
Definition store_call (v : rini.value) : rini_call :=
  if rini.isText v
  then rini_set_value_text (cstr_prefix (rini.key v)) (rini.text v) (rini.desc v)
  else rini_set_value (cstr_prefix (rini.key v)) (TextToInteger (rini.text v)) (rini.desc v).

(** The key of [v] falls into the [PROJECT] category. *)
Definition project_key (v : rini.value) : bool :=
  (category_rule (cstr_prefix (rini.key v)) =? RPC_CAT_PROJECT)%Z.

(** *** Splitting a text *)

(** [s] cut at its first [cuts] occurrences of [d]: the pieces between the
    cuts, the last piece being all that is left. *)
Fixpoint split_at (d : ascii) (s : string) (cuts : nat) : list string :=
  match s with
  | EmptyString => [ EmptyString ]
  | String ch rest =>
      if Ascii.eqb ch d then
        match cuts with
        | 0 => [ s ]
        | S cuts' => EmptyString :: split_at d rest cuts'
        end
      else
        match split_at d rest cuts with
        | p :: ps => String ch p :: ps
        | [] => [ String ch EmptyString ]
        end
  end.

(** The number of cells of [s] equal to [d]. *)
Fixpoint count_char (d : ascii) (s : string) : nat :=
  match s with
  | EmptyString => 0
  | String ch rest => (if Ascii.eqb ch d then 1 else 0) + count_char d rest
  end.

(** *** Unpacking *)

(** The offset of the entry that follows [before] in the blob. *)
Definition offset_after (before : list Rpc.PackFileEntry) : Z :=
  fold_right (fun e o => (Rpc.compFileSize e + o)%Z) 0%Z before.

(** The entry that follows [before] decompresses to a buffer of the size
    it records. *)
Definition unpacks (DecompressData : Z -> Z -> option (list Byte.byte) * Z)
    (before : list Rpc.PackFileEntry) (entry : Rpc.PackFileEntry) : bool :=
  match DecompressData (offset_after before) (Rpc.compFileSize entry) with
  | (Some _, size) => (size =? Rpc.fileSize entry)%Z
  | (None, _) => false
  end.

(** The call that saves the entry following [before]: the buffer
    decompressed from the entry's offset, with the size reported for it,
    under the entry's path below [outputDirPath]. *)
Definition save_call (DecompressData : Z -> Z -> option (list Byte.byte) * Z)
    (outputDirPath : string) (before : list Rpc.PackFileEntry)
    (entry : Rpc.PackFileEntry) : option Rpc.pack_call :=
  match DecompressData (offset_after before) (Rpc.compFileSize entry) with
  | (Some bytes, size) =>
      if (size =? Rpc.fileSize entry)%Z
      then Some (Rpc.SaveFileData (outputDirPath ++ "/" ++ Rpc.filePath entry) bytes size)
      else None
  | (None, _) => None
  end.

(** *** The items of the VS2022 project *)

(** The text of the items [SetupProject] appends to [srcFilesBlock]: one
    for each code file after the first. *)
Definition compile_items (names : list string) : string :=
  fold_right (fun n items => Rpc.cl_compile n ++ "    " ++ items) "" (tl names).

(** *** From a store value to a field *)

(** The field value [f] of key [k] is what the store value [v] gives it
    through a load and a parse: a quoted value gives its text to a text
    field, and nothing to a flag or an integer; an unquoted value gives the
    integer it reads as to a flag or an integer, and an empty text to a text
    field. *)
Definition field_from_value (k : string) (v : rini.value) (f : field_value) : Prop :=
  let n := if rini.isText v then 0%Z else TextToInteger (rini.text v) in
  match f with
  | FText s => s = if rini.isText v then rini.text v else ""
  | FFlag b => b = int_to_bool n
  | FInt z => z = if existsb (String.eqb k) char_keys then int_to_char n else n
  end.

End Spec.

(* ================================================================== *)
(** ** Sample inputs *)

Module Samples.
Import RaylibAPI RpConfig Rpc.

(** A template directory with every file present; [src/Makefile] names the
    source-file placeholder, the other files are empty. *)
Definition full_template : Env :=
  mkEnv "/opt/rpc"
        (fun _ => true)
        (fun _ => true)
        (fun p => if String.eqb p "/opt/rpc/template/src/Makefile"
                  then Some "PROJECT_NAME ?= project_name; SRC = project_name.c"
                  else Some "")
        eq_refl.

(** The same without the [projects] subdirectory. *)
Definition template_without_projects : Env :=
  mkEnv "/opt/rpc"
        (fun p => negb (String.eqb p "/opt/rpc/template/projects"))
        (fun _ => true)
        (LoadFileText full_template)
        eq_refl.

(** A project of the given template number, build systems and sources,
    generated into [out], the repository name left blank. *)
Definition project (internalName : string) (selectedTemplate : Z)
    (requestedBuildSystems : list bool) (sourceFilePaths : list string)
  : rpcProjectConfig :=
  mkConfig
    (Project.mk "" "" internalName "" 2025 "" "" "" "" "" "" "" "" "" ""
                (List.length sourceFilePaths) sourceFilePaths 0 [] selectedTemplate "out")
    (Build.mk "" false false "" requestedBuildSystems "" "" "")
    (Platform zero_config) (Deploy zero_config) (Imagery zero_config) (raylib zero_config).

(** The full template with a [README.md] that cannot be read. *)
Definition template_without_readme : Env :=
  mkEnv "/opt/rpc"
        (fun _ => true)
        (fun _ => true)
        (fun p => if String.eqb p "/opt/rpc/template/README.md"
                  then None
                  else LoadFileText full_template p)
        eq_refl.

End Samples.

(* ================================================================== *)
(** * Properties *)

Import CStr RaylibAPI RpConfig Rpc Spec.
Local Infix "+++" := (@List.app _) (right associativity, at level 60).

(** *** The memory-fault monad *)

Lemma bind_Ok {A B} (r : result A) (k : A -> result B) (b : B) :
  bind r k = Ok b <-> exists a, r = Ok a /\ k a = Ok b.
Proof.
  destruct r as [a|]; simpl; split.
  - intros H; exists a; auto.
  - intros (a' & Ha & Hk); inversion Ha; subst; auto.
  - discriminate.
  - intros (a' & Ha & _); discriminate.
Qed.

Lemma mapM_Ok {A B} (f : A -> result B) (l : list A) (r : list B) :
  mapM f l = Ok r <-> Forall2 (fun a b => f a = Ok b) l r.
Proof.
  revert r; induction l as [|a l IH]; intros r; simpl.
  - split.
    + intros H; inversion H; constructor.
    + intros H; inversion H; reflexivity.
  - rewrite bind_Ok; split.
    + intros (b & Hb & H). apply bind_Ok in H. destruct H as (bs & Hbs & H).
      inversion H; subst. constructor; [assumption | now apply IH].
    + intros H; inversion H as [|? b ? bs Hb Hbs]; subst.
      exists b; split; [assumption|]. apply bind_Ok.
      exists bs; split; [now apply IH | reflexivity].
Qed.

(** The two loops of [LoadProjectConfigRaw] amount to [load_entry] on each
    value. *)
Lemma LoadProjectConfigRaw_entries values raw :
  LoadProjectConfigRaw (Some values) = Ok raw <->
  Forall2 (fun v e => load_entry v = Ok e) values raw.
Proof.
  unfold LoadProjectConfigRaw. rewrite bind_Ok. split.
  - intros (raw1 & H1 & H2). apply mapM_Ok in H1. apply mapM_Ok in H2.
    revert raw H2. induction H1 as [|v e1 vs es1 Hv Hvs IH]; intros raw H2.
    + inversion H2; constructor.
    + simpl in H2. inversion H2 as [|? e ? es He Hes]; subst. simpl in He.
      constructor; [|now apply IH].
      unfold load_entry. rewrite Hv. exact He.
  - intros H. induction H as [|v e vs es Hv Hvs IH].
    + exists []; split; reflexivity.
    + destruct IH as (raw1 & H1 & H2).
      unfold load_entry in Hv. apply bind_Ok in Hv. destruct Hv as (e1 & He1 & He).
      exists (e1 :: raw1); split.
      * simpl. rewrite He1. simpl. rewrite H1. reflexivity.
      * simpl. rewrite He. simpl. rewrite H2. reflexivity.
Qed.

Lemma Forall2_combine_In {A B} (P : A -> B -> Prop) l r a b :
  Forall2 P l r -> In (a, b) (combine l r) -> P a b.
Proof.
  induction 1 as [|x y l r Hxy _ IH]; simpl; [tauto|].
  intros [H|H]; [inversion H; subst; assumption | auto].
Qed.

(** Every entry of a loaded store is [load_entry] of its value. *)
Lemma loaded_entry values raw v e :
  LoadProjectConfigRaw (Some values) = Ok raw ->
  In (v, e) (combine values raw) ->
  load_entry v = Ok e.
Proof.
  intros H Hin. apply LoadProjectConfigRaw_entries in H.
  exact (Forall2_combine_In _ _ _ _ _ H Hin).
Qed.

(** *** [TextFindIndex] against occurrences *)

Lemma TextFindIndex_past_start text search :
  search <> "" ->
  (TextFindIndex text search >? 0)%Z = true <-> past_start search text.
Proof.
  intros Hne. unfold TextFindIndex, past_start, occurs_at.
  destruct (index 0 search text) as [m|] eqn:Hi.
  - pose proof (index_correct1 _ _ _ _ Hi) as H1.
    pose proof (index_correct2 _ _ _ _ Hi) as H2.
    split.
    + intros Hpos. apply Z.gtb_lt in Hpos. split.
      * apply H2; lia.
      * exists m; assumption.
    + intros (H0 & _). apply Z.gtb_lt.
      destruct m as [|m]; [contradiction | lia].
  - split; [discriminate|].
    intros (_ & p & Hp). exfalso.
    exact (index_correct3 0 p _ _ Hi Hne (Nat.le_0_l p) Hp).
Qed.

Lemma TextFindIndex_zero text search :
  search <> "" ->
  TextFindIndex text search = 0%Z <-> occurs_at search text 0.
Proof.
  intros Hne. unfold TextFindIndex, occurs_at.
  destruct (index 0 search text) as [m|] eqn:Hi.
  - pose proof (index_correct1 _ _ _ _ Hi) as H1.
    pose proof (index_correct2 _ _ _ _ Hi) as H2.
    split.
    + intros Hz. assert (m = 0) by lia. subst. assumption.
    + intros H0. destruct m as [|m]; [reflexivity|].
      exfalso. apply (H2 0); [lia | lia | assumption].
  - split; [discriminate|].
    intros H0. exfalso.
    exact (index_correct3 0 0 _ _ Hi Hne (Nat.le_0_l 0) H0).
Qed.

(** *** The second loop: type of an entry *)

Lemma load_entry_type_key v e1 e :
  load_entry_type v e1 = Ok e -> key e = key e1 /\ category e = category e1 /\ platform e = platform e1.
Proof.
  unfold load_entry_type.
  destruct (rini.isText v); simpl.
  - rewrite bind_Ok. intros (t & _ & H). inversion H; subst; clear H.
    repeat match goal with |- context [if ?c then _ else _] => destruct c end; auto.
  - intros H; inversion H; subst; clear H.
    repeat match goal with |- context [if ?c then _ else _] => destruct c end; auto.
Qed.

Lemma load_entry_type_quoted v e1 e :
  load_entry_type v e1 = Ok e -> rini.isText v = true ->
  type e =
    if (TextFindIndex (key e) "_FILES" >? 0)%Z then RPC_TYPE_TEXT_FILE
    else if (TextFindIndex (key e) "_FILE" >? 0)%Z then RPC_TYPE_TEXT_FILE
    else if (TextFindIndex (key e) "_PATH" >? 0)%Z then RPC_TYPE_TEXT_PATH
    else RPC_TYPE_TEXT.
Proof.
  intros H Hq. destruct (load_entry_type_key _ _ _ H) as (Hk & _). rewrite Hk.
  unfold load_entry_type in H. rewrite Hq in H. simpl in H.
  apply bind_Ok in H. destruct H as (t & _ & H). inversion H; subst; clear H.
  repeat match goal with |- context [if ?c then _ else _] => destruct c end; reflexivity.
Qed.

Lemma load_entry_type_unquoted v e1 e :
  load_entry_type v e1 = Ok e -> rini.isText v = false ->
  type e = if c_true (TextFindIndex (key e) "_FLAG") then RPC_TYPE_BOOL else RPC_TYPE_VALUE.
Proof.
  intros H Hq. destruct (load_entry_type_key _ _ _ H) as (Hk & _). rewrite Hk.
  unfold load_entry_type in H. rewrite Hq in H. simpl in H.
  inversion H; subst; clear H.
  destruct (c_true _); reflexivity.
Qed.

Lemma load_entry_split v e :
  load_entry v = Ok e ->
  exists e1, load_entry_names v zero_entry = Ok e1 /\ load_entry_type v e1 = Ok e.
Proof. unfold load_entry. now rewrite bind_Ok. Qed.

Ltac marker_neq := let H := fresh in intros H; discriminate H.

(** Quoting decides first.  A quoted value is typed by the markers its key
    contains past the first position: TextFile for [_FILES] or [_FILE], else
    TextPath for [_PATH], else Text.  An unquoted value is never typed as
    text, and is Bool when its key contains [_FLAG] past the first
    position. *)
Lemma entry_type_by_markers values raw v e :
  LoadProjectConfigRaw (Some values) = Ok raw ->
  In (v, e) (combine values raw) ->
  (rini.isText v = true ->
     (past_start "_FILES" (key e) \/ past_start "_FILE" (key e) ->
      type e = RPC_TYPE_TEXT_FILE) /\
     (~ past_start "_FILES" (key e) -> ~ past_start "_FILE" (key e) ->
      past_start "_PATH" (key e) -> type e = RPC_TYPE_TEXT_PATH) /\
     (~ past_start "_FILES" (key e) -> ~ past_start "_FILE" (key e) ->
      ~ past_start "_PATH" (key e) -> type e = RPC_TYPE_TEXT)) /\
  (rini.isText v = false ->
     (type e = RPC_TYPE_BOOL \/ type e = RPC_TYPE_VALUE) /\
     (past_start "_FLAG" (key e) -> type e = RPC_TYPE_BOOL)).
Proof.
  intros Hload Hin.
  destruct (load_entry_split _ _ (loaded_entry _ _ _ _ Hload Hin)) as (e1 & _ & Ht).
  split; intros Hq.
  - rewrite (load_entry_type_quoted _ _ _ Ht Hq).
    pose proof (TextFindIndex_past_start (key e) "_FILES" ltac:(marker_neq)) as Hfs.
    pose proof (TextFindIndex_past_start (key e) "_FILE" ltac:(marker_neq)) as Hf.
    pose proof (TextFindIndex_past_start (key e) "_PATH" ltac:(marker_neq)) as Hp.
    destruct (TextFindIndex (key e) "_FILES" >? 0)%Z;
      destruct (TextFindIndex (key e) "_FILE" >? 0)%Z;
      destruct (TextFindIndex (key e) "_PATH" >? 0)%Z;
      repeat split; intros; try reflexivity; exfalso;
      repeat match goal with
             | H : _ \/ _ |- _ => destruct H
             | H : past_start ?m (key e), I : _ <-> past_start ?m (key e) |- _ =>
                 apply I in H; discriminate H
             | H : ~ past_start ?m (key e), I : true = true <-> past_start ?m (key e) |- _ =>
                 apply H, I; reflexivity
             end.
  - rewrite (load_entry_type_unquoted _ _ _ Ht Hq).
    split.
    + destruct (c_true _); auto.
    + intros (H0 & _).
      unfold c_true.
      destruct (TextFindIndex (key e) "_FLAG" =? 0)%Z eqn:Hz; [|reflexivity].
      apply Z.eqb_eq in Hz.
      apply (TextFindIndex_zero (key e) "_FLAG" ltac:(marker_neq)) in Hz.
      contradiction.
Qed.

(** *** Suffixes and markers *)

Lemma has_suffix_split suffix s :
  has_suffix suffix s = true -> exists pre, s = pre ++ suffix.
Proof.
  induction s as [|c s IH]; cbn [has_suffix]; intros H;
    apply orb_true_iff in H; destruct H as [H|H].
  - apply String.eqb_eq in H. exists "". now subst.
  - discriminate H.
  - apply String.eqb_eq in H. exists "". now subst.
  - destruct (IH H) as (pre & ->). exists (String c pre). reflexivity.
Qed.

Lemma substring_0_prefix m tail :
  substring 0 (String.length m) (m ++ tail) = m.
Proof.
  induction m as [|a m IH]; simpl.
  - destruct tail; reflexivity.
  - now rewrite IH.
Qed.

Lemma occurs_at_middle marker pre tail :
  occurs_at marker (pre ++ marker ++ tail) (String.length pre).
Proof.
  unfold occurs_at. induction pre as [|a pre IH]; simpl.
  - apply substring_0_prefix.
  - exact IH.
Qed.

Lemma no_leading_underscore marker k :
  leading_underscore k = false -> ~ occurs_at (String "_" marker) k 0.
Proof.
  unfold occurs_at. destruct k as [|c k]; simpl; intros Hc H.
  - discriminate H.
  - injection H as -> _. discriminate Hc.
Qed.

Lemma contains_false marker k :
  marker <> "" -> contains marker k = false -> ~ past_start marker k.
Proof.
  unfold contains, past_start. intros Hne Hc (_ & p & Hp).
  destruct (index 0 marker k) eqn:Hi; [discriminate|].
  exact (index_correct3 0 p _ _ Hi Hne (Nat.le_0_l p) Hp).
Qed.

Lemma contains_true marker k :
  marker <> "" -> contains marker k = true -> exists p, occurs_at marker k p.
Proof.
  unfold contains. intros _ Hc.
  destruct (index 0 marker k) as [p|] eqn:Hi; [|discriminate].
  exists p. exact (index_correct1 _ _ _ _ Hi).
Qed.

Lemma files_marker_has_file s p :
  occurs_at "_FILES" s p -> occurs_at "_FILE" s p.
Proof.
  unfold occurs_at. revert p.
  induction s as [|c s IH]; intros [|p]; simpl; try discriminate.
  - destruct s as [|c1 [|c2 [|c3 [|c4 [|c5 s]]]]]; simpl; try discriminate.
    intros H. injection H as -> -> -> -> -> _. reflexivity.
  - apply IH.
Qed.

(** C2 (as amended).  Quoting decides first.  For a quoted value the type
    is TextFile when the key ends with [_FILES] or [_FILE], TextPath when
    it ends with [_PATH] and contains no [_FILE], and Text when it contains
    neither [_FILE] nor [_PATH], whether or not it contains [_FLAG].  For
    an unquoted value the type is Bool when the key contains [_FLAG], and
    is never a text type.  Keys are taken not to begin with an
    underscore. *)
Theorem entry_type_by_quoting values raw v e :
  LoadProjectConfigRaw (Some values) = Ok raw ->
  In (v, e) (combine values raw) ->
  leading_underscore (key e) = false ->
  (rini.isText v = true ->
     (has_suffix "_FILES" (key e) || has_suffix "_FILE" (key e) = true ->
      type e = RPC_TYPE_TEXT_FILE) /\
     (has_suffix "_PATH" (key e) = true -> contains "_FILE" (key e) = false ->
      type e = RPC_TYPE_TEXT_PATH) /\
     (contains "_FILE" (key e) = false -> contains "_PATH" (key e) = false ->
      type e = RPC_TYPE_TEXT)) /\
  (rini.isText v = false ->
     (type e = RPC_TYPE_BOOL \/ type e = RPC_TYPE_VALUE) /\
     (contains "_FLAG" (key e) = true -> type e = RPC_TYPE_BOOL)).
Proof.
  intros Hload Hin Hlead.
  destruct (entry_type_by_markers _ _ _ _ Hload Hin) as (Hq & Hu).
  assert (Hno_files : contains "_FILE" (key e) = false -> ~ past_start "_FILES" (key e)).
  { intros Hc (_ & p & Hp).
    apply (contains_false "_FILE" (key e) ltac:(marker_neq) Hc).
    split; [now apply no_leading_underscore|].
    exists p. now apply files_marker_has_file. }
  split; intros Hquoted.
  - destruct (Hq Hquoted) as (Hfile & Hpath & Htext).
    split; [|split].
    + intros Hsuf. apply Hfile. apply orb_true_iff in Hsuf. right.
      split; [now apply no_leading_underscore|].
      destruct Hsuf as [Hsuf|Hsuf]; apply has_suffix_split in Hsuf;
        destruct Hsuf as (pre & ->); exists (String.length pre).
      * exact (occurs_at_middle "_FILE" pre "S").
      * exact (occurs_at_middle "_FILE" pre "").
    + intros Hsuf Hc. apply Hpath.
      * now apply Hno_files.
      * now apply contains_false; [marker_neq|].
      * split; [now apply no_leading_underscore|].
        apply has_suffix_split in Hsuf. destruct Hsuf as (pre & ->).
        exists (String.length pre). exact (occurs_at_middle "_PATH" pre "").
    + intros Hc1 Hc2. apply Htext.
      * now apply Hno_files.
      * now apply contains_false; [marker_neq|].
      * now apply contains_false; [marker_neq|].
  - destruct (Hu Hquoted) as (Hint & Hflag). split; [exact Hint|].
    intros Hc. apply Hflag. split; [now apply no_leading_underscore|].
    now apply contains_true; [marker_neq|].
Qed.

Lemma entry_type_by_quoting_witness :
  let v := rini.mk (in_array 64 "PROJECT_ICON_FILE") "icon.ico" "" true in
  let e := mkEntry "PROJECT_ICON_FILE" "icon.ico" "" "ICON FILE"
             RPC_CAT_PROJECT RPC_PLATFORM_ANY RPC_TYPE_TEXT_FILE 0 false in
  LoadProjectConfigRaw (Some [v]) = Ok [e] /\ type e = RPC_TYPE_TEXT_FILE.
Proof.
  intros v e. split; [reflexivity|].
  exact (proj1 (proj1 (entry_type_by_quoting [v] [e] v e
                         eq_refl (or_introl eq_refl) eq_refl) eq_refl) eq_refl).
Defined.

(** The type rule of the specification fails on a quoted flag:
    [BUILD_FLAG_ASSETS_VALIDATION "1"] loads as Text, where the rule says
    Bool. *)
Lemma type_rule_counterexample :
  ~ (forall values raw v e,
        LoadProjectConfigRaw (Some values) = Ok raw ->
        In (v, e) (combine values raw) ->
        type e = type_rule (key e) (rini.isText v)).
Proof.
  intros H.
  pose (v := rini.mk (in_array 64 "BUILD_FLAG_ASSETS_VALIDATION") "1" "" true).
  pose (e := mkEntry "BUILD_FLAG_ASSETS_VALIDATION" "1" "" "FLAG ASSETS VALIDATION"
               RPC_CAT_BUILD RPC_PLATFORM_ANY RPC_TYPE_TEXT 0 false).
  specialize (H [v] [e] v e eq_refl (or_introl eq_refl)).
  vm_compute in H. discriminate H.
Qed.

(** *** Cells and segments *)

Lemma Ok_inj {A} (a b : A) : Ok a = Ok b -> a = b.
Proof. intros H; injection H; auto. Qed.

Lemma has_char_app c s t :
  has_char c (s ++ t) = has_char c s || has_char c t.
Proof.
  induction s as [|a s IH]; simpl; [reflexivity|].
  rewrite IH. apply orb_assoc.
Qed.

Lemma has_char_zeros c m : c <> NUL -> has_char c (zeros m) = false.
Proof.
  intros Hc. induction m as [|m IH]; cbn [zeros has_char]; [reflexivity|].
  rewrite IH, orb_false_r. apply Ascii.eqb_neq. congruence.
Qed.

Lemma string_length_app s t : String.length (s ++ t) = String.length s + String.length t.
Proof. induction s as [|a s IH]; simpl; [reflexivity | now rewrite IH]. Qed.

Lemma length_zeros m : String.length (zeros m) = m.
Proof. induction m as [|m IH]; simpl; [reflexivity | now rewrite IH]. Qed.

Lemma append_assoc (s t u : string) : (s ++ t) ++ u = s ++ t ++ u.
Proof. induction s as [|a s IH]; simpl; [reflexivity | now rewrite IH]. Qed.

Lemma skip_zeros j m : skip j (zeros m) = zeros (m - j).
Proof.
  revert m; induction j as [|j IH]; intros m; simpl.
  - now rewrite Nat.sub_0_r.
  - destruct m as [|m]; simpl; [reflexivity | apply IH].
Qed.

Lemma skip_app_cell seg c rest :
  skip (String.length seg + 1) (seg ++ String c rest) = rest.
Proof. induction seg as [|a seg IH]; simpl; [reflexivity | exact IH]. Qed.

Lemma substring_app seg tail :
  substring 0 (String.length seg) (seg ++ tail) = seg.
Proof.
  induction seg as [|a seg IH]; simpl.
  - destruct tail; reflexivity.
  - now rewrite IH.
Qed.

Lemma cstr_prefix_app_zeros seg m :
  has_char NUL seg = false -> cstr_prefix (seg ++ zeros m) = seg.
Proof.
  induction seg as [|a seg IH]; simpl.
  - intros _. destruct m; reflexivity.
  - intros Hn. apply orb_false_iff in Hn. destruct Hn as (Ha & Hs).
    rewrite Ha, IH by assumption. reflexivity.
Qed.

Lemma cstr_app_zeros k m r :
  has_char NUL k = false -> cstr (k ++ zeros m) = Ok r -> r = k /\ 0 < m.
Proof.
  revert r; induction k as [|a k IH]; simpl; intros r Hk H.
  - destruct m as [|m]; cbn in H; [discriminate|].
    inversion H; split; [reflexivity | lia].
  - apply orb_false_iff in Hk. destruct Hk as (Ha & Hk).
    rewrite Ha in H. apply bind_Ok in H. destruct H as (r' & Hr' & H).
    inversion H; subst. destruct (IH _ Hk Hr') as (-> & Hm). auto.
Qed.

Lemma strcpy_Ok cap src r :
  strcpy cap src = Ok r -> r = src /\ String.length src < cap.
Proof.
  unfold strcpy. destruct (Nat.ltb_spec (String.length src) cap) as [Hlt|_]; [|discriminate].
  intros Heq; inversion Heq; subst; split; [reflexivity | assumption].
Qed.

Lemma strncpy_cells_segment seg tail :
  has_char NUL seg = false ->
  strncpy_cells (seg ++ tail) (String.length seg) = Ok seg.
Proof.
  induction seg as [|a seg IH]; simpl; [reflexivity|].
  intros H. apply orb_false_iff in H. destruct H as (Ha & Hs).
  rewrite Ha, IH by assumption. reflexivity.
Qed.

(** What a successful scan has read: a run [seg] free of underscores,
    ended by an underscore unless the iterations ran out. *)
Lemma segment_len_Ok cells iters len r :
  segment_len cells iters len = Ok r ->
  exists seg tail,
    cells = seg ++ tail /\ r = len + String.length seg /\
    has_char "_" seg = false /\
    (String.length seg = iters \/ exists rest, tail = String "_" rest).
Proof.
  revert cells len; induction iters as [|iters IH]; intros cells len; simpl.
  - intros H; inversion H; subst. exists "", cells. simpl. repeat split; auto.
  - destruct cells as [|ch rest]; [discriminate|].
    destruct (Ascii.eqb_spec ch "_") as [->|Hne].
    + intros H; inversion H; subst. exists "", (String "_" rest). simpl.
      repeat split; eauto.
    + intros H. destruct (IH _ _ H) as (seg & tail & -> & -> & Hseg & Hend).
      exists (String ch seg), tail. simpl. repeat split.
      * lia.
      * rewrite Hseg, orb_false_r. now apply Ascii.eqb_neq.
      * destruct Hend as [<-|Hend]; auto.
Qed.

(** An underscore found in a key array in good order lies in the key. *)
Lemma underscore_in_key k z seg rest :
  has_char "_" z = false ->
  k ++ z = seg ++ String "_" rest ->
  exists rest_k, k = seg ++ String "_" rest_k /\ rest = rest_k ++ z.
Proof.
  intros Hz. revert seg; induction k as [|a k IH]; intros seg; simpl.
  - intros ->. rewrite has_char_app in Hz. simpl in Hz.
    rewrite orb_true_r in Hz. discriminate.
  - destruct seg as [|b seg]; simpl; intros H; inversion H; subst.
    + exists k; auto.
    + destruct (IH _ H2) as (rest_k & -> & ->). exists rest_k; auto.
Qed.

Lemma first_segment_app seg rest :
  has_char "_" seg = false -> first_segment (seg ++ String "_" rest) = seg.
Proof.
  induction seg as [|a seg IH]; simpl; [reflexivity|].
  intros H. apply orb_false_iff in H. destruct H as (Ha & Hs).
  rewrite Ha, IH by assumption. reflexivity.
Qed.

Lemma after_underscore_app seg rest :
  has_char "_" seg = false -> after_underscore (seg ++ String "_" rest) = Some rest.
Proof.
  induction seg as [|a seg IH]; simpl; [reflexivity|].
  intros H. apply orb_false_iff in H. destruct H as (Ha & Hs).
  rewrite Ha. auto.
Qed.

Lemma underscore_not_NUL : "_"%char <> NUL.
Proof. discriminate. Qed.

(** One scanned segment of a key array in good order: the segment, what
    follows it in the key, and the limit the copy puts on its length. *)
Lemma scanned_segment k m r :
  has_char NUL k = false ->
  segment_len (k ++ zeros m) 128 0 = Ok r ->
  r <= 32 ->
  exists seg rest_k,
    k = seg ++ String "_" rest_k /\ r = String.length seg /\
    has_char "_" seg = false /\ has_char NUL seg = false /\ has_char NUL rest_k = false /\
    skip (r + 1) (k ++ zeros m) = rest_k ++ zeros m.
Proof.
  intros Hk Hs Hr.
  destruct (segment_len_Ok _ _ _ _ Hs) as (seg & tail & Hcells & -> & Hseg & Hend).
  simpl in Hr. destruct Hend as [Hend|(rest & ->)]; [lia|].
  destruct (underscore_in_key _ _ _ _ (has_char_zeros _ m underscore_not_NUL) Hcells)
    as (rest_k & -> & ->).
  rewrite has_char_app in Hk. simpl in Hk.
  apply orb_false_iff in Hk. destruct Hk as (Hk1 & Hk2).
  exists seg, rest_k. simpl. repeat split; auto.
  rewrite append_assoc. simpl. apply skip_app_cell.
Qed.

(** The category array after the [strncpy] holds the first segment. *)
Lemma category_array seg tail cat :
  has_char NUL seg = false ->
  strncpy (zeros 32) (seg ++ tail) (String.length seg) = Ok cat ->
  String.length seg <= 32 /\ cstr_prefix cat = seg.
Proof.
  intros Hseg. unfold strncpy. rewrite length_zeros.
  destruct (Nat.leb_spec (String.length seg) 32) as [Hle|_]; [|discriminate].
  rewrite strncpy_cells_segment by assumption. cbn [bind].
  intros Heq. apply Ok_inj in Heq. subst cat. split; [assumption|].
  rewrite skip_zeros. now apply cstr_prefix_app_zeros.
Qed.

(** The platform array after the [memcpy] holds the second segment. *)
Lemma platform_array seg tail p :
  has_char NUL seg = false ->
  memcpy (zeros 32) (seg ++ tail) (String.length seg) = Ok p ->
  String.length seg <= 32 /\ cstr_prefix p = seg.
Proof.
  intros Hseg. unfold memcpy. rewrite length_zeros.
  destruct (Nat.leb_spec (String.length seg) 32) as [Hle|_]; [|discriminate].
  destruct (String.length seg <=? String.length (seg ++ tail))%nat; [|discriminate].
  cbn [andb]. intros Heq. apply Ok_inj in Heq. subst p. split; [assumption|].
  rewrite substring_app, skip_zeros. now apply cstr_prefix_app_zeros.
Qed.

(** The code's platform table is the specification's. *)
Lemma platform_of_table s :
  platform_of s RPC_PLATFORM_ANY =
  platform_code match assoc s platform_table with Some p => p | None => PAny end.
Proof.
  unfold platform_of, TextIsEqual. simpl.
  repeat match goal with |- context [String.eqb s ?l] => destruct (String.eqb s l) end;
    reflexivity.
Qed.

(** What the first loop computes for a key array in good order. *)
Lemma load_entry_names_good_key v e n k :
  load_entry_names v zero_entry = Ok e ->
  key_array n k (rini.key v) ->
  key e = k /\
  (exists rest, k = first_segment k ++ String "_" rest) /\
  category e =
    (if String.eqb (first_segment k) "PROJECT" then RPC_CAT_PROJECT
     else if String.eqb (first_segment k) "BUILD" then RPC_CAT_BUILD
     else if String.eqb (first_segment k) "PLATFORM" then RPC_CAT_PLATFORM
     else if String.eqb (first_segment k) "DEPLOY" then RPC_CAT_DEPLOY
     else if String.eqb (first_segment k) "IMAGERY" then RPC_CAT_IMAGERY
     else if String.eqb (first_segment k) "RAYLIB" then RPC_CAT_RAYLIB
     else 0%Z) /\
  platform e = platform_code (platform_rule (category e) k).
Proof.
  intros H (Hcells & Hk). unfold load_entry_names in H.
  rewrite Hcells in H. unfold in_array in H.
  set (m := n - String.length k) in *.
  apply bind_Ok in H. destruct H as (k0 & Hk0 & H).
  destruct (cstr_app_zeros _ _ _ Hk Hk0) as (-> & Hm).
  apply bind_Ok in H. destruct H as (k1 & Hk1 & H).
  apply strcpy_Ok in Hk1. destruct Hk1 as (-> & Hlen).
  apply bind_Ok in H. destruct H as (d & _ & H).
  apply bind_Ok in H. destruct H as (r & Hr & H).
  apply bind_Ok in H. destruct H as (cat & Hcat & H).
  assert (Hr32 : r <= 32).
  { unfold strncpy in Hcat. rewrite length_zeros in Hcat.
    destruct (Nat.leb_spec r 32) as [Hle|_]; [assumption | discriminate]. }
  destruct (scanned_segment _ _ _ Hk Hr Hr32)
    as (seg & rest_k & Hkeq & -> & Hseg_ & Hseg0 & Hrest0 & Hskip).
  rewrite Hskip in H.
  assert (Hcat' : cstr_prefix cat = seg).
  { rewrite Hkeq, append_assoc in Hcat.
    exact (proj2 (category_array _ _ _ Hseg0 Hcat)). }
  rewrite Hcat' in H.
  assert (Hfirst : first_segment k = seg)
    by (rewrite Hkeq; now apply first_segment_app).
  assert (Hafter : after_underscore k = Some rest_k)
    by (rewrite Hkeq; now apply after_underscore_app).
  rewrite Hfirst.
  apply bind_Ok in H. destruct H as (n0 & _ & H).
  apply bind_Ok in H. destruct H as (n1 & _ & H).
  unfold TextIsEqual in H.
  assert (Hex : exists rest, k = seg ++ String "_" rest) by (eexists; eassumption).
  unfold platform_rule.
  destruct (String.eqb seg "PROJECT");
    [inversion H; subst; clear H; simpl; auto|].
  destruct (String.eqb seg "BUILD");
    [inversion H; subst; clear H; simpl; auto|].
  destruct (String.eqb seg "PLATFORM").
  - apply bind_Ok in H. destruct H as (r2 & Hr2 & H).
    apply bind_Ok in H. destruct H as (p & Hp & H).
    assert (Hr2' : r2 <= 32).
    { unfold memcpy in Hp. rewrite length_zeros in Hp.
      destruct (Nat.leb_spec r2 32) as [Hle|_]; [assumption | discriminate]. }
    destruct (scanned_segment _ _ _ Hrest0 Hr2 Hr2')
      as (seg2 & rest2 & Hrest_eq & -> & Hseg2_ & Hseg20 & _ & _).
    assert (Hp' : cstr_prefix p = seg2).
    { rewrite Hrest_eq, append_assoc in Hp.
      exact (proj2 (platform_array _ _ _ Hseg20 Hp)). }
    rewrite Hp' in H.
    apply bind_Ok in H. destruct H as (n2 & _ & H).
    apply bind_Ok in H. destruct H as (n3 & _ & H).
    inversion H; subst e; clear H. simpl.
    repeat split; auto.
    unfold second_segment. rewrite Hafter, Hrest_eq.
    rewrite first_segment_app by assumption.
    apply platform_of_table.
  - destruct (String.eqb seg "DEPLOY");
      [inversion H; subst; clear H; simpl; auto|].
    destruct (String.eqb seg "IMAGERY");
      [inversion H; subst; clear H; simpl; auto|].
    destruct (String.eqb seg "RAYLIB");
      inversion H; subst; clear H; simpl; auto.
Qed.

Lemma loaded_entry_good_key values raw v e n k :
  LoadProjectConfigRaw (Some values) = Ok raw ->
  In (v, e) (combine values raw) ->
  key_array n k (rini.key v) ->
  exists e1,
    load_entry_names v zero_entry = Ok e1 /\
    key e = key e1 /\ category e = category e1 /\ platform e = platform e1.
Proof.
  intros Hload Hin _.
  destruct (load_entry_split _ _ (loaded_entry _ _ _ _ Hload Hin)) as (e1 & Hn & Ht).
  exists e1. split; [assumption|]. exact (load_entry_type_key _ _ _ Ht).
Qed.

(** C7.  For every entry loaded from a key array in good order, the
    platform is the table's platform for the second segment of the key when
    the category is Platform, [Any] for a segment the table does not list,
    and [Any] for every other category. *)
Theorem platform_inference values raw v e n k :
  LoadProjectConfigRaw (Some values) = Ok raw ->
  In (v, e) (combine values raw) ->
  key_array n k (rini.key v) ->
  key e = k /\
  platform e = platform_code (platform_rule (category e) (key e)).
Proof.
  intros Hload Hin Hkey.
  destruct (loaded_entry_good_key _ _ _ _ _ _ Hload Hin Hkey)
    as (e1 & Hn & Hk & Hc & Hp).
  destruct (load_entry_names_good_key _ _ _ _ Hn Hkey) as (Hk1 & _ & _ & Hp1).
  rewrite Hk, Hc, Hp, Hk1. split; [reflexivity | exact Hp1].
Qed.

Lemma platform_inference_witness :
  let v := rini.mk (in_array 64 "PLATFORM_FOO_BAR") "1" "" false in
  let e := mkEntry "PLATFORM_FOO_BAR" "" "" "BAR" RPC_CAT_PLATFORM RPC_PLATFORM_ANY
             RPC_TYPE_BOOL 1 false in
  LoadProjectConfigRaw (Some [v]) = Ok [e] /\
  platform e = platform_code PAny.
Proof.
  intros v e. split; [reflexivity|].
  exact (proj2 (platform_inference [v] [e] v e 64 "PLATFORM_FOO_BAR"
                  eq_refl (or_introl eq_refl) (conj eq_refl eq_refl))).
Defined.

(** The two keys of the specification's inference scenario. *)
Lemma inference_scenarios :
  LoadProjectConfigRaw
    (Some [ rini.mk (in_array 64 "PLATFORM_ANDROID_SDK_PATH") "C:/android-sdk" "" true;
            rini.mk (in_array 64 "BUILD_FLAG_ASSETS_PACKAGING") "1" "" false ])
  = Ok [ mkEntry "PLATFORM_ANDROID_SDK_PATH" "C:/android-sdk" "" "SDK_PATH"
           RPC_CAT_PLATFORM RPC_PLATFORM_ANDROID RPC_TYPE_TEXT_PATH 0 false;
         mkEntry "BUILD_FLAG_ASSETS_PACKAGING" "" "" "FLAG ASSETS PACKAGING"
           RPC_CAT_BUILD RPC_PLATFORM_ANY RPC_TYPE_BOOL 1 false ].
Proof. reflexivity. Qed.

(** An unquoted value under a key without [_FLAG] is typed Bool as well:
    the failed search returns -1, which is true as a condition. *)
Lemma unquoted_value_typed_bool :
  TextFindIndex "PLATFORM_HTML5_HEAP_MEMORY_SIZE" "_FLAG" = (-1)%Z /\
  LoadProjectConfigRaw
    (Some [ rini.mk (in_array 64 "PLATFORM_HTML5_HEAP_MEMORY_SIZE") "32" "" false ])
  = Ok [ mkEntry "PLATFORM_HTML5_HEAP_MEMORY_SIZE" "" "" "HEAP_MEMORY_SIZE"
           RPC_CAT_PLATFORM RPC_PLATFORM_HTML5 RPC_TYPE_BOOL 32 false ].
Proof. split; reflexivity. Qed.

(** *** The scan past the end of the key *)

(** A scan over cells that hold no underscore and are fewer than the
    iterations left reads past the last cell. *)
Lemma scan_without_underscore cells iters len :
  has_char "_" cells = false ->
  String.length cells < iters ->
  segment_len cells iters len = MemFault.
Proof.
  revert iters len; induction cells as [|ch rest IH]; intros iters len Hnone Hlen.
  - destruct iters; [inversion Hlen | reflexivity].
  - destruct iters as [|iters]; [inversion Hlen|].
    simpl in *. apply orb_false_iff in Hnone. destruct Hnone as (Hch & Hrest).
    rewrite Hch. apply IH; [assumption | lia].
Qed.

Lemma bind_MemFault {A B} (r : result A) (k : A -> result B) :
  (forall a, r = Ok a -> k a = MemFault) -> bind r k = MemFault.
Proof. destruct r; simpl; auto. Qed.

(** No key without an underscore can be loaded from an array of fewer than
    128 cells. *)
Lemma load_entry_without_underscore v :
  has_char "_" (rini.key v) = false ->
  String.length (rini.key v) < 128 ->
  load_entry v = MemFault.
Proof.
  intros Hnone Hlen. unfold load_entry, load_entry_names.
  apply bind_MemFault; intros e He. exfalso.
  do 3 (apply bind_Ok in He; destruct He as (? & _ & He)).
  apply bind_Ok in He. destruct He as (r & Hr & _).
  rewrite (scan_without_underscore _ _ _ Hnone Hlen) in Hr. discriminate Hr.
Qed.

(** C3 (failing inputs).  On the 64-cell key arrays holding [VERSION] (no
    underscore) and [PLATFORM_FOO] (no second underscore) the scan reads
    past the last cell of the array, and the load faults. *)
Theorem key_scan_leaves_array :
  segment_len (in_array 64 "VERSION") 128 0 = MemFault /\
  LoadProjectConfigRaw (Some [rini.mk (in_array 64 "VERSION") "1" "" false]) = MemFault /\
  segment_len (in_array 64 "PLATFORM_FOO") 128 0 = Ok 8 /\
  segment_len (skip (8 + 1) (in_array 64 "PLATFORM_FOO")) 128 0 = MemFault /\
  LoadProjectConfigRaw (Some [rini.mk (in_array 64 "PLATFORM_FOO") "1" "" false]) = MemFault.
Proof. repeat split; vm_compute; reflexivity. Qed.

(** *** Keys that do load *)

Lemma cstr_string_zeros k m :
  has_char NUL k = false -> 0 < m -> cstr (k ++ zeros m) = Ok k.
Proof.
  intros Hk Hm. induction k as [|a k IH]; simpl.
  - destruct m as [|m]; [inversion Hm | reflexivity].
  - simpl in Hk. apply orb_false_iff in Hk. destruct Hk as (Ha & Hk).
    rewrite Ha, (IH Hk). reflexivity.
Qed.

Lemma strcpy_fits cap src : String.length src < cap -> strcpy cap src = Ok src.
Proof.
  intros H. unfold strcpy.
  destruct (Nat.ltb_spec (String.length src) cap) as [_|Hge]; [reflexivity | lia].
Qed.

Lemma segment_len_segment seg tail iters len :
  has_char "_" seg = false ->
  String.length seg < iters ->
  segment_len (seg ++ String "_" tail) iters len = Ok (len + String.length seg).
Proof.
  revert iters len; induction seg as [|a seg IH]; intros iters len Hseg Hlt.
  - destruct iters; [inversion Hlt|]. simpl. now rewrite Nat.add_0_r.
  - destruct iters as [|iters]; [inversion Hlt|].
    simpl in *. apply orb_false_iff in Hseg. destruct Hseg as (Ha & Hseg).
    rewrite Ha, IH by (assumption || lia). f_equal. lia.
Qed.

Lemma length_replace_underscore s :
  String.length (replace_from "_" " " s 0) = String.length s.
Proof.
  induction s as [|a s IH]; [reflexivity|].
  cbn [replace_from prefix String.length Nat.sub].
  destruct (ascii_dec "_" a).
  - replace (prefix "" s) with true by (destruct s; reflexivity).
    cbn [String.length append]. now rewrite IH.
  - cbn [String.length]. now rewrite IH.
Qed.

Lemma strncpy_segment seg tail :
  has_char NUL seg = false -> String.length seg <= 32 ->
  strncpy (zeros 32) (seg ++ tail) (String.length seg)
  = Ok (seg ++ zeros (32 - String.length seg)).
Proof.
  intros Hseg Hle. unfold strncpy. rewrite length_zeros.
  destruct (Nat.leb_spec (String.length seg) 32) as [_|Hgt]; [|lia].
  rewrite strncpy_cells_segment by assumption. cbn [bind].
  now rewrite skip_zeros.
Qed.

Lemma memcpy_segment seg tail :
  String.length seg <= 32 ->
  memcpy (zeros 32) (seg ++ tail) (String.length seg)
  = Ok (seg ++ zeros (32 - String.length seg)).
Proof.
  intros Hle. unfold memcpy. rewrite length_zeros, string_length_app.
  destruct (Nat.leb_spec (String.length seg) 32) as [_|Hgt]; [|lia].
  destruct (Nat.leb_spec (String.length seg) (String.length seg + String.length tail))
    as [_|Hgt]; [|lia].
  cbn [andb]. now rewrite substring_app, skip_zeros.
Qed.

Lemma load_entry_type_fits v e :
  (rini.isText v = true -> String.length (rini.text v) < 256) ->
  exists e', load_entry_type v e = Ok e'.
Proof.
  intros Ht. unfold load_entry_type. destruct (rini.isText v); cbn [negb].
  - rewrite (strcpy_fits _ _ (Ht eq_refl)). cbn [bind]. eauto.
  - eauto.
Qed.

(** A key with an underscore-ended first segment of at most 32 chars (and,
    under [PLATFORM], such a second segment) is loaded, provided the
    strings fit their arrays. *)
Lemma load_entry_well_formed seg rest n t d q :
  has_char NUL (seg ++ String "_" rest) = false ->
  has_char "_" seg = false ->
  String.length seg <= 32 ->
  String.length (seg ++ String "_" rest) < 64 ->
  String.length (seg ++ String "_" rest) < n ->
  String.length d < 128 ->
  (q = true -> String.length t < 256) ->
  (seg = "PLATFORM" ->
   exists seg2 rest2,
     rest = seg2 ++ String "_" rest2 /\ has_char "_" seg2 = false /\
     String.length seg2 <= 32) ->
  exists e, load_entry (rini.mk (in_array n (seg ++ String "_" rest)) t d q) = Ok e.
Proof.
  intros Hk Hseg_ Hseg32 Hk64 Hkn Hd Ht Hplat.
  pose proof Hk as Hk'. rewrite has_char_app in Hk'. cbn [has_char] in Hk'.
  apply orb_false_iff in Hk'. destruct Hk' as (Hseg0 & Hrest0).
  apply orb_false_iff in Hrest0. destruct Hrest0 as (_ & Hrest0).
  assert (Hrest64 : String.length rest < 64).
  { rewrite string_length_app in Hk64. simpl in Hk64. lia. }
  unfold load_entry.
  enough (exists e1, load_entry_names (rini.mk (in_array n (seg ++ String "_" rest)) t d q)
                       zero_entry = Ok e1) as (e1 & He1).
  { rewrite He1. cbn [bind]. apply load_entry_type_fits. exact Ht. }
  unfold load_entry_names. cbn [rini.key rini.desc]. unfold in_array.
  set (m := n - String.length (seg ++ String "_" rest)).
  assert (Hm : 0 < m) by (unfold m; lia).
  rewrite (cstr_string_zeros _ _ Hk Hm). cbn [bind].
  rewrite (strcpy_fits _ _ Hk64). cbn [bind].
  rewrite (strcpy_fits _ _ Hd). cbn [bind].
  rewrite !append_assoc. cbn [append].
  rewrite segment_len_segment by (assumption || lia). cbn [bind Nat.add].
  rewrite (strncpy_segment _ _ Hseg0 Hseg32). cbn [bind].
  rewrite skip_app_cell.
  rewrite (cstr_string_zeros _ _ Hrest0 Hm). cbn [bind].
  rewrite strcpy_fits by (rewrite length_replace_underscore; assumption). cbn [bind].
  rewrite (cstr_prefix_app_zeros _ _ Hseg0).
  unfold TextIsEqual.
  destruct (String.eqb seg "PROJECT"); [eauto|].
  destruct (String.eqb seg "BUILD"); [eauto|].
  destruct (String.eqb_spec seg "PLATFORM") as [Heq|_].
  - destruct (Hplat Heq) as (seg2 & rest2 & -> & Hseg2_ & Hseg2_32).
    rewrite has_char_app in Hrest0. cbn [has_char] in Hrest0.
    apply orb_false_iff in Hrest0. destruct Hrest0 as (Hseg20 & Hrest20).
    apply orb_false_iff in Hrest20. destruct Hrest20 as (_ & Hrest20).
    rewrite !append_assoc. cbn [append].
    rewrite segment_len_segment by (assumption || lia). cbn [bind Nat.add].
    rewrite (memcpy_segment _ _ Hseg2_32). cbn [bind].
    replace (String.length seg + String.length seg2 + 2)
      with (String.length (seg ++ String "_" seg2) + 1)
      by (rewrite string_length_app; simpl; lia).
    replace (seg ++ String "_" (seg2 ++ String "_" (rest2 ++ zeros m)))
      with ((seg ++ String "_" seg2) ++ String "_" (rest2 ++ zeros m))
      by (rewrite append_assoc; reflexivity).
    rewrite skip_app_cell.
    rewrite (cstr_string_zeros _ _ Hrest20 Hm). cbn [bind].
    rewrite strcpy_fits; [cbn [bind]; eauto|].
    rewrite !string_length_app in Hrest64. simpl in Hrest64. lia.
  - destruct (String.eqb seg "DEPLOY"); [eauto|].
    destruct (String.eqb seg "IMAGERY"); [eauto|].
    destruct (String.eqb seg "RAYLIB"); eauto.
Qed.

(** *** The two [Sync] functions, entry by entry *)

Lemma foldM_Ok_cons {A S} (f : A -> S -> result S) a l s r :
  foldM f (a :: l) s = Ok r <-> exists s', f a s = Ok s' /\ foldM f l s' = Ok r.
Proof. simpl. apply bind_Ok. Qed.

Ltac chain_step H :=
  match type of H with
  | (if TextIsEqual ?a ?b then _ else _) = _ =>
      let E := fresh "E" in
      destruct (TextIsEqual a b) eqn:E
  end.

Lemma SyncProjectConfigRaw_entry_key src e e' :
  SyncProjectConfigRaw_entry src e = Ok e' -> key e' = key e.
Proof.
  unfold SyncProjectConfigRaw_entry. intros H.
  repeat (chain_step H;
          [ first [ discriminate H
                  | apply Ok_inj in H; subst e'; reflexivity
                  | apply bind_Ok in H; destruct H as (t & _ & H);
                    apply Ok_inj in H; subst e'; reflexivity ] | ]).
  apply Ok_inj in H; subst e'; reflexivity.
Qed.

Lemma assoc_In {A} k (a : A) l : assoc k l = Some a -> In (k, a) l.
Proof.
  induction l as [|[k' a'] l IH]; simpl; [discriminate|].
  destruct (String.eqb_spec k k') as [->|_].
  - intros [= ->]; auto.
  - auto.
Qed.

Ltac frame_table Hk :=
  unfold field_table;
  repeat (apply Forall_cons;
          [ cbn [fst snd]; intros Hne;
            first [ reflexivity | exfalso; apply Hne; exact Hk ] | ]);
  apply Forall_nil.

(** An entry leaves alone every mapped field but the one of its key. *)
Lemma SyncProjectConfig_entry_frame_all e dst dst' :
  SyncProjectConfig_entry e dst = Ok dst' ->
  Forall (fun kg => key e <> fst kg -> snd kg dst' = snd kg dst) field_table.
Proof.
  intros H. unfold SyncProjectConfig_entry, TextIsEqual in H.
  repeat (match type of H with
          | (if String.eqb ?a ?b then _ else _) = _ =>
              let E := fresh "E" in
              destruct (String.eqb a b) eqn:E;
              [ apply String.eqb_eq in E;
                first [ discriminate H
                      | apply Ok_inj in H; subst dst'; frame_table E
                      | apply bind_Ok in H;
                        let v := fresh "v" in
                        destruct H as (v & _ & H); apply Ok_inj in H; subst dst';
                        frame_table E ]
              | clear E ]
          end).
  apply Ok_inj in H; subst dst'.
  apply Forall_forall. reflexivity.
Qed.

Lemma SyncProjectConfig_entry_frame e dst dst' k get :
  SyncProjectConfig_entry e dst = Ok dst' ->
  assoc k field_table = Some get ->
  key e <> k ->
  get dst' = get dst.
Proof.
  intros H Hk Hne.
  pose proof (SyncProjectConfig_entry_frame_all _ _ _ H) as Hall.
  rewrite Forall_forall in Hall.
  exact (Hall (k, get) (assoc_In _ _ _ Hk) Hne).
Qed.

Lemma int_to_bool_to_int b : int_to_bool (bool_to_int b) = b.
Proof. destruct b; reflexivity. Qed.

Lemma int_to_char_id z : char_range z -> int_to_char z = z.
Proof.
  unfold char_range, int_to_char. intros H.
  rewrite Z.mod_small by lia. lia.
Qed.

Lemma Some_inj {A} (a b : A) : Some a = Some b -> a = b.
Proof. intros H; injection H; auto. Qed.

Ltac hit_branch H1 H2 Hk Hun Hwf E :=
  rewrite E in Hk; cbn in Hk; apply Some_inj in Hk; subst;
  first
    [ discriminate H1
    | exfalso; apply Hun; rewrite E; cbn; tauto
    | first [ apply Ok_inj in H1
            | apply bind_Ok in H1;
              let t := fresh "t" in
              let Ht := fresh "Ht" in
              destruct H1 as (t & Ht & H1);
              apply strcpy_Ok in Ht; destruct Ht as [-> _];
              apply Ok_inj in H1 ];
      subst;
      unfold SyncProjectConfig_entry, TextIsEqual in H2;
      cbn [key set_text set_value UpdateEntryValue] in H2;
      rewrite E in H2;
      cbn [String.eqb Ascii.eqb Bool.eqb] in H2;
      first [ apply Ok_inj in H2
            | apply bind_Ok in H2;
              let v := fresh "v" in
              let Hv := fresh "Hv" in
              destruct H2 as (v & Hv & H2);
              apply strcpy_Ok in Hv; destruct Hv as [-> _];
              apply Ok_inj in H2 ];
      subst; cbn;
      rewrite ?int_to_bool_to_int, ?int_to_char_id by apply Hwf;
      reflexivity ].

(** An entry synced from [src] and parsed back gives the field of its key
    the value it has in [src]. *)
Lemma sync_entry_round_trip src e e' dst dst' get :
  SyncProjectConfigRaw_entry src e = Ok e' ->
  SyncProjectConfig_entry e' dst = Ok dst' ->
  chars_in_range src ->
  assoc (key e) field_table = Some get ->
  ~ In (key e) unassigned_keys ->
  get dst' = get src.
Proof.
  intros H1 H2 Hwf Hk Hun.
  unfold SyncProjectConfigRaw_entry, TextIsEqual in H1.
  repeat (match type of H1 with
          | (if String.eqb ?a ?b then _ else _) = _ =>
              let E := fresh "E" in
              destruct (String.eqb a b) eqn:E;
              [ apply String.eqb_eq in E; hit_branch H1 H2 Hk Hun Hwf E | ]
          end).
  exfalso. unfold field_table in Hk. cbn [assoc] in Hk.
  repeat match type of Hk with
         | (if String.eqb ?a ?b then _ else _) = _ =>
             match goal with
             | E : String.eqb a b = false |- _ => rewrite E in Hk; clear E
             end
         end.
  discriminate Hk.
Qed.

Lemma sync_round_trip_from src store store' k get :
  Forall2 (fun e e' => SyncProjectConfigRaw_entry src e = Ok e') store store' ->
  chars_in_range src ->
  assoc k field_table = Some get ->
  ~ In k unassigned_keys ->
  forall dst0 dst,
    SyncProjectConfig store' dst0 = Ok dst ->
    In k (map key store) \/ get dst0 = get src ->
    get dst = get src.
Proof.
  intros Hsync Hwf Hk Hun.
  induction Hsync as [|e e' store store' He _ IH]; intros dst0 dst Hparse Hinv.
  - apply Ok_inj in Hparse. subst dst. destruct Hinv as [[]|H]; exact H.
  - apply foldM_Ok_cons in Hparse. destruct Hparse as (dst1 & Hstep & Hparse).
    apply (IH _ _ Hparse).
    destruct (string_dec (key e) k) as [Heq|Hne].
    + right. subst k. exact (sync_entry_round_trip _ _ _ _ _ _ He Hstep Hwf Hk Hun).
    + assert (Hne' : key e' <> k)
        by (rewrite (SyncProjectConfigRaw_entry_key _ _ _ He); exact Hne).
      pose proof (SyncProjectConfig_entry_frame _ _ _ _ _ Hstep Hk Hne') as Hframe.
      destruct Hinv as [[Hin|Hin]|Hget].
      * contradiction.
      * left; exact Hin.
      * right. now rewrite Hframe.
Qed.

(** X8.  Round trip, for the keys whose branch assigns: when both functions
    return, every mapped field whose key is in the store is reproduced. *)
Theorem round_trip_assigned_fields src store store' dst0 dst k get :
  SyncProjectConfigRaw src store = Ok store' ->
  SyncProjectConfig store' dst0 = Ok dst ->
  chars_in_range src ->
  assoc k field_table = Some get ->
  ~ In k unassigned_keys ->
  In k (map key store) ->
  get dst = get src.
Proof.
  intros Hsync Hparse Hwf Hk Hun Hin.
  apply mapM_Ok in Hsync.
  exact (sync_round_trip_from _ _ _ _ _ Hsync Hwf Hk Hun _ _ Hparse (or_introl Hin)).
Qed.

(** C1 (failing input).  A configuration with [useWebGL2] and
    [includeREADME] set, synced into a store that has both keys and parsed
    back into a zero-filled configuration: the entries carry the value 1,
    the parsed configuration has both flags clear. *)
Theorem round_trip_loses_flags :
  let src :=
    set_Deploy (Deploy.mk false false "" true "" false "")
      (set_Platform
         (Platform.set_HTML5 (Platform.HTML5.mk "" "" 0 false true) (Platform zero_config))
         zero_config) in
  let store :=
    [ set_key "PLATFORM_HTML5_FLAG_USE_WEBGL2" zero_entry;
      set_key "DEPLOY_FLAG_INCUDE_README" zero_entry ] in
  exists store' dst,
    SyncProjectConfigRaw src store = Ok store' /\
    SyncProjectConfig store' zero_config = Ok dst /\
    map value store' = [1%Z; 1%Z] /\
    Platform.HTML5.useWebGL2 (Platform.HTML5 (Platform src)) = true /\
    Platform.HTML5.useWebGL2 (Platform.HTML5 (Platform dst)) = false /\
    Deploy.includeREADME (Deploy src) = true /\
    Deploy.includeREADME (Deploy dst) = false.
Proof.
  intros src store.
  exists [ UpdateEntryValue (set_key "PLATFORM_HTML5_FLAG_USE_WEBGL2" zero_entry) 1;
           UpdateEntryValue (set_key "DEPLOY_FLAG_INCUDE_README" zero_entry) 1 ],
         zero_config.
  repeat split; vm_compute; reflexivity.
Qed.

(** A store with a cross-compiler-path key cannot be synced: the field is a
    single [char], which [strcpy] is handed as a string. *)
Lemma char_path_entry_faults src dst e k :
  In k char_path_keys -> key e = k ->
  SyncProjectConfigRaw_entry src e = MemFault /\
  SyncProjectConfig_entry e dst = MemFault.
Proof.
  intros Hin Hk. unfold SyncProjectConfigRaw_entry, SyncProjectConfig_entry, TextIsEqual.
  rewrite Hk. simpl in Hin.
  destruct Hin as [<-|[<-|[]]]; cbn [String.eqb Ascii.eqb Bool.eqb]; split; reflexivity.
Qed.

(** *** The two [Sync] functions return *)

Ltac fits_branch Hfit Hnc E :=
  first
    [ exfalso; apply Hnc; rewrite E; cbn; tauto
    | eexists; split;
      [ first [ reflexivity
              | rewrite strcpy_fits by (cbn [fst snd] in *; lia); reflexivity ]
      | let dst := fresh "dst" in
        intros dst;
        unfold SyncProjectConfig_entry, TextIsEqual;
        cbn [key set_text set_value UpdateEntryValue];
        rewrite E;
        cbn [String.eqb Ascii.eqb Bool.eqb];
        first [ eexists; reflexivity
              | rewrite strcpy_fits by (cbn [fst snd text set_text] in *; lia);
                eexists; reflexivity ] ] ].

Lemma sync_entry_returns src e :
  strings_fit src ->
  ~ In (key e) char_path_keys ->
  exists e',
    SyncProjectConfigRaw_entry src e = Ok e' /\
    forall dst, exists dst', SyncProjectConfig_entry e' dst = Ok dst'.
Proof.
  intros Hfit Hnc.
  unfold strings_fit, text_caps in Hfit.
  repeat match type of Hfit with
         | Forall _ (_ :: _) =>
             let H := fresh "Hcap" in
             apply Forall_cons_iff in Hfit; destruct Hfit as [H Hfit]
         end.
  clear Hfit.
  unfold SyncProjectConfigRaw_entry, TextIsEqual.
  repeat (match goal with
          | |- exists _, (if String.eqb ?a ?b then _ else _) = _ /\ _ =>
              let E := fresh "E" in
              destruct (String.eqb a b) eqn:E;
              [ apply String.eqb_eq in E; fits_branch Hfit Hnc E | ]
          end).
  exists e. split; [reflexivity|].
  intros dst. unfold SyncProjectConfig_entry, TextIsEqual.
  repeat match goal with
         | |- context [String.eqb ?a ?b] =>
             match goal with
             | E : String.eqb a b = false |- _ => rewrite E; clear E
             end
         end.
  eexists; reflexivity.
Qed.

(** X9.  Both functions return on a configuration whose strings fit their
    arrays and a store without cross-compiler-path keys. *)
Lemma sync_returns src store :
  strings_fit src ->
  (forall e, In e store -> ~ In (key e) char_path_keys) ->
  exists store',
    SyncProjectConfigRaw src store = Ok store' /\
    forall dst0, exists dst, SyncProjectConfig store' dst0 = Ok dst.
Proof.
  intros Hfit. induction store as [|e store IH]; intros Hkeys.
  - exists []. split; [reflexivity|]. intros dst0; exists dst0; reflexivity.
  - destruct (sync_entry_returns src e Hfit (Hkeys e (or_introl eq_refl)))
      as (e' & He & Hparse).
    destruct (IH (fun x Hx => Hkeys x (or_intror Hx))) as (store' & Hs & Hp).
    exists (e' :: store'). split.
    + unfold SyncProjectConfigRaw in *. simpl. rewrite He. simpl. rewrite Hs. reflexivity.
    + intros dst0. destruct (Hparse dst0) as (dst1 & H1).
      destruct (Hp dst1) as (dst & H2).
      exists dst. unfold SyncProjectConfig in *. simpl. rewrite H1. exact H2.
Qed.

(** *** Traces of [SetupProject] *)

Lemma omap_app {A B} (f : A -> option B) l1 l2 :
  omap f (l1 +++ l2) = omap f l1 +++ omap f l2.
Proof.
  induction l1 as [|a l1 IH]; simpl; [reflexivity|].
  destruct (f a); simpl; now rewrite IH.
Qed.

(** The copy into [templatePath[256]] stays inside the array. *)
Lemma templatePath_copied env :
  strcpy 256 (GetApplicationDirectory env ++ "/template")
  = Ok (GetApplicationDirectory env ++ "/template").
Proof.
  unfold strcpy. now rewrite (templatePath_fits env).
Qed.

Lemma SetupProject_unavailable env config :
  template_available env (GetApplicationDirectory env ++ "/template") = false ->
  SetupProject env config =
  (config,
   [LOG ("WARNING: Project generation template required files can not be found" ++ nl)]).
Proof.
  intros H. unfold SetupProject, SetupProject_run.
  rewrite templatePath_copied, H. reflexivity.
Qed.

(** The calls of a run on an available template: the steps up to the
    VS2022 project, and the steps after it when that one goes through. *)
Lemma SetupProject_available env config :
  template_available env (GetApplicationDirectory env ++ "/template") = true ->
  let tp := GetApplicationDirectory env ++ "/template" in
  let c := default_repoName config in
  SetupProject env config =
  (c,
   LOG ("INFO: Output path: " ++ out_dir c ++ nl) ::
   (copy_sources c tp +++ project_rpc env c tp +++ build_scripts env c tp +++
    build_makefile env c tp +++ build_vscode env c tp +++
    fst (build_vs2022 env c tp) +++
    match snd (build_vs2022 env c tp) with
    | Ok _ =>
        github_workflows env c tp +++ product_files env c tp +++ project_docs env c tp
    | MemFault => []
    end)).
Proof.
  intros H. unfold SetupProject, SetupProject_run.
  rewrite templatePath_copied, H. reflexivity.
Qed.

Lemma SetupProject_end_available env config :
  template_available env (GetApplicationDirectory env ++ "/template") = true ->
  SetupProject_end env config
  = snd (build_vs2022 env (default_repoName config)
           (GetApplicationDirectory env ++ "/template")).
Proof.
  intros H. unfold SetupProject_end, SetupProject_run.
  rewrite templatePath_copied, H. reflexivity.
Qed.

(** C4.  When the template directory, its [src] or [projects]
    subdirectory, or the seed file [project_name.rpc] is missing,
    [SetupProject] logs the warning and returns: the configuration is as it
    was, and no directory is made and no file written. *)
Theorem missing_template_aborts env config :
  let tp := GetApplicationDirectory env ++ "/template" in
  DirectoryExists env tp = false \/
  DirectoryExists env (tp ++ "/src") = false \/
  DirectoryExists env (tp ++ "/projects") = false \/
  FileExists env (tp ++ "/project_name.rpc") = false ->
  fst (SetupProject env config) = config /\
  snd (SetupProject env config) =
    [LOG ("WARNING: Project generation template required files can not be found" ++ nl)] /\
  files_written (snd (SetupProject env config)) = [] /\
  directories_made (snd (SetupProject env config)) = [].
Proof.
  intros tp H.
  assert (Hav : template_available env tp = false).
  { unfold template_available.
    destruct H as [H|[H|[H|H]]]; rewrite H;
      rewrite ?andb_false_r, ?andb_false_l; reflexivity. }
  rewrite (SetupProject_unavailable _ _ Hav). repeat split.
Qed.

Lemma missing_template_aborts_witness :
  files_written
    (snd (SetupProject Samples.template_without_projects
            (Samples.project "cool_project" 0 [false; true; false; true] []))) = [].
Proof.
  refine (proj1 (proj2 (proj2
    (missing_template_aborts Samples.template_without_projects
       (Samples.project "cool_project" 0 [false; true; false; true] []) _)))).
  right; right; left. reflexivity.
Defined.

(** *** Paths *)

Lemma append_inv_head (s t u : string) : s ++ t = s ++ u -> t = u.
Proof.
  induction s as [|a s IH]; simpl; [auto|].
  intros H. injection H as H. auto.
Qed.



(** *** The configuration [SetupProject] works on *)

Lemma default_repoName_fields config :
  let c := default_repoName config in
  Project.internalName (Project c) = Project.internalName (Project config) /\
  Project.generationOutPath (Project c) = Project.generationOutPath (Project config) /\
  Project.selectedTemplate (Project c) = Project.selectedTemplate (Project config) /\
  source_paths c = source_paths config /\
  (forall i, requested c i = requested config i) /\
  Platform c = Platform config /\ raylib c = raylib config /\
  Project.repoName (Project c) =
    (if String.eqb (Project.repoName (Project config)) ""
     then Project.internalName (Project config)
     else Project.repoName (Project config)).
Proof.
  unfold default_repoName.
  destruct (String.eqb (Project.repoName (Project config)) ""); repeat split.
Qed.

(** *** Directories made and files written, step by step *)

Lemma copied_sources_no_directory (f : string -> string) (g : string -> string) l :
  omap made_directory
    (flat_map (fun p => [FileCopy p (f p); LOG (g p)]) l) = [].
Proof. induction l as [|p l IH]; simpl; auto. Qed.

Lemma copied_sources_files (f : string -> string) (g : string -> string) l :
  omap written_file
    (flat_map (fun p => [FileCopy p (f p); LOG (g p)]) l) = map f l.
Proof. induction l as [|p l IH]; simpl; [reflexivity | now rewrite IH]. Qed.

Section StepTraces.
Variable env : Env.
Variable c : rpcProjectConfig.
Variable tp : string.

Let name := Project.internalName (Project c).

Lemma copy_sources_directories :
  directories_made (copy_sources c tp) = [out_dir c ++ "/src/external"].
Proof.
  unfold copy_sources, directories_made. cbn [omap made_directory].
  destruct (_ =? 0)%Z; [reflexivity|].
  destruct (_ =? 1)%Z; [reflexivity|].
  destruct (_ =? 2)%Z; [|reflexivity].
  now rewrite copied_sources_no_directory.
Qed.

Lemma copy_sources_files :
  files_written (copy_sources c tp) =
    if (Project.selectedTemplate (Project c) =? 0)%Z then
      [out_dir c ++ "/src/" ++ name ++ ".c"]
    else if (Project.selectedTemplate (Project c) =? 1)%Z then
      [out_dir c ++ "/src/" ++ name ++ ".c";
       out_dir c ++ "/src/screens.h";
       out_dir c ++ "/src/screen_logo.c";
       out_dir c ++ "/src/screen_title.c";
       out_dir c ++ "/src/screen_options.c";
       out_dir c ++ "/src/screen_gameplay.c";
       out_dir c ++ "/src/screen_ending.c"]
    else if (Project.selectedTemplate (Project c) =? 2)%Z then
      map (fun p => out_dir c ++ "/src/" ++ GetFileName p) (source_paths c)
    else [].
Proof.
  unfold copy_sources, files_written. cbn [omap written_file].
  destruct (_ =? 0)%Z; [reflexivity|].
  destruct (_ =? 1)%Z; [reflexivity|].
  destruct (_ =? 2)%Z; [|reflexivity].
  now rewrite copied_sources_files.
Qed.

Lemma project_rpc_trace :
  directories_made (project_rpc env c tp) = [] /\
  files_written (project_rpc env c tp) =
    [Project.generationOutPath (Project c) ++ "/" ++ name ++ ".rpc"].
Proof. split; reflexivity. Qed.

Lemma build_scripts_trace :
  directories_made (build_scripts env c tp) =
    (if requested c 0
     then [Project.generationOutPath (Project c) ++ "/" ++ name ++ "/projects/scripts"]
     else []) /\
  files_written (build_scripts env c tp) =
    (if requested c 0 then [out_dir c ++ "/projects/scripts/build.bat"] else []).
Proof. unfold build_scripts. destruct (requested c 0); split; reflexivity. Qed.

Lemma build_makefile_trace :
  directories_made (build_makefile env c tp) = [] /\
  files_written (build_makefile env c tp) =
    (if requested c 1 then [out_dir c ++ "/src/Makefile"] else []).
Proof. unfold build_makefile. destruct (requested c 1); split; reflexivity. Qed.

Lemma build_vscode_trace :
  directories_made (build_vscode env c tp) =
    (if requested c 2 then [out_dir c ++ "/projects/VSCode/.vscode"] else []) /\
  files_written (build_vscode env c tp) =
    (if requested c 2
     then [out_dir c ++ "/projects/VSCode/.vscode/launch.json";
           out_dir c ++ "/projects/VSCode/.vscode/c_cpp_properties.json";
           out_dir c ++ "/projects/VSCode/.vscode/tasks.json";
           out_dir c ++ "/projects/VSCode/.vscode/settings.json";
           out_dir c ++ "/projects/VSCode/main.code-workspace";
           out_dir c ++ "/projects/VSCode/README.md"]
     else []).
Proof. unfold build_vscode. destruct (requested c 2); split; reflexivity. Qed.

Lemma build_vs2022_trace :
  directories_made (fst (build_vs2022 env c tp)) =
    (if requested c 3
     then [out_dir c ++ "/projects/VS2022/raylib";
           out_dir c ++ "/projects/VS2022/" ++ name]
     else []) /\
  files_written (fst (build_vs2022 env c tp)) =
    (if requested c 3
     then (out_dir c ++ "/projects/VS2022/raylib/raylib.vcxproj") ::
          match snd (build_vs2022 env c tp) with
          | Ok _ =>
              [out_dir c ++ "/projects/VS2022/" ++ name ++ "/" ++ name ++ ".vcxproj";
               out_dir c ++ "/projects/VS2022/" ++ name ++ ".sln"]
          | MemFault => []
          end
     else []).
Proof.
  unfold build_vs2022. destruct (requested c 3); [|split; reflexivity].
  cbv zeta.
  match goal with
  | |- context [match ?u with Ok _ => _ | MemFault => _ end] => destruct u
  end; split; reflexivity.
Qed.

(** The VS2022 step goes through unless it is requested for custom sources
    whose items do not fit [srcFilesBlock]. *)
Lemma build_vs2022_end :
  snd (build_vs2022 env c tp) =
    if requested c 3 && (Project.selectedTemplate (Project c) =? 2)%Z
    then _ <- srcFilesBlock (srcFileNames c) ;; Ok tt
    else Ok tt.
Proof.
  unfold build_vs2022. destruct (requested c 3); [|reflexivity].
  cbv zeta. cbn [andb].
  destruct (_ =? 0)%Z eqn:E0.
  { apply Z.eqb_eq in E0. rewrite E0. reflexivity. }
  destruct (_ =? 1)%Z eqn:E1.
  { apply Z.eqb_eq in E1. rewrite E1. reflexivity. }
  destruct (_ =? 2)%Z; [|reflexivity].
  destruct (srcFilesBlock (srcFileNames c)); reflexivity.
Qed.

Lemma github_workflows_trace :
  directories_made (github_workflows env c tp) = [out_dir c ++ "/.github/workflows"] /\
  files_written (github_workflows env c tp) =
    [out_dir c ++ "/.github/workflows/windows.yml";
     out_dir c ++ "/.github/workflows/linux.yml";
     out_dir c ++ "/.github/workflows/macos.yml";
     out_dir c ++ "/.github/workflows/webassembly.yml"].
Proof. split; reflexivity. Qed.

Lemma product_files_trace :
  directories_made (product_files env c tp) = [] /\
  files_written (product_files env c tp) =
    [out_dir c ++ "/src/" ++ name ++ ".rc";
     out_dir c ++ "/src/" ++ name ++ ".ico";
     out_dir c ++ "/src/" ++ name ++ ".icns";
     out_dir c ++ "/src/Info.plist";
     out_dir c ++ "/src/minshell.html"].
Proof. split; reflexivity. Qed.

Lemma project_docs_trace :
  directories_made (project_docs env c tp) = [] /\
  files_written (project_docs env c tp) =
    [out_dir c ++ "/README.md";
     out_dir c ++ "/LICENSE";
     out_dir c ++ "/CONVENTIONS.md";
     out_dir c ++ "/.gitignore"].
Proof. split; reflexivity. Qed.

End StepTraces.

Ltac step_traces :=
  rewrite ?copy_sources_directories, ?copy_sources_files,
    ?(proj1 (project_rpc_trace _ _ _)), ?(proj2 (project_rpc_trace _ _ _)),
    ?(proj1 (build_scripts_trace _ _ _)), ?(proj2 (build_scripts_trace _ _ _)),
    ?(proj1 (build_makefile_trace _ _ _)), ?(proj2 (build_makefile_trace _ _ _)),
    ?(proj1 (build_vscode_trace _ _ _)), ?(proj2 (build_vscode_trace _ _ _)),
    ?(proj1 (build_vs2022_trace _ _ _)), ?(proj2 (build_vs2022_trace _ _ _)),
    ?(proj1 (github_workflows_trace _ _ _)), ?(proj2 (github_workflows_trace _ _ _)),
    ?(proj1 (product_files_trace _ _ _)), ?(proj2 (product_files_trace _ _ _)),
    ?(proj1 (project_docs_trace _ _ _)), ?(proj2 (project_docs_trace _ _ _)).

(** The directories a generation makes. *)
Lemma directories_made_SetupProject env config :
  template_available env (GetApplicationDirectory env ++ "/template") = true ->
  let c := fst (SetupProject env config) in
  directories_made (snd (SetupProject env config)) =
    [out_dir c ++ "/src/external"] +++
    (if requested c 0
     then [Project.generationOutPath (Project c) ++ "/" ++
           Project.internalName (Project c) ++ "/projects/scripts"]
     else []) +++
    (if requested c 2 then [out_dir c ++ "/projects/VSCode/.vscode"] else []) +++
    (if requested c 3
     then [out_dir c ++ "/projects/VS2022/raylib";
           out_dir c ++ "/projects/VS2022/" ++ Project.internalName (Project c)]
     else []) +++
    match SetupProject_end env config with
    | Ok _ => [out_dir c ++ "/.github/workflows"]
    | MemFault => []
    end.
Proof.
  intros Hav. rewrite (SetupProject_end_available _ _ Hav).
  rewrite (SetupProject_available _ _ Hav). cbn [fst snd].
  unfold directories_made at 1. cbn [omap made_directory]. rewrite !omap_app.
  fold (directories_made (copy_sources (default_repoName config)
                            (GetApplicationDirectory env ++ "/template"))).
  destruct (snd (build_vs2022 _ _ _)); rewrite ?omap_app;
    repeat match goal with
           | |- context [omap made_directory ?t] => fold (directories_made t)
           end;
    step_traces; cbn [List.app omap]; rewrite ?app_nil_r; reflexivity.
Qed.

(** The files a generation writes, in the order it writes them. *)
Lemma files_written_SetupProject env config :
  template_available env (GetApplicationDirectory env ++ "/template") = true ->
  let c := fst (SetupProject env config) in
  let tp := GetApplicationDirectory env ++ "/template" in
  files_written (snd (SetupProject env config)) =
    files_written (copy_sources c tp) +++
    [Project.generationOutPath (Project c) ++ "/" ++
     Project.internalName (Project c) ++ ".rpc"] +++
    files_written (build_scripts env c tp) +++
    files_written (build_makefile env c tp) +++
    files_written (build_vscode env c tp) +++
    files_written (fst (build_vs2022 env c tp)) +++
    match SetupProject_end env config with
    | Ok _ =>
        files_written (github_workflows env c tp) +++
        files_written (product_files env c tp) +++
        files_written (project_docs env c tp)
    | MemFault => []
    end.
Proof.
  intros Hav. rewrite (SetupProject_end_available _ _ Hav).
  rewrite (SetupProject_available _ _ Hav). cbn [fst snd].
  unfold files_written at 1. cbn [omap written_file]. rewrite !omap_app.
  destruct (snd (build_vs2022 _ _ _)); rewrite ?omap_app; reflexivity.
Qed.

(** Whether or not the run goes through the VS2022 step, it writes no
    file and makes no directory but those of a run that does. *)
Lemma files_written_among env config p :
  template_available env (GetApplicationDirectory env ++ "/template") = true ->
  let c := fst (SetupProject env config) in
  let tp := GetApplicationDirectory env ++ "/template" in
  In p (files_written (snd (SetupProject env config))) ->
  In p (files_written (copy_sources c tp) +++
        [Project.generationOutPath (Project c) ++ "/" ++
         Project.internalName (Project c) ++ ".rpc"] +++
        files_written (build_scripts env c tp) +++
        files_written (build_makefile env c tp) +++
        files_written (build_vscode env c tp) +++
        (if requested c 3
         then [out_dir c ++ "/projects/VS2022/raylib/raylib.vcxproj";
               out_dir c ++ "/projects/VS2022/" ++ Project.internalName (Project c)
                 ++ "/" ++ Project.internalName (Project c) ++ ".vcxproj";
               out_dir c ++ "/projects/VS2022/" ++ Project.internalName (Project c)
                 ++ ".sln"]
         else []) +++
        files_written (github_workflows env c tp) +++
        files_written (product_files env c tp) +++
        files_written (project_docs env c tp)).
Proof.
  intros Hav c tp. rewrite (files_written_SetupProject _ _ Hav). fold c tp.
  rewrite (proj2 (build_vs2022_trace _ _ _)).
  rewrite !in_app_iff.
  intros [H|[H|[H|[H|[H|[H|H]]]]]]; auto 10.
  - do 5 right. left.
    destruct (requested c 3); [|exact H].
    destruct (snd (build_vs2022 env c tp)); cbn [In] in *; tauto.
  - destruct (SetupProject_end env config); [|contradiction H].
    rewrite !in_app_iff in H. tauto.
Qed.

Lemma directories_made_among env config p :
  template_available env (GetApplicationDirectory env ++ "/template") = true ->
  let c := fst (SetupProject env config) in
  In p (directories_made (snd (SetupProject env config))) ->
  In p ([out_dir c ++ "/src/external"] +++
        (if requested c 0
         then [Project.generationOutPath (Project c) ++ "/" ++
               Project.internalName (Project c) ++ "/projects/scripts"]
         else []) +++
        (if requested c 2 then [out_dir c ++ "/projects/VSCode/.vscode"] else []) +++
        (if requested c 3
         then [out_dir c ++ "/projects/VS2022/raylib";
               out_dir c ++ "/projects/VS2022/" ++ Project.internalName (Project c)]
         else []) +++
        [out_dir c ++ "/.github/workflows"]).
Proof.
  intros Hav c. rewrite (directories_made_SetupProject _ _ Hav). fold c.
  rewrite !in_app_iff.
  intros [H|[H|[H|[H|H]]]]; auto 10.
  destruct (SetupProject_end env config); [|contradiction H].
  auto 10.
Qed.

Lemma SetupProject_config env config :
  template_available env (GetApplicationDirectory env ++ "/template") = true ->
  fst (SetupProject env config) = default_repoName config.
Proof. intros Hav. now rewrite (SetupProject_available _ _ Hav). Qed.




(** *** Output layout *)






(** *** [TextReplace] replaces every occurrence, leftmost first *)

Lemma prefix_append s t : prefix s (s ++ t) = true.
Proof.
  induction s as [|a s IH]; simpl.
  - destruct t; reflexivity.
  - destruct (ascii_dec a a) as [_|Hne]; [exact IH | contradiction].
Qed.

Lemma replace_from_skip search r x b :
  replace_from search r (x ++ b) (String.length x) = replace_from search r b 0.
Proof.
  induction x as [|c x IH]; simpl; [|exact IH].
  destruct b; reflexivity.
Qed.

Lemma replace_from_match search r b :
  search <> "" ->
  replace_from search r (search ++ b) 0 = r ++ replace_from search r b 0.
Proof.
  destruct search as [|c s]; [contradiction|]. intros _.
  change (String c s ++ b) with (String c (s ++ b)).
  cbn [replace_from].
  change (String c (s ++ b)) with (String c s ++ b).
  rewrite prefix_append.
  cbn [String.length]. rewrite Nat.sub_succ, Nat.sub_0_r.
  now rewrite replace_from_skip.
Qed.

(** A text without occurrence is left as it is. *)
Lemma replace_from_absent search r t :
  index 0 search t = None -> replace_from search r t 0 = t.
Proof.
  induction t as [|c t IH]; [reflexivity|].
  cbn [index replace_from].
  destruct (prefix search (String c t)); [discriminate|].
  destruct (index 0 search t); [discriminate|].
  intros _. now rewrite IH.
Qed.

(** The first occurrence is replaced, and the replacement goes on after
    it. *)
Lemma replace_from_first search r a b :
  search <> "" ->
  index 0 search (a ++ search ++ b) = Some (String.length a) ->
  replace_from search r (a ++ search ++ b) 0 = a ++ r ++ replace_from search r b 0.
Proof.
  intros Hne. induction a as [|c a IH]; intros Hidx.
  - cbn [append]. now apply replace_from_match.
  - change (String c a ++ search ++ b) with (String c (a ++ search ++ b)) in *.
    cbn [index replace_from String.length] in *.
    destruct (prefix search (String c (a ++ search ++ b))); [discriminate|].
    destruct (index 0 search (a ++ search ++ b)) as [n|]; [|discriminate].
    injection Hidx as ->. now rewrite IH.
Qed.

(** *** The Makefile chain *)



(** C5 (failing input).  Template 2 with the sources [a.c] and [b.c]: the
    first buffer of the Makefile chain holds the file names joined by
    spaces, and the Makefile saved holds [cool_project.c] in their place. *)
Theorem custom_sources_missing_from_makefile :
  let config := Samples.project "cool_project" 2 [false; true; false; true] ["a.c"; "b.c"] in
  let t := snd (SetupProject Samples.full_template config) in
  let fileText := LoadFileText Samples.full_template "/opt/rpc/template/src/Makefile" in
  fileText = Some "PROJECT_NAME ?= project_name; SRC = project_name.c" /\
  TextJoin (srcFileNames config) " " = "a.c b.c" /\
  source_files_replaced config fileText
    = Some "PROJECT_NAME ?= project_name; SRC = a.c b.c" /\
  saved_text "out/cool_project/src/Makefile" t
    = Some (Some "PROJECT_NAME ?= cool_project; SRC = cool_project.c").
Proof. repeat split; vm_compute; reflexivity. Qed.

(** *** The basic scenario *)



(** *** More on [LoadProjectConfigRaw] *)

Lemma Forall2_In_l {A B} (P : A -> B -> Prop) l r a :
  Forall2 P l r -> In a l -> exists b, In (a, b) (combine l r) /\ P a b.
Proof.
  induction 1 as [|x y l r Hxy _ IH]; simpl; [tauto|].
  intros [->|Hin].
  - exists y; auto.
  - destruct (IH Hin) as (b & Hb & HP). exists b; auto.
Qed.

(** One value that cannot be loaded makes the whole load fault. *)
Lemma load_faults values v :
  In v values -> load_entry v = MemFault ->
  LoadProjectConfigRaw (Some values) = MemFault.
Proof.
  intros Hin Hv.
  destruct (LoadProjectConfigRaw (Some values)) as [raw|] eqn:E; [|reflexivity].
  apply LoadProjectConfigRaw_entries in E.
  destruct (Forall2_In_l _ _ _ _ E Hin) as (e & _ & He).
  rewrite Hv in He. discriminate He.
Qed.

Lemma mapM_length {A B} (f : A -> result B) l r :
  mapM f l = Ok r -> List.length r = List.length l.
Proof.
  intros H. apply mapM_Ok in H. symmetry. eapply Forall2_length; eassumption.
Qed.

Lemma loadable_entry v :
  loadable v ->
  exists e, load_entry v = Ok e /\ key e = cstr_prefix (rini.key v).
Proof.
  intros (seg & rest & n & Hkey & Hk & Hseg & H32 & H64 & Hn & Hd & Ht & Hp).
  destruct v as [kc t d q]. cbn [rini.key rini.desc rini.text rini.isText] in *.
  subst kc.
  destruct (load_entry_well_formed seg rest n t d q Hk Hseg H32 H64 Hn Hd Ht Hp)
    as (e & He).
  exists e. split; [assumption|].
  apply load_entry_split in He. destruct He as (e1 & He1 & He).
  destruct (load_entry_names_good_key _ _ n (seg ++ String "_" rest) He1) as (Hk1 & _).
  { split; [reflexivity | assumption]. }
  destruct (load_entry_type_key _ _ _ He) as (-> & _).
  rewrite Hk1. unfold in_array. symmetry. now apply cstr_prefix_app_zeros.
Qed.





(** X1.  A store whose values are all in good order loads: the call
    returns one entry per value, in the order of the store, each under the
    key its value holds. *)
Theorem well_formed_store_loads values :
  Forall loadable values ->
  exists raw,
    LoadProjectConfigRaw (Some values) = Ok raw /\
    entryCount raw = List.length values /\
    map key raw = map (fun v => cstr_prefix (rini.key v)) values.
Proof.
  intros Hall.
  enough (exists raw,
             Forall2 (fun v e => load_entry v = Ok e) values raw /\
             map key raw = map (fun v => cstr_prefix (rini.key v)) values)
    as (raw & HF & Hkeys).
  { exists raw. split; [now apply LoadProjectConfigRaw_entries|]. split; [|assumption].
    unfold entryCount. symmetry. eapply Forall2_length; eassumption. }
  induction Hall as [|v values Hv _ (raw & HF & Hkeys)].
  - exists []. split; constructor.
  - destruct (loadable_entry v Hv) as (e & He & Hk).
    exists (e :: raw). split; [constructor; assumption|].
    cbn [map]. now rewrite Hk, Hkeys.
Qed.

Lemma well_formed_store_loads_witness :
  exists raw,
    LoadProjectConfigRaw
      (Some [ rini.mk (in_array 64 "PROJECT_INTERNAL_NAME") "cool_project" "Project name" true;
              rini.mk (in_array 64 "PLATFORM_HTML5_HEAP_MEMORY_SIZE") "32" "" false ])
      = Ok raw /\
    entryCount raw = 2 /\
    map key raw = [ "PROJECT_INTERNAL_NAME"; "PLATFORM_HTML5_HEAP_MEMORY_SIZE" ].
Proof.
  apply (well_formed_store_loads
           [ rini.mk (in_array 64 "PROJECT_INTERNAL_NAME") "cool_project" "Project name" true;
             rini.mk (in_array 64 "PLATFORM_HTML5_HEAP_MEMORY_SIZE") "32" "" false ]).
  constructor; [|constructor; [|constructor]].
  - exists "PROJECT", "INTERNAL_NAME", 64.
    cbn [rini.key rini.desc rini.text rini.isText].
    repeat split; try reflexivity; try (vm_compute; lia);
      try (intros H; discriminate H); intros _; vm_compute; lia.
  - exists "PLATFORM", "HTML5_HEAP_MEMORY_SIZE", 64.
    cbn [rini.key rini.desc rini.text rini.isText].
    repeat split; try reflexivity; try (vm_compute; lia);
      try (intros H; discriminate H).
    intros _. exists "HTML5", "HEAP_MEMORY_SIZE".
    repeat split; try reflexivity; vm_compute; lia.
Defined.

(** X2.  A store with a key that has no underscore, held in an array of
    fewer than 128 cells, cannot be loaded: the scan for the category
    leaves the key array, whatever the other values are. *)
Theorem key_without_underscore_faults values v :
  In v values ->
  has_char "_" (rini.key v) = false ->
  String.length (rini.key v) < 128 ->
  LoadProjectConfigRaw (Some values) = MemFault.
Proof.
  intros Hin Hnone Hlen.
  apply (load_faults values v Hin).
  now apply load_entry_without_underscore.
Qed.

Lemma key_without_underscore_faults_witness :
  LoadProjectConfigRaw
    (Some [ rini.mk (in_array 64 "PROJECT_INTERNAL_NAME") "cool_project" "" true;
            rini.mk (in_array 64 "LICENSE") "zlib" "" true ]) = MemFault.
Proof.
  apply (key_without_underscore_faults
           [ rini.mk (in_array 64 "PROJECT_INTERNAL_NAME") "cool_project" "" true;
             rini.mk (in_array 64 "LICENSE") "zlib" "" true ]
           (rini.mk (in_array 64 "LICENSE") "zlib" "" true)).
  - right; left; reflexivity.
  - reflexivity.
  - vm_compute; lia.
Defined.

(** X3.  A first segment of more than 32 chars does not fit the
    [category[32]] array it is copied into: the load faults. *)
Theorem long_category_faults values v n seg rest :
  In v values ->
  key_array n (seg ++ String "_" rest) (rini.key v) ->
  has_char "_" seg = false ->
  32 < String.length seg ->
  LoadProjectConfigRaw (Some values) = MemFault.
Proof.
  intros Hin (Hcells & Hk) Hseg Hlong.
  apply (load_faults values v Hin).
  unfold load_entry. apply bind_MemFault; intros e He. exfalso.
  unfold load_entry_names in He. rewrite Hcells in He. unfold in_array in He.
  set (m := n - String.length (seg ++ String "_" rest)) in *.
  do 3 (apply bind_Ok in He; destruct He as (? & _ & He)).
  apply bind_Ok in He. destruct He as (r & Hr & He).
  apply bind_Ok in He. destruct He as (cat & Hcat & _).
  assert (Hr32 : r <= 32).
  { unfold strncpy in Hcat. rewrite length_zeros in Hcat.
    destruct (Nat.leb_spec r 32) as [Hle|_]; [assumption | discriminate]. }
  destruct (scanned_segment _ _ _ Hk Hr Hr32)
    as (seg' & rest' & Hkeq & -> & Hseg' & _).
  assert (Heq : seg' = seg).
  { rewrite <- (first_segment_app seg' rest' Hseg'), <- Hkeq.
    now apply first_segment_app. }
  subst seg'. lia.
Qed.

Lemma long_category_faults_witness :
  LoadProjectConfigRaw
    (Some [ rini.mk (in_array 64 "ABCDEFGHIJKLMNOPQRSTUVWXYZABCDEFGHIJ_NAME") "x" "" true ])
  = MemFault.
Proof.
  apply (long_category_faults
           [ rini.mk (in_array 64 "ABCDEFGHIJKLMNOPQRSTUVWXYZABCDEFGHIJ_NAME") "x" "" true ]
           (rini.mk (in_array 64 "ABCDEFGHIJKLMNOPQRSTUVWXYZABCDEFGHIJ_NAME") "x" "" true)
           64 "ABCDEFGHIJKLMNOPQRSTUVWXYZABCDEFGHIJ" "NAME").
  - left; reflexivity.
  - split; reflexivity.
  - reflexivity.
  - vm_compute; lia.
Defined.

(** X4.  A [PLATFORM] key with no second underscore, held in an array of
    fewer than 137 cells, cannot be loaded: the scan for the platform
    name leaves the key array. *)
Theorem platform_key_without_second_underscore_faults values v n rest :
  In v values ->
  key_array n ("PLATFORM_" ++ rest) (rini.key v) ->
  has_char "_" rest = false ->
  n < 137 ->
  LoadProjectConfigRaw (Some values) = MemFault.
Proof.
  intros Hin (Hcells & Hk) Hrest Hn.
  apply (load_faults values v Hin).
  unfold load_entry. apply bind_MemFault; intros e He. exfalso.
  unfold load_entry_names in He. rewrite Hcells in He. unfold in_array in He.
  set (m := n - String.length ("PLATFORM_" ++ rest)) in *.
  apply bind_Ok in He. destruct He as (k0 & Hk0 & He).
  destruct (cstr_app_zeros _ _ _ Hk Hk0) as (_ & Hm).
  do 2 (apply bind_Ok in He; destruct He as (? & _ & He)).
  apply bind_Ok in He. destruct He as (r & Hr & He).
  apply bind_Ok in He. destruct He as (cat & Hcat & He).
  assert (Hr32 : r <= 32).
  { unfold strncpy in Hcat. rewrite length_zeros in Hcat.
    destruct (Nat.leb_spec r 32) as [Hle|_]; [assumption | discriminate]. }
  destruct (scanned_segment _ _ _ Hk Hr Hr32)
    as (seg & rest' & Hkeq & -> & Hseg & Hseg0 & Hrest0 & Hskip).
  assert (Hsplit : seg = "PLATFORM" /\ rest' = rest).
  { change ("PLATFORM_" ++ rest) with ("PLATFORM" ++ String "_" rest) in Hkeq.
    pose proof (first_segment_app "PLATFORM" rest eq_refl) as H1.
    pose proof (after_underscore_app "PLATFORM" rest eq_refl) as H2.
    rewrite Hkeq in H1, H2.
    rewrite (first_segment_app seg rest' Hseg) in H1.
    rewrite (after_underscore_app seg rest' Hseg) in H2.
    split; congruence. }
  destruct Hsplit as (-> & ->).
  assert (Hcat' : cstr_prefix cat = "PLATFORM").
  { rewrite Hkeq, append_assoc in Hcat.
    exact (proj2 (category_array _ _ _ Hseg0 Hcat)). }
  rewrite Hcat', Hskip in He.
  do 2 (apply bind_Ok in He; destruct He as (? & _ & He)).
  unfold TextIsEqual in He. cbn [String.eqb Ascii.eqb Bool.eqb andb] in He.
  apply bind_Ok in He. destruct He as (r2 & Hr2 & _).
  rewrite scan_without_underscore in Hr2; [discriminate Hr2| |].
  - rewrite has_char_app, Hrest. apply has_char_zeros. exact underscore_not_NUL.
  - rewrite string_length_app, length_zeros. unfold m in *.
    cbn [append String.length] in *. lia.
Qed.

Lemma platform_key_without_second_underscore_faults_witness :
  LoadProjectConfigRaw
    (Some [ rini.mk (in_array 64 "PLATFORM_WINDOWS") "1" "" false ]) = MemFault.
Proof.
  apply (platform_key_without_second_underscore_faults
           [ rini.mk (in_array 64 "PLATFORM_WINDOWS") "1" "" false ]
           (rini.mk (in_array 64 "PLATFORM_WINDOWS") "1" "" false) 64 "WINDOWS").
  - left; reflexivity.
  - split; reflexivity.
  - reflexivity.
  - lia.
Defined.

(** X5.  The category of a loaded entry is the one the table gives the
    first segment of its key, and [PROJECT] for any other segment. *)
Theorem category_by_first_segment values raw v e n k :
  LoadProjectConfigRaw (Some values) = Ok raw ->
  In (v, e) (combine values raw) ->
  key_array n k (rini.key v) ->
  category e = category_rule k.
Proof.
  intros Hload Hin Hkey.
  destruct (loaded_entry_good_key _ _ _ _ _ _ Hload Hin Hkey)
    as (e1 & He1 & _ & -> & _).
  destruct (load_entry_names_good_key _ _ _ _ He1 Hkey) as (_ & _ & -> & _).
  unfold category_rule, category_table. cbn [assoc].
  repeat match goal with
         | |- context [String.eqb ?a ?b] => destruct (String.eqb a b); [reflexivity|]
         end.
  reflexivity.
Qed.

Lemma category_by_first_segment_witness :
  let v := rini.mk (in_array 64 "IMAGERY_LOGO_FILE") "logo.png" "" true in
  let e := mkEntry "IMAGERY_LOGO_FILE" "logo.png" "" "LOGO FILE"
             RPC_CAT_IMAGERY RPC_PLATFORM_ANY RPC_TYPE_TEXT_FILE 0 false in
  category e = category_rule "IMAGERY_LOGO_FILE".
Proof.
  intros v e.
  apply (category_by_first_segment [v] [e] v e 64 "IMAGERY_LOGO_FILE").
  - reflexivity.
  - left; reflexivity.
  - split; reflexivity.
Defined.

Lemma replace_underscores s :
  replace_from "_" " " s 0 = underscores_to_spaces s.
Proof.
  induction s as [|ch s IH]; [reflexivity|].
  cbn [replace_from prefix underscores_to_spaces String.length Nat.sub].
  destruct (ascii_dec "_" ch) as [<-|Hne].
  - replace (prefix "" s) with true by (destruct s; reflexivity).
    cbn [Ascii.eqb Bool.eqb append]. now rewrite IH.
  - replace (Ascii.eqb ch "_") with false
      by (symmetry; apply Ascii.eqb_neq; congruence).
    now rewrite IH.
Qed.

Lemma skip_skip a b s : skip (a + b) s = skip b (skip a s).
Proof.
  revert s; induction a as [|a IH]; intros s; [reflexivity|].
  destruct s as [|ch s]; cbn [skip Nat.add].
  - destruct b; reflexivity.
  - apply IH.
Qed.

(** The name the first loop leaves for a key array in good order. *)
Lemma load_entry_names_name v e n k :
  load_entry_names v zero_entry = Ok e ->
  key_array n k (rini.key v) ->
  name_rule k = Some (name e) /\
  desc e = rini.desc v /\ text e = "" /\ value e = 0%Z /\ type e = 0%Z /\
  editMode e = false.
Proof.
  intros H (Hcells & Hk). unfold load_entry_names in H.
  rewrite Hcells in H. unfold in_array in H.
  set (m := n - String.length k) in *.
  apply bind_Ok in H. destruct H as (k0 & Hk0 & H).
  destruct (cstr_app_zeros _ _ _ Hk Hk0) as (-> & Hm).
  apply bind_Ok in H. destruct H as (k1 & Hk1 & H).
  apply strcpy_Ok in Hk1. destruct Hk1 as (-> & Hlen).
  apply bind_Ok in H. destruct H as (d & Hd & H).
  apply strcpy_Ok in Hd. destruct Hd as (-> & _).
  apply bind_Ok in H. destruct H as (r & Hr & H).
  apply bind_Ok in H. destruct H as (cat & Hcat & H).
  assert (Hr32 : r <= 32).
  { unfold strncpy in Hcat. rewrite length_zeros in Hcat.
    destruct (Nat.leb_spec r 32) as [Hle|_]; [assumption | discriminate]. }
  destruct (scanned_segment _ _ _ Hk Hr Hr32)
    as (seg & rest_k & Hkeq & -> & Hseg_ & Hseg0 & Hrest0 & Hskip).
  rewrite Hskip in H.
  assert (Hcat' : cstr_prefix cat = seg).
  { rewrite Hkeq, append_assoc in Hcat.
    exact (proj2 (category_array _ _ _ Hseg0 Hcat)). }
  rewrite Hcat' in H.
  assert (Hfirst : first_segment k = seg)
    by (rewrite Hkeq; now apply first_segment_app).
  assert (Hafter : after_underscore k = Some rest_k)
    by (rewrite Hkeq; now apply after_underscore_app).
  unfold name_rule. rewrite Hafter, Hfirst.
  apply bind_Ok in H. destruct H as (n0 & Hn0 & H).
  destruct (cstr_app_zeros _ _ _ Hrest0 Hn0) as (-> & _).
  apply bind_Ok in H. destruct H as (n1 & Hn1 & H).
  apply strcpy_Ok in Hn1. destruct Hn1 as (-> & _).
  rewrite replace_underscores in H.
  unfold TextIsEqual in H.
  destruct (String.eqb seg "PROJECT") eqn:E1.
  { apply String.eqb_eq in E1. subst seg. apply Ok_inj in H. subst e.
    cbn. auto 6. }
  destruct (String.eqb seg "BUILD") eqn:E2.
  { apply String.eqb_eq in E2. subst seg. apply Ok_inj in H. subst e.
    cbn. auto 6. }
  destruct (String.eqb seg "PLATFORM") eqn:E3.
  - apply bind_Ok in H. destruct H as (r2 & Hr2 & H).
    apply bind_Ok in H. destruct H as (p & Hp & H).
    assert (Hr2' : r2 <= 32).
    { unfold memcpy in Hp. rewrite length_zeros in Hp.
      destruct (Nat.leb_spec r2 32) as [Hle|_]; [assumption | discriminate]. }
    destruct (scanned_segment _ _ _ Hrest0 Hr2 Hr2')
      as (seg2 & rest2 & Hrest_eq & -> & Hseg2_ & Hseg20 & Hrest20 & Hskip2).
    apply bind_Ok in H. destruct H as (n2 & Hn2 & H).
    replace (String.length seg + String.length seg2 + 2)
      with ((String.length seg + 1) + (String.length seg2 + 1)) in Hn2 by lia.
    rewrite skip_skip, Hskip, Hskip2 in Hn2.
    destruct (cstr_app_zeros _ _ _ Hrest20 Hn2) as (-> & _).
    apply bind_Ok in H. destruct H as (n3 & Hn3 & H).
    apply strcpy_Ok in Hn3. destruct Hn3 as (-> & _).
    apply Ok_inj in H. subst e. cbn.
    rewrite Hrest_eq, after_underscore_app by assumption. auto 6.
  - destruct (String.eqb seg "DEPLOY");
      [apply Ok_inj in H; subst e; cbn; auto 6|].
    destruct (String.eqb seg "IMAGERY");
      [apply Ok_inj in H; subst e; cbn; auto 6|].
    destruct (String.eqb seg "RAYLIB");
      apply Ok_inj in H; subst e; cbn; auto 6.
Qed.

Lemma load_entry_type_name v e1 e :
  load_entry_type v e1 = Ok e ->
  name e = name e1 /\ desc e = desc e1 /\ editMode e = editMode e1.
Proof.
  unfold load_entry_type. intros H.
  destruct (rini.isText v); cbn [negb] in H.
  - apply bind_Ok in H. destruct H as (t & _ & H). apply Ok_inj in H. subst e.
    repeat match goal with
           | |- context [if ?b then _ else _] => destruct b
           end; cbn; auto.
  - apply Ok_inj in H. subst e.
    destruct (c_true _); cbn; auto.
Qed.

(** X6.  The display name of a loaded entry is what follows the first
    underscore of its key, with a space for each underscore; for a
    [PLATFORM] key it is what follows the second underscore, underscores
    kept. *)
Theorem name_from_key values raw v e n k :
  LoadProjectConfigRaw (Some values) = Ok raw ->
  In (v, e) (combine values raw) ->
  key_array n k (rini.key v) ->
  name_rule k = Some (name e).
Proof.
  intros Hload Hin Hkey.
  pose proof (loaded_entry _ _ _ _ Hload Hin) as He.
  apply load_entry_split in He. destruct He as (e1 & He1 & He).
  destruct (load_entry_type_name _ _ _ He) as (-> & _).
  exact (proj1 (load_entry_names_name _ _ _ _ He1 Hkey)).
Qed.

Lemma name_from_key_witness :
  let v1 := rini.mk (in_array 64 "BUILD_FLAG_ASSETS_PACKAGING") "1" "" false in
  let v2 := rini.mk (in_array 64 "PLATFORM_ANDROID_SDK_PATH") "C:/android-sdk" "" true in
  let e1 := mkEntry "BUILD_FLAG_ASSETS_PACKAGING" "" "" "FLAG ASSETS PACKAGING"
              RPC_CAT_BUILD RPC_PLATFORM_ANY RPC_TYPE_BOOL 1 false in
  let e2 := mkEntry "PLATFORM_ANDROID_SDK_PATH" "C:/android-sdk" "" "SDK_PATH"
              RPC_CAT_PLATFORM RPC_PLATFORM_ANDROID RPC_TYPE_TEXT_PATH 0 false in
  name_rule "BUILD_FLAG_ASSETS_PACKAGING" = Some (name e1) /\
  name_rule "PLATFORM_ANDROID_SDK_PATH" = Some (name e2).
Proof.
  intros v1 v2 e1 e2. split.
  - apply (name_from_key [v1; v2] [e1; e2] v1 e1 64 "BUILD_FLAG_ASSETS_PACKAGING").
    + reflexivity.
    + left; reflexivity.
    + split; reflexivity.
  - apply (name_from_key [v1; v2] [e1; e2] v2 e2 64 "PLATFORM_ANDROID_SDK_PATH").
    + reflexivity.
    + right; left; reflexivity.
    + split; reflexivity.
Defined.

Lemma load_entry_names_store v e :
  load_entry_names v zero_entry = Ok e ->
  cstr (rini.key v) = Ok (key e) /\ desc e = rini.desc v /\
  text e = "" /\ value e = 0%Z /\ editMode e = false.
Proof.
  unfold load_entry_names. intros H.
  apply bind_Ok in H. destruct H as (k0 & Hk0 & H).
  apply bind_Ok in H. destruct H as (k1 & Hk1 & H).
  apply strcpy_Ok in Hk1. destruct Hk1 as (-> & _).
  apply bind_Ok in H. destruct H as (d & Hd & H).
  apply strcpy_Ok in Hd. destruct Hd as (-> & _).
  do 4 (apply bind_Ok in H; destruct H as (? & _ & H)).
  unfold TextIsEqual in H.
  repeat match type of H with
         | (if ?b then _ else _) = _ => destruct b
         end;
    try (do 4 (apply bind_Ok in H; destruct H as (? & _ & H)));
    apply Ok_inj in H; subst e; cbn; auto.
Qed.

(** X7.  What a loaded entry keeps of its store value: the key and the
    description as they are; of a quoted value the text, with a zero
    value; of an unquoted value the integer it reads as, with an empty
    text. *)
Theorem loaded_text_and_value values raw v e :
  LoadProjectConfigRaw (Some values) = Ok raw ->
  In (v, e) (combine values raw) ->
  cstr (rini.key v) = Ok (key e) /\
  desc e = rini.desc v /\
  (rini.isText v = true -> text e = rini.text v /\ value e = 0%Z) /\
  (rini.isText v = false -> text e = "" /\ value e = TextToInteger (rini.text v)).
Proof.
  intros Hload Hin.
  pose proof (loaded_entry _ _ _ _ Hload Hin) as He.
  apply load_entry_split in He. destruct He as (e1 & He1 & He).
  destruct (load_entry_names_store _ _ He1) as (Hk & Hd & Ht & Hv & _).
  destruct (load_entry_type_key _ _ _ He) as (Hkey & _).
  destruct (load_entry_type_name _ _ _ He) as (_ & Hdesc & _).
  rewrite Hkey, Hdesc. split; [assumption|]. split; [assumption|].
  unfold load_entry_type in He.
  split; intros Hq; rewrite Hq in He; cbn [negb] in He.
  - apply bind_Ok in He. destruct He as (t & Ht' & He).
    apply strcpy_Ok in Ht'. destruct Ht' as (-> & _).
    apply Ok_inj in He. subst e.
    repeat match goal with
           | |- context [if ?b then _ else _] => destruct b
           end; cbn; auto.
  - apply Ok_inj in He. subst e.
    destruct (c_true _); cbn; auto.
Qed.

Lemma loaded_text_and_value_witness :
  let v := rini.mk (in_array 64 "PLATFORM_HTML5_HEAP_MEMORY_SIZE") "32" "Heap" false in
  let e := mkEntry "PLATFORM_HTML5_HEAP_MEMORY_SIZE" "" "Heap" "HEAP_MEMORY_SIZE"
             RPC_CAT_PLATFORM RPC_PLATFORM_HTML5 RPC_TYPE_BOOL 32 false in
  desc e = "Heap" /\ (false = false -> text e = "" /\ value e = TextToInteger "32").
Proof.
  intros v e.
  destruct (loaded_text_and_value [v] [e] v e) as (_ & Hd & _ & Hu).
  - reflexivity.
  - left; reflexivity.
  - split; [exact Hd | exact Hu].
Defined.

(** *** More on the two [Sync] functions *)

Lemma round_trip_assigned_fields_witness :
  let src := set_Project (Project.set_version "1.0" (Project zero_config)) zero_config in
  let store := [ set_key "PROJECT_VERSION" zero_entry ] in
  let store' := [ set_text "1.0" (set_key "PROJECT_VERSION" zero_entry) ] in
  FText (Project.version (Project src)) = FText "1.0".
Proof.
  intros src store store'.
  symmetry.
  apply (round_trip_assigned_fields src store store' zero_config src "PROJECT_VERSION"
           (fun c => FText (Project.version (Project c)))).
  - reflexivity.
  - reflexivity.
  - split; unfold char_range; cbn; lia.
  - reflexivity.
  - cbn. intros [H|[H|[]]]; discriminate H.
  - left; reflexivity.
Defined.

Lemma sync_returns_witness :
  exists store',
    SyncProjectConfigRaw zero_config
      [ set_key "PROJECT_VERSION" zero_entry; set_key "BUILD_FLAG_ASSETS_PACKAGING" zero_entry ]
      = Ok store' /\
    forall dst0, exists dst, SyncProjectConfig store' dst0 = Ok dst.
Proof.
  apply (sync_returns zero_config
           [ set_key "PROJECT_VERSION" zero_entry;
             set_key "BUILD_FLAG_ASSETS_PACKAGING" zero_entry ]).
  - unfold strings_fit, text_caps.
    repeat (apply Forall_cons; [cbn; lia|]). apply Forall_nil.
  - intros e [<-|[<-|[]]]; cbn; intros [H|[H|[]]]; discriminate H.
Defined.

(** One step down the chain of key tests in the goal: the branch of the
    key is left to [tac], which gets the equation of the key. *)
Ltac goal_key_case tac :=
  match goal with
  | |- context [String.eqb (key ?e) ?k] =>
      let E := fresh "E" in
      destruct (String.eqb (key e) k) eqn:E;
      [ apply String.eqb_eq in E; tac E | ]
  end.

Ltac not_in_table Hk E :=
  exfalso; rewrite E in Hk; vm_compute in Hk; discriminate Hk.

Lemma unknown_key_raw src e :
  assoc (key e) field_table = None -> SyncProjectConfigRaw_entry src e = Ok e.
Proof.
  intros Hk. unfold SyncProjectConfigRaw_entry, TextIsEqual.
  repeat (goal_key_case ltac:(fun E => not_in_table Hk E)).
  reflexivity.
Qed.

Lemma unknown_key_parse e dst :
  assoc (key e) field_table = None -> SyncProjectConfig_entry e dst = Ok dst.
Proof.
  intros Hk. unfold SyncProjectConfig_entry, TextIsEqual.
  repeat (goal_key_case ltac:(fun E => not_in_table Hk E)).
  reflexivity.
Qed.

(** X10.  Entries under keys outside the key mapping pass through both
    functions: [SyncProjectConfigRaw] returns the store as it is, and
    [SyncProjectConfig] leaves the configuration as it is. *)
Theorem unknown_keys_pass_through src dst store :
  (forall e, In e store -> assoc (key e) field_table = None) ->
  SyncProjectConfigRaw src store = Ok store /\
  SyncProjectConfig store dst = Ok dst.
Proof.
  unfold SyncProjectConfigRaw, SyncProjectConfig.
  induction store as [|e store IH]; intros Hkeys; [split; reflexivity|].
  destruct (IH (fun x Hx => Hkeys x (or_intror Hx))) as (IH1 & IH2).
  pose proof (Hkeys e (or_introl eq_refl)) as Hk.
  split.
  - cbn [mapM]. rewrite (unknown_key_raw src e Hk). cbn [bind].
    rewrite IH1. reflexivity.
  - cbn [foldM]. rewrite (unknown_key_parse e dst Hk). cbn [bind]. exact IH2.
Qed.

Lemma unknown_keys_pass_through_witness :
  let store := [ mkEntry "PROJECT_LICENSE" "zlib" "" "LICENSE" 0 9 2 0 false;
                 mkEntry "EXPORT_FLAG_ZIP" "" "" "FLAG ZIP" 0 9 0 1 false ] in
  SyncProjectConfigRaw zero_config store = Ok store /\
  SyncProjectConfig store zero_config = Ok zero_config.
Proof.
  intros store.
  apply (unknown_keys_pass_through zero_config zero_config store).
  intros e [<-|[<-|[]]]; reflexivity.
Defined.

Ltac chain_in H tac :=
  match type of H with
  | context [String.eqb (key ?e) ?k] =>
      let E := fresh "E" in
      destruct (String.eqb (key e) k) eqn:E;
      [ apply String.eqb_eq in E; tac E | ]
  end.

Lemma SyncProjectConfigRaw_entry_identity src e e' :
  SyncProjectConfigRaw_entry src e = Ok e' -> same_identity e e'.
Proof.
  unfold SyncProjectConfigRaw_entry, TextIsEqual. intros H.
  repeat (chain_in H ltac:(fun E =>
            first [ discriminate H
                  | apply Ok_inj in H; subst e'; repeat split
                  | apply bind_Ok in H; destruct H as (t & _ & H);
                    apply Ok_inj in H; subst e'; repeat split ])).
  apply Ok_inj in H; subst e'; repeat split.
Qed.

(** X11.  [SyncProjectConfigRaw] writes text and value only: the store it
    returns has the same number of entries, and each one keeps key,
    description, name, category, platform, type and edit mode. *)
Theorem SyncProjectConfigRaw_keeps_identity src store store' :
  SyncProjectConfigRaw src store = Ok store' ->
  entryCount store' = entryCount store /\
  Forall2 same_identity store store'.
Proof.
  intros H. apply mapM_Ok in H.
  split.
  - unfold entryCount. symmetry. eapply Forall2_length; eassumption.
  - induction H as [|e e' store store' He _ IH]; constructor; [|assumption].
    now apply SyncProjectConfigRaw_entry_identity with (src := src).
Qed.

Lemma SyncProjectConfigRaw_keeps_identity_witness :
  let src := set_Project (Project.set_version "1.0" (Project zero_config)) zero_config in
  let e := mkEntry "PROJECT_VERSION" "" "Version" "VERSION" 0 9 2 0 false in
  let e' := mkEntry "PROJECT_VERSION" "1.0" "Version" "VERSION" 0 9 2 0 false in
  entryCount [e'] = entryCount [e] /\ Forall2 same_identity [e] [e'].
Proof.
  intros src e e'.
  apply (SyncProjectConfigRaw_keeps_identity src [e] [e']).
  reflexivity.
Defined.

Ltac holds_branch H Hk E :=
  rewrite E in Hk; cbn in Hk; apply Some_inj in Hk; subst;
  first [ discriminate H
        | apply Ok_inj in H
        | apply bind_Ok in H;
          let t := fresh "t" in
          let Ht := fresh "Ht" in
          destruct H as (t & Ht & H);
          apply strcpy_Ok in Ht; destruct Ht as [-> _];
          apply Ok_inj in H ];
  subst; cbn; split; reflexivity.

Lemma SyncProjectConfigRaw_entry_holds src e e' get :
  SyncProjectConfigRaw_entry src e = Ok e' ->
  assoc (key e) field_table = Some get ->
  entry_holds (get src) e e'.
Proof.
  unfold SyncProjectConfigRaw_entry, TextIsEqual. intros H Hk.
  repeat (chain_in H ltac:(fun E => holds_branch H Hk E)).
  exfalso. unfold field_table in Hk. cbn [assoc] in Hk.
  repeat match goal with
         | E : String.eqb _ _ = false |- _ => rewrite E in Hk; clear E
         end.
  discriminate Hk.
Qed.

(** X12.  After [SyncProjectConfigRaw] every entry under a mapped key
    carries the field of the configuration: a text field in its text, a
    flag or an integer in its value with the decimal form in its text. *)
Theorem SyncProjectConfigRaw_writes_fields src store store' e e' get :
  SyncProjectConfigRaw src store = Ok store' ->
  In (e, e') (combine store store') ->
  assoc (key e) field_table = Some get ->
  entry_holds (get src) e e'.
Proof.
  intros H Hin Hk. apply mapM_Ok in H.
  pose proof (Forall2_combine_In _ _ _ _ _ H Hin) as He.
  exact (SyncProjectConfigRaw_entry_holds _ _ _ _ He Hk).
Qed.

Lemma SyncProjectConfigRaw_writes_fields_witness :
  let src :=
    set_Platform
      (Platform.set_HTML5 (Platform.HTML5.mk "" "" 32 false true) (Platform zero_config))
      zero_config in
  let e := set_key "PLATFORM_HTML5_HEAP_MEMORY_SIZE" zero_entry in
  let e' := set_text "32" (set_value 32 e) in
  entry_holds (FInt 32) e e'.
Proof.
  intros src e e'.
  apply (SyncProjectConfigRaw_writes_fields src [e] [e'] e e'
           (fun c => FInt (Platform.HTML5.heapMemorySize (Platform.HTML5 (Platform c))))).
  - reflexivity.
  - left; reflexivity.
  - reflexivity.
Defined.

Lemma foldM_app {A S} (f : A -> S -> result S) l1 l2 s :
  foldM f (l1 ++ l2)%list s = bind (foldM f l1 s) (foldM f l2).
Proof.
  revert s; induction l1 as [|a l1 IH]; intros s; [reflexivity|].
  cbn [foldM List.app]. destruct (f a s) as [s'|]; [apply IH | reflexivity].
Qed.

Ltac reads_branch H Hk Hun E :=
  rewrite E in Hk; cbn in Hk; apply Some_inj in Hk; subst;
  first [ discriminate H
        | exfalso; apply Hun; rewrite E; cbn; tauto
        | first [ apply Ok_inj in H
                | apply bind_Ok in H;
                  let t := fresh "t" in
                  let Ht := fresh "Ht" in
                  destruct H as (t & Ht & H);
                  apply strcpy_Ok in Ht; destruct Ht as [-> _];
                  apply Ok_inj in H ];
          subst; rewrite E; reflexivity ].

Lemma SyncProjectConfig_entry_reads e dst dst' get :
  SyncProjectConfig_entry e dst = Ok dst' ->
  assoc (key e) field_table = Some get ->
  ~ In (key e) unassigned_keys ->
  field_reads (key e) (get dst') e.
Proof.
  unfold SyncProjectConfig_entry, TextIsEqual. intros H Hk Hun.
  repeat (chain_in H ltac:(fun E => reads_branch H Hk Hun E)).
  exfalso. unfold field_table in Hk. cbn [assoc] in Hk.
  repeat match goal with
         | E : String.eqb _ _ = false |- _ => rewrite E in Hk; clear E
         end.
  discriminate Hk.
Qed.

Lemma SyncProjectConfig_frame store k get :
  assoc k field_table = Some get ->
  (forall e, In e store -> key e <> k) ->
  forall dst dst', SyncProjectConfig store dst = Ok dst' -> get dst' = get dst.
Proof.
  intros Hk. unfold SyncProjectConfig.
  induction store as [|e store IH]; intros Hne dst dst' H.
  - apply Ok_inj in H. now subst.
  - apply foldM_Ok_cons in H. destruct H as (dst1 & H1 & H).
    rewrite (IH (fun x Hx => Hne x (or_intror Hx)) _ _ H).
    exact (SyncProjectConfig_entry_frame _ _ _ _ _ H1 Hk (Hne e (or_introl eq_refl))).
Qed.

(** X13.  [SyncProjectConfig] gives a mapped field the content of the
    last entry under its key: a text field the text, a flag whether the
    value is nonzero, an integer the value (cut down to a [char] for a
    [char] field).  The two keys whose branch does not assign are left
    out. *)
Theorem last_entry_wins store1 e store2 dst0 dst get :
  SyncProjectConfig (store1 ++ e :: store2)%list dst0 = Ok dst ->
  assoc (key e) field_table = Some get ->
  ~ In (key e) unassigned_keys ->
  (forall e2, In e2 store2 -> key e2 <> key e) ->
  field_reads (key e) (get dst) e.
Proof.
  intros H Hk Hun Hlast. unfold SyncProjectConfig in H.
  rewrite foldM_app in H. apply bind_Ok in H. destruct H as (dst1 & _ & H).
  apply foldM_Ok_cons in H. destruct H as (dst2 & H2 & H).
  rewrite (SyncProjectConfig_frame store2 (key e) get Hk Hlast _ _ H).
  exact (SyncProjectConfig_entry_reads _ _ _ _ H2 Hk Hun).
Qed.

Lemma last_entry_wins_witness :
  let e1 := set_text "1.0" (set_key "PROJECT_VERSION" zero_entry) in
  let e2 := set_text "2.0" (set_key "PROJECT_VERSION" zero_entry) in
  let e3 := set_value 1 (set_key "BUILD_FLAG_ASSETS_PACKAGING" zero_entry) in
  let dst := set_Build (Build.set_assetsPackaging true (Build zero_config))
               (set_Project (Project.set_version "2.0" (Project zero_config)) zero_config) in
  field_reads "PROJECT_VERSION" (FText (Project.version (Project dst))) e2.
Proof.
  intros e1 e2 e3 dst.
  apply (last_entry_wins [e1] e2 [e3] zero_config dst
           (fun c => FText (Project.version (Project c)))).
  - reflexivity.
  - reflexivity.
  - cbn. intros [H|[H|[]]]; discriminate H.
  - intros x [<-|[]]. cbn. intros H; discriminate H.
Defined.

Lemma strcpy_overflow cap src :
  cap <= String.length src -> strcpy cap src = MemFault.
Proof.
  intros H. unfold strcpy.
  destruct (Nat.ltb_spec (String.length src) cap) as [Hlt|_]; [lia | reflexivity].
Qed.

Lemma SyncProjectConfig_entry_overflow e dst cap :
  assoc (key e) field_caps = Some cap ->
  cap <= String.length (text e) ->
  SyncProjectConfig_entry e dst = MemFault.
Proof.
  unfold SyncProjectConfig_entry, TextIsEqual. intros Hk Hlen.
  repeat (goal_key_case ltac:(fun E =>
            rewrite E in Hk; cbn in Hk;
            first [ discriminate Hk
                  | apply Some_inj in Hk; subst cap;
                    rewrite (strcpy_overflow _ _ Hlen); reflexivity ])).
  exfalso. unfold field_caps in Hk. cbn [assoc] in Hk.
  repeat match goal with
         | E : String.eqb _ _ = false |- _ => rewrite E in Hk; clear E
         end.
  discriminate Hk.
Qed.

Lemma foldM_faults {A S} (f : A -> S -> result S) l a :
  In a l -> (forall s, f a s = MemFault) -> forall s, foldM f l s = MemFault.
Proof.
  intros Hin Hf. induction l as [|b l IH]; [destruct Hin|].
  intros s. cbn [foldM].
  destruct Hin as [->|Hin].
  - now rewrite Hf.
  - destruct (f b s); [now apply IH | reflexivity].
Qed.

(** X14.  [SyncProjectConfig] copies a text without a bound: an entry
    under a text key whose text is as long as the field array or longer
    makes the call fault, wherever the entry is in the store. *)
Theorem long_text_faults store e dst cap :
  In e store ->
  assoc (key e) field_caps = Some cap ->
  cap <= String.length (text e) ->
  SyncProjectConfig store dst = MemFault.
Proof.
  intros Hin Hk Hlen. unfold SyncProjectConfig.
  apply (foldM_faults _ _ e Hin).
  intros s. exact (SyncProjectConfig_entry_overflow e s cap Hk Hlen).
Qed.

Lemma long_text_faults_witness :
  SyncProjectConfig
    [ set_text "cool_project" (set_key "PROJECT_INTERNAL_NAME" zero_entry);
      set_text "1.0.0-beta.2+exp" (set_key "PROJECT_VERSION" zero_entry) ]
    zero_config = MemFault.
Proof.
  apply (long_text_faults
           [ set_text "cool_project" (set_key "PROJECT_INTERNAL_NAME" zero_entry);
             set_text "1.0.0-beta.2+exp" (set_key "PROJECT_VERSION" zero_entry) ]
           (set_text "1.0.0-beta.2+exp" (set_key "PROJECT_VERSION" zero_entry))
           zero_config 16).
  - right; left; reflexivity.
  - reflexivity.
  - vm_compute; lia.
Defined.

(** *** More on [SetupProject] *)

Lemma default_repoName_idem config :
  default_repoName (default_repoName config) = default_repoName config.
Proof.
  unfold default_repoName.
  destruct (String.eqb (Project.repoName (Project config)) "") eqn:E.
  - destruct config as [p b pl d i r]. destruct p. cbn in *.
    destruct (String.eqb internalName "") eqn:E2; [|reflexivity].
    apply String.eqb_eq in E2. subst. reflexivity.
  - now rewrite E.
Qed.

(** X15.  Generation can be repeated: run again on the configuration the
    first run leaves (its repository name filled in), [SetupProject] leaves
    the same configuration and makes the same calls. *)
Theorem SetupProject_repeatable env config :
  SetupProject env (fst (SetupProject env config)) = SetupProject env config.
Proof.
  destruct (template_available env (GetApplicationDirectory env ++ "/template")) eqn:Hav.
  - rewrite (SetupProject_config env config Hav).
    pose proof (SetupProject_available env (default_repoName config) Hav) as H1.
    pose proof (SetupProject_available env config Hav) as H2.
    cbv zeta in H1, H2. rewrite H1, H2, default_repoName_idem. reflexivity.
  - rewrite (SetupProject_unavailable env config Hav). cbn [fst].
    apply SetupProject_unavailable. exact Hav.
Qed.

(** X16.  The developer e-mail reaches no generated file: whatever it is,
    [SetupProject] makes the same calls (the [$(DeveloperEmail)] placeholder
    of the .rpc file gets the developer URL). *)
Theorem developer_email_unused env config email :
  snd (SetupProject env
         (set_Project (Project.set_developerEmail email (Project config)) config))
  = snd (SetupProject env config).
Proof.
  destruct config as [p b pl d i r]. destruct p.
  unfold SetupProject, SetupProject_run. rewrite templatePath_copied.
  destruct (negb _); [reflexivity|].
  unfold default_repoName. cbn [Project Project.repoName set_Project
    Project.set_developerEmail Project.internalName Project.set_repoName].
  cbn [fst snd]. destruct (String.eqb repoName ""); reflexivity.
Qed.



(** The calls of a run are calls of its steps; of a run that goes to its
    end, they are all of them. *)
Lemma trace_steps env config x :
  template_available env (GetApplicationDirectory env ++ "/template") = true ->
  let tp := GetApplicationDirectory env ++ "/template" in
  let c := default_repoName config in
  let steps :=
    x = LOG ("INFO: Output path: " ++ out_dir c ++ nl) \/
    In x (copy_sources c tp) \/ In x (project_rpc env c tp) \/
    In x (build_scripts env c tp) \/ In x (build_makefile env c tp) \/
    In x (build_vscode env c tp) \/ In x (fst (build_vs2022 env c tp)) \/
    In x (github_workflows env c tp) \/ In x (product_files env c tp) \/
    In x (project_docs env c tp) in
  (In x (snd (SetupProject env config)) -> steps) /\
  (SetupProject_end env config = Ok tt -> steps -> In x (snd (SetupProject env config))).
Proof.
  intros Hav tp c steps. subst steps.
  rewrite (SetupProject_end_available env config Hav).
  pose proof (SetupProject_available env config Hav) as H. cbv zeta in H.
  rewrite H. cbn [snd]. fold tp c. clear H.
  split.
  - destruct (snd (build_vs2022 env c tp));
      cbn [In]; rewrite !in_app_iff; cbn [In];
      (intros [H|H]; [left; now symmetry | tauto]).
  - intros ->. cbn [In]. rewrite !in_app_iff.
    intros [H|H]; [left; now symmetry | tauto].
Qed.

(** X18.  [SetupProject] does not check the template files one by one:
    in a run that goes to its end, when a template file it loads cannot be
    read, it still saves the output file, from a [NULL] text. *)
Theorem unreadable_template_saved_as_null env config rel out_path :
  template_available env (GetApplicationDirectory env ++ "/template") = true ->
  SetupProject_end env config = Ok tt ->
  In (rel, out_path) (loaded_templates (fst (SetupProject env config))) ->
  LoadFileText env ((GetApplicationDirectory env ++ "/template") ++ rel) = None ->
  In (SaveFileText out_path None) (snd (SetupProject env config)).
Proof.
  intros Hav Hend Hin Hload.
  rewrite (SetupProject_config env config Hav) in Hin.
  apply (proj2 (trace_steps env config _ Hav) Hend).
  set (c := default_repoName config) in *.
  unfold loaded_templates in Hin. fold (out_dir c) in Hin.
  cbn [In] in Hin.
  repeat match type of Hin with
         | _ \/ _ => destruct Hin as [Hin|Hin]
         end;
    try contradiction;
    apply pair_equal_spec in Hin; destruct Hin as (<- & <-).
  - right; right; left. unfold project_rpc. rewrite Hload. cbn. auto.
  - do 7 right; left. unfold github_workflows. rewrite Hload. cbn. auto.
  - do 7 right; left. unfold github_workflows. rewrite Hload. cbn. auto.
  - do 7 right; left. unfold github_workflows. rewrite Hload. cbn. auto.
  - do 7 right; left. unfold github_workflows. rewrite Hload. cbn. auto 6.
  - do 8 right; left. unfold product_files. rewrite Hload. cbn. auto.
  - do 8 right; left. unfold product_files. rewrite Hload. cbn. auto 8.
  - do 8 right; left. unfold product_files. rewrite Hload. cbn. auto 10.
  - do 9 right. unfold project_docs. rewrite Hload. cbn. auto.
  - do 9 right. unfold project_docs. rewrite Hload. cbn. auto.
Qed.

Lemma unreadable_template_saved_as_null_witness :
  In (SaveFileText "out/cool_project/README.md" None)
     (snd (SetupProject Samples.template_without_readme
             (Samples.project "cool_project" 0 [false; true; false; false] []))).
Proof.
  apply (unreadable_template_saved_as_null Samples.template_without_readme
           (Samples.project "cool_project" 0 [false; true; false; false] [])
           "/README.md" "out/cool_project/README.md").
  - reflexivity.
  - reflexivity.
  - cbn. auto 20.
  - reflexivity.
Defined.

Lemma String_inv_tail a s t : String a s = String a t -> s = t.
Proof. intros H. now injection H. Qed.

Ltac other_path H :=
  repeat first [ apply append_inv_head in H | apply String_inv_tail in H ];
  first [ discriminate H | cbn in H; discriminate H ].

(** X19.  A template number other than 0, 1 and 2 (the template list of
    the window has six items) gets no source file: no call copies a file
    to [src/<internalName>.c], and a requested VS2022 project file is
    saved from a [NULL] text. *)
Theorem unlisted_template_number env config :
  template_available env (GetApplicationDirectory env ++ "/template") = true ->
  Project.selectedTemplate (Project config) <> 0%Z ->
  Project.selectedTemplate (Project config) <> 1%Z ->
  Project.selectedTemplate (Project config) <> 2%Z ->
  let c := fst (SetupProject env config) in
  let t := snd (SetupProject env config) in
  let internalName := Project.internalName (Project c) in
  (forall srcPath,
      ~ In (FileCopy srcPath (out_dir c ++ "/src/" ++ internalName ++ ".c")) t) /\
  (requested config 3 = true ->
   In (SaveFileText
         (out_dir c ++ "/projects/VS2022/" ++ internalName ++ "/" ++ internalName ++ ".vcxproj")
         None) t).
Proof.
  intros Hav H0 H1 H2 c t internalName. subst c t internalName.
  rewrite (SetupProject_config env config Hav).
  destruct (default_repoName_fields config) as (_ & _ & Hsel & _ & Hreq & _).
  set (c := default_repoName config) in *.
  assert (E0 : (Project.selectedTemplate (Project c) =? 0)%Z = false)
    by (rewrite Hsel; now apply Z.eqb_neq).
  assert (E1 : (Project.selectedTemplate (Project c) =? 1)%Z = false)
    by (rewrite Hsel; now apply Z.eqb_neq).
  assert (E2 : (Project.selectedTemplate (Project c) =? 2)%Z = false)
    by (rewrite Hsel; now apply Z.eqb_neq).
  assert (Hend : SetupProject_end env config = Ok tt).
  { rewrite (SetupProject_end_available env config Hav), build_vs2022_end.
    fold c. rewrite E2, andb_false_r. reflexivity. }
  split.
  - intros srcPath Hin.
    apply (proj1 (trace_steps env config _ Hav)) in Hin. fold c in Hin.
    destruct Hin as [Hin|[Hin|[Hin|[Hin|[Hin|[Hin|[Hin|[Hin|[Hin|Hin]]]]]]]]].
    + discriminate Hin.
    + unfold copy_sources in Hin. rewrite E0, E1, E2 in Hin.
      destruct Hin as [Hin|[]]. discriminate Hin.
    + unfold project_rpc in Hin. destruct Hin as [Hin|[]]. discriminate Hin.
    + unfold build_scripts in Hin. destruct (requested c 0); [|destruct Hin].
      cbn [In] in Hin. intuition discriminate.
    + unfold build_makefile in Hin. destruct (requested c 1); [|destruct Hin].
      cbn [In makefile_buffers] in Hin. intuition discriminate.
    + unfold build_vscode in Hin. destruct (requested c 2); [|destruct Hin].
      cbn [In] in Hin.
      repeat match type of Hin with
             | _ \/ _ => destruct Hin as [Hin|Hin]
             end;
        try discriminate Hin; try contradiction;
        injection Hin as _ Hin; other_path Hin.
    + unfold build_vs2022 in Hin. destruct (requested c 3); [|destruct Hin].
      rewrite E0, E1, E2 in Hin. cbn [In fst List.app] in Hin. intuition discriminate.
    + unfold github_workflows in Hin. cbn [In] in Hin. intuition discriminate.
    + unfold product_files in Hin. cbn [In] in Hin.
      repeat match type of Hin with
             | _ \/ _ => destruct Hin as [Hin|Hin]
             end;
        try discriminate Hin; try contradiction;
        injection Hin as _ Hin; other_path Hin.
    + unfold project_docs in Hin. cbn [In] in Hin.
      repeat match type of Hin with
             | _ \/ _ => destruct Hin as [Hin|Hin]
             end;
        try discriminate Hin; try contradiction;
        injection Hin as _ Hin; other_path Hin.
  - intros H3. apply (proj2 (trace_steps env config _ Hav) Hend). fold c.
    do 6 right; left. unfold build_vs2022.
    rewrite (Hreq 3), H3, E0, E1, E2. cbn. auto.
Qed.

Lemma unlisted_template_number_witness :
  let config := Samples.project "cool_project" 4 [false; true; false; true] [] in
  let t := snd (SetupProject Samples.full_template config) in
  ~ In (FileCopy "/opt/rpc/template/src/project_name.c" "out/cool_project/src/cool_project.c") t /\
  In (SaveFileText "out/cool_project/projects/VS2022/cool_project/cool_project.vcxproj" None) t.
Proof.
  intros config t.
  destruct (unlisted_template_number Samples.full_template config) as (Hcopy & Hvs).
  - reflexivity.
  - intros H; discriminate H.
  - intros H; discriminate H.
  - intros H; discriminate H.
  - split.
    + exact (Hcopy "/opt/rpc/template/src/project_name.c").
    + exact (Hvs eq_refl).
Defined.

Lemma has_char_slash_rpc (a b rest d : string) :
  has_char "/" a = false ->
  a ++ ".rpc" = b ++ String "/" d ++ rest -> False.
Proof.
  intros Ha H. apply (f_equal (has_char "/")) in H.
  rewrite !has_char_app, Ha in H. cbn in H.
  rewrite orb_true_r in H. discriminate H.
Qed.

Lemma split_at_first c a b x y :
  has_char c a = false -> has_char c b = false ->
  a ++ String c x = b ++ String c y -> a = b /\ x = y.
Proof.
  revert b; induction a as [|ch a IH]; intros [|ch' b] Ha Hb H; cbn in *.
  - injection H as ->. auto.
  - injection H as <- _. rewrite Ascii.eqb_refl in Hb. discriminate Hb.
  - injection H as -> _. rewrite Ascii.eqb_refl in Ha. discriminate Ha.
  - injection H as <- H.
    apply orb_false_iff in Ha, Hb.
    destruct (IH b (proj2 Ha) (proj2 Hb) H) as (-> & ->). auto.
Qed.

Ltac not_under Hi Hr Heq :=
  first
    [ other_path Heq
    | exfalso; repeat apply append_inv_head in Heq;
      first
        [ exact (has_char_slash_rpc _ _ _ _ Hi Heq)
        | let H := fresh in
          destruct (split_at_first _ _ _ _ _ Hi Hr Heq) as (_ & H);
          discriminate H ] ].

Ltac each_path Hin Hi Hr Heq :=
  cbn [In] in Hin;
  repeat match type of Hin with
         | _ \/ _ => destruct Hin as [Hin|Hin]
         end;
  try contradiction;
  first [ apply in_map_iff in Hin; destruct Hin as (? & Hin & _) | idtac ];
  rewrite <- Hin in Heq; unfold out_dir in Heq; rewrite ?append_assoc in Heq;
  not_under Hi Hr Heq.

Lemma nothing_under_projects env config (dirName : string) (r2 r3 : bool) p :
  template_available env (GetApplicationDirectory env ++ "/template") = true ->
  let c := fst (SetupProject env config) in
  let t := snd (SetupProject env config) in
  has_char "/" (Project.internalName (Project c)) = false ->
  has_char "/" (Project.repoName (Project c)) = false ->
  requested c 2 = r2 -> requested c 3 = r3 ->
  (dirName = "VSCode" /\ r2 = false \/ dirName = "VS2022" /\ r3 = false) ->
  In p (files_written t) \/ In p (directories_made t) ->
  ~ under (out_dir c ++ "/projects/" ++ dirName) p.
Proof.
  intros Hav c t Hi Hr H2 H3 Hdir Hin (rest & Heq). subst t.
  assert (Hin' :
    In p (files_written (copy_sources c (GetApplicationDirectory env ++ "/template")) +++
          [Project.generationOutPath (Project c) ++ "/" ++
           Project.internalName (Project c) ++ ".rpc"] +++
          files_written (build_scripts env c (GetApplicationDirectory env ++ "/template")) +++
          files_written (build_makefile env c (GetApplicationDirectory env ++ "/template")) +++
          files_written (build_vscode env c (GetApplicationDirectory env ++ "/template")) +++
          (if requested c 3
           then [out_dir c ++ "/projects/VS2022/raylib/raylib.vcxproj";
                 out_dir c ++ "/projects/VS2022/" ++ Project.internalName (Project c)
                   ++ "/" ++ Project.internalName (Project c) ++ ".vcxproj";
                 out_dir c ++ "/projects/VS2022/" ++ Project.internalName (Project c)
                   ++ ".sln"]
           else []) +++
          files_written (github_workflows env c (GetApplicationDirectory env ++ "/template")) +++
          files_written (product_files env c (GetApplicationDirectory env ++ "/template")) +++
          files_written (project_docs env c (GetApplicationDirectory env ++ "/template"))) \/
    In p ([out_dir c ++ "/src/external"] +++
          (if requested c 0
           then [Project.generationOutPath (Project c) ++ "/" ++
                 Project.internalName (Project c) ++ "/projects/scripts"]
           else []) +++
          (if requested c 2 then [out_dir c ++ "/projects/VSCode/.vscode"] else []) +++
          (if requested c 3
           then [out_dir c ++ "/projects/VS2022/raylib";
                 out_dir c ++ "/projects/VS2022/" ++ Project.internalName (Project c)]
           else []) +++
          [out_dir c ++ "/.github/workflows"])).
  { destruct Hin as [Hin|Hin].
    - left. exact (files_written_among env config p Hav Hin).
    - right. exact (directories_made_among env config p Hav Hin). }
  clear Hin. rename Hin' into Hin.
  revert Hin. step_traces. rewrite H2, H3. intros Hin.
  rewrite !in_app_iff in Hin.
  destruct Hdir as [(-> & ->)|(-> & ->)].
  - destruct Hin as [[Hin|[Hin|[Hin|[Hin|[Hin|[Hin|[Hin|[Hin|Hin]]]]]]]]
                    |[Hin|[Hin|[Hin|[Hin|Hin]]]]].
    + destruct (_ =? 0)%Z; [|destruct (_ =? 1)%Z; [|destruct (_ =? 2)%Z]];
        each_path Hin Hi Hr Heq.
    + each_path Hin Hi Hr Heq.
    + destruct (requested c 0); each_path Hin Hi Hr Heq.
    + destruct (requested c 1); each_path Hin Hi Hr Heq.
    + each_path Hin Hi Hr Heq.
    + destruct r3; each_path Hin Hi Hr Heq.
    + each_path Hin Hi Hr Heq.
    + each_path Hin Hi Hr Heq.
    + each_path Hin Hi Hr Heq.
    + each_path Hin Hi Hr Heq.
    + destruct (requested c 0); each_path Hin Hi Hr Heq.
    + each_path Hin Hi Hr Heq.
    + destruct r3; each_path Hin Hi Hr Heq.
    + each_path Hin Hi Hr Heq.
  - destruct Hin as [[Hin|[Hin|[Hin|[Hin|[Hin|[Hin|[Hin|[Hin|Hin]]]]]]]]
                    |[Hin|[Hin|[Hin|[Hin|Hin]]]]].
    + destruct (_ =? 0)%Z; [|destruct (_ =? 1)%Z; [|destruct (_ =? 2)%Z]];
        each_path Hin Hi Hr Heq.
    + each_path Hin Hi Hr Heq.
    + destruct (requested c 0); each_path Hin Hi Hr Heq.
    + destruct (requested c 1); each_path Hin Hi Hr Heq.
    + destruct r2; each_path Hin Hi Hr Heq.
    + each_path Hin Hi Hr Heq.
    + each_path Hin Hi Hr Heq.
    + each_path Hin Hi Hr Heq.
    + each_path Hin Hi Hr Heq.
    + each_path Hin Hi Hr Heq.
    + destruct (requested c 0); each_path Hin Hi Hr Heq.
    + destruct r2; each_path Hin Hi Hr Heq.
    + each_path Hin Hi Hr Heq.
    + each_path Hin Hi Hr Heq.
Qed.

(** X20.  A build system that is not requested leaves nothing behind:
    without VSCode no file is written and no directory made at or below
    [<out>/<repoName>/projects/VSCode], and the same for VS2022.  The two
    names are taken to hold no ['/']. *)
Theorem unrequested_build_system_absent env config :
  template_available env (GetApplicationDirectory env ++ "/template") = true ->
  let c := fst (SetupProject env config) in
  let t := snd (SetupProject env config) in
  has_char "/" (Project.internalName (Project c)) = false ->
  has_char "/" (Project.repoName (Project c)) = false ->
  (requested config 2 = false ->
   forall p, In p (files_written t) \/ In p (directories_made t) ->
             ~ under (out_dir c ++ "/projects/VSCode") p) /\
  (requested config 3 = false ->
   forall p, In p (files_written t) \/ In p (directories_made t) ->
             ~ under (out_dir c ++ "/projects/VS2022") p).
Proof.
  intros Hav c t Hi Hr.
  assert (Hreq : forall i, requested c i = requested config i).
  { subst c. rewrite (SetupProject_config env config Hav).
    exact (proj1 (proj2 (proj2 (proj2 (proj2 (default_repoName_fields config)))))). }
  split; intros H p Hin.
  - apply (nothing_under_projects env config "VSCode" false (requested c 3) p Hav Hi Hr);
      [ rewrite Hreq; exact H | reflexivity | left; auto | exact Hin ].
  - apply (nothing_under_projects env config "VS2022" (requested c 2) false p Hav Hi Hr);
      [ reflexivity | rewrite Hreq; exact H | right; auto | exact Hin ].
Qed.

Lemma unrequested_build_system_absent_witness :
  let config := Samples.project "cool_project" 0 [true; true; false; true] [] in
  let t := snd (SetupProject Samples.full_template config) in
  requested config 2 = false /\
  (forall p, In p (files_written t) \/ In p (directories_made t) ->
             ~ under "out/cool_project/projects/VSCode" p).
Proof.
  intros config t. split; [reflexivity|].
  destruct (unrequested_build_system_absent Samples.full_template config)
    as (Hvscode & _).
  - reflexivity.
  - reflexivity.
  - reflexivity.
  - exact (Hvscode eq_refl).
Defined.

(** *** [SaveProjectConfigRaw] *)

Lemma stored_app t1 t2 : stored (t1 +++ t2) = stored t1 +++ stored t2.
Proof. unfold stored. apply filter_app. Qed.

Lemma stored_SaveProjectConfigRaw data fileName flags :
  stored (SaveProjectConfigRaw data fileName flags) = stored (flat_map save_entry data).
Proof.
  unfold SaveProjectConfigRaw. rewrite !stored_app.
  replace (stored (map rini_set_comment_line header_comment_lines)) with (@nil rini_call)
    by reflexivity.
  cbn [stored filter List.app]. now rewrite app_nil_r.
Qed.

Lemma load_entry_type_class v e1 e :
  load_entry_type v e1 = Ok e ->
  (rini.isText v = true ->
   text e = rini.text v /\ value e = value e1 /\
   (type e = RPC_TYPE_TEXT \/ type e = RPC_TYPE_TEXT_FILE \/ type e = RPC_TYPE_TEXT_PATH)) /\
  (rini.isText v = false ->
   text e = text e1 /\ value e = TextToInteger (rini.text v) /\
   (type e = RPC_TYPE_BOOL \/ type e = RPC_TYPE_VALUE)).
Proof.
  unfold load_entry_type. intros He.
  split; intros Hq; rewrite Hq in He; cbn [negb] in He.
  - apply bind_Ok in He. destruct He as (t & Ht' & He).
    apply strcpy_Ok in Ht'. destruct Ht' as (-> & _).
    apply Ok_inj in He. subst e.
    repeat match goal with
           | |- context [if ?b then _ else _] => destruct b
           end; cbn; auto.
  - apply Ok_inj in He. subst e.
    destruct (c_true _); cbn; auto.
Qed.

(** What [SaveProjectConfigRaw] stores for one loaded entry. *)
Lemma saved_loaded_entry v e n k :
  load_entry v = Ok e ->
  key_array n k (rini.key v) ->
  stored (save_entry e) = if project_key v then [store_call v] else [].
Proof.
  intros He Hkey.
  apply load_entry_split in He. destruct He as (e1 & He1 & He).
  destruct (load_entry_names_good_key _ _ _ _ He1 Hkey) as (Hk1 & _ & Hcat & _).
  destruct (load_entry_names_store _ _ He1) as (_ & Hd1 & Ht1 & Hv1 & _).
  destruct (load_entry_type_key _ _ _ He) as (Hk & Hc & _).
  destruct (load_entry_type_name _ _ _ He) as (_ & Hd & _).
  destruct (load_entry_type_class _ _ _ He) as (Hquoted & Hunquoted).
  assert (Hprefix : cstr_prefix (rini.key v) = k).
  { destruct Hkey as (-> & Hk0). unfold in_array. now apply cstr_prefix_app_zeros. }
  assert (Hrule : category e = category_rule k).
  { rewrite Hc, Hcat. unfold category_rule, category_table. cbn [assoc].
    repeat match goal with
           | |- context [String.eqb ?a ?b] => destruct (String.eqb a b); [reflexivity|]
           end.
    reflexivity. }
  unfold save_entry, project_key, store_call.
  rewrite Hprefix, Hrule, Hk, Hk1, Hd, Hd1.
  destruct (category_rule k =? RPC_CAT_PROJECT)%Z; [|reflexivity].
  destruct (rini.isText v).
  - destruct (Hquoted eq_refl) as (-> & _ & [->|[->| ->]]); reflexivity.
  - destruct (Hunquoted eq_refl) as (_ & -> & [->| ->]); reflexivity.
Qed.

(** X21.  Saving a store as it was loaded stores again, in their order,
    the values whose key falls into the [PROJECT] category (first segment
    [PROJECT], or none of the known ones), each under its key with its
    description, a quoted value as text and an unquoted one as the integer
    it reads as; the values of every other category are not stored. *)
Theorem save_after_load values raw fileName flags :
  LoadProjectConfigRaw (Some values) = Ok raw ->
  Forall (fun v => exists n k, key_array n k (rini.key v)) values ->
  stored (SaveProjectConfigRaw raw fileName flags)
  = map store_call (filter project_key values).
Proof.
  intros Hload Hkeys. rewrite stored_SaveProjectConfigRaw.
  apply LoadProjectConfigRaw_entries in Hload.
  induction Hload as [|v e values raw He _ IH]; [reflexivity|].
  apply Forall_cons_iff in Hkeys. destruct Hkeys as ((n & k & Hkey) & Hkeys).
  cbn [flat_map filter]. rewrite stored_app, (IH Hkeys).
  rewrite (saved_loaded_entry v e n k He Hkey).
  destruct (project_key v); reflexivity.
Qed.

Lemma save_after_load_witness :
  let values :=
    [ rini.mk (in_array 64 "PROJECT_INTERNAL_NAME") "cool_project" "Project name" true;
      rini.mk (in_array 64 "BUILD_FLAG_ASSETS_PACKAGING") "1" "" false;
      rini.mk (in_array 64 "EXPORT_RETRIES") "3" "Retries" false ] in
  exists raw,
    LoadProjectConfigRaw (Some values) = Ok raw /\
    stored (SaveProjectConfigRaw raw "cool_project.rpc" 0)
    = [ rini_set_value_text "PROJECT_INTERNAL_NAME" "cool_project" "Project name";
        rini_set_value "EXPORT_RETRIES" 3 "Retries" ].
Proof.
  intros values.
  eexists. split; [reflexivity|].
  apply (save_after_load values).
  - reflexivity.
  - repeat constructor.
    + exists 64, "PROJECT_INTERNAL_NAME". split; reflexivity.
    + exists 64, "BUILD_FLAG_ASSETS_PACKAGING". split; reflexivity.
    + exists 64, "EXPORT_RETRIES". split; reflexivity.
Defined.

(** *** Packed template data *)

Section PackProperties.
Variable DecompressData : Z -> Z -> option (list Byte.byte) * Z.

Lemma load_from_pack_null fileName entries dataOffset :
  load_from_pack DecompressData fileName entries dataOffset None =
  Ok (None,
      if existsb (fun e => TextIsEqual fileName (filePath e)) entries
      then [ PackLOG ("WARNING: File not loaded properly from pack" ++ nl) ]
      else []).
Proof.
  revert dataOffset. induction entries as [|entry entries IH]; intros dataOffset.
  - reflexivity.
  - cbn [load_from_pack existsb].
    destruct (TextIsEqual fileName (filePath entry)).
    + destruct (DecompressData dataOffset (compFileSize entry)). reflexivity.
    + cbn [orb]. apply IH.
Qed.

Lemma unpack_from_good outputDirPath good tail off :
  (forall pre e post, good = (pre +++ e :: post) ->
     match DecompressData (off + offset_after pre)%Z (compFileSize e) with
     | (Some _, size) => (size =? fileSize e)%Z
     | (None, _) => false
     end = true) ->
  unpack_from DecompressData outputDirPath (good +++ tail) off =
    unpack_from DecompressData outputDirPath good off +++
    unpack_from DecompressData outputDirPath tail (off + offset_after good)%Z /\
  List.length (unpack_from DecompressData outputDirPath good off) = List.length good /\
  (forall pre e post, good = (pre +++ e :: post) ->
     nth_error (unpack_from DecompressData outputDirPath good off) (List.length pre) =
     match DecompressData (off + offset_after pre)%Z (compFileSize e) with
     | (Some bytes, size) =>
         if (size =? fileSize e)%Z
         then Some (SaveFileData (outputDirPath ++ "/" ++ filePath e) bytes size)
         else None
     | (None, _) => None
     end).
Proof.
  revert off. induction good as [|g good IH]; intros off Hgood.
  - cbn [offset_after fold_right List.app unpack_from]. rewrite Z.add_0_r.
    split; [reflexivity|]. split; [reflexivity|].
    intros [|x pre] e post Heq; discriminate Heq.
  - pose proof (Hgood [] g good eq_refl) as Hg.
    cbn [offset_after fold_right] in Hg. rewrite Z.add_0_r in Hg.
    destruct (IH (off + compFileSize g)%Z) as (Heq & Hlen & Hnth).
    { intros pre e post ->. specialize (Hgood (g :: pre) e post eq_refl).
      cbn [offset_after fold_right] in Hgood. fold (offset_after pre) in Hgood.
      now rewrite Z.add_assoc in Hgood. }
    cbn [List.app unpack_from].
    destruct (DecompressData off (compFileSize g)) as [[bytes|] size] eqn:ED;
      [|discriminate Hg].
    rewrite Hg.
    split; [|split].
    + cbn [List.app]. rewrite Heq.
      cbn [offset_after fold_right]. fold (offset_after good).
      now rewrite Z.add_assoc.
    + cbn [List.length]. now rewrite Hlen.
    + intros [|x pre] e post Hsplit.
      * injection Hsplit as <- _. cbn [List.length nth_error offset_after fold_right].
        rewrite Z.add_0_r, ED, Hg. reflexivity.
      * injection Hsplit as <- Hsplit.
        cbn [List.length nth_error offset_after fold_right].
        fold (offset_after pre).
        rewrite (Hnth pre e post Hsplit). now rewrite Z.add_assoc.
Qed.

End PackProperties.

(** X22.  [UnpackDirectoryData] saves the entries in order, one call per
    entry: the entry that follows [pre] is decompressed from the offset that
    is the sum of the compressed sizes of [pre], and the buffer and size
    that come back are saved under the entry's path below the output
    directory.  It stops at the first entry that does not decompress to its
    recorded size: one warning is logged there and no later entry is
    looked at. *)
Theorem unpack_stops_at_first_failure DecompressData outputDirPath good :
  (forall pre e post, good = (pre +++ e :: post) -> unpacks DecompressData pre e = true) ->
  List.length (UnpackDirectoryData DecompressData outputDirPath good) = List.length good /\
  (forall pre e post, good = (pre +++ e :: post) ->
     nth_error (UnpackDirectoryData DecompressData outputDirPath good) (List.length pre)
     = save_call DecompressData outputDirPath pre e /\
     save_call DecompressData outputDirPath pre e <> None) /\
  forall bad rest,
    unpacks DecompressData good bad = false ->
    UnpackDirectoryData DecompressData outputDirPath (good +++ bad :: rest)
    = UnpackDirectoryData DecompressData outputDirPath good +++
      [ PackLOG ("WARNING: File data could not be decompressed!" ++ nl) ].
Proof.
  intros Hgood. unfold UnpackDirectoryData.
  assert (Hgood' : forall pre e post, good = (pre +++ e :: post) ->
            match DecompressData (0 + offset_after pre)%Z (compFileSize e) with
            | (Some _, size) => (size =? fileSize e)%Z
            | (None, _) => false
            end = true)
    by (intros pre e post Heq; rewrite Z.add_0_l; exact (Hgood pre e post Heq)).
  destruct (unpack_from_good DecompressData outputDirPath good [] 0 Hgood')
    as (_ & Hlen & Hnth).
  split; [assumption|]. split.
  - intros pre e post Hsplit.
    rewrite (Hnth pre e post Hsplit). unfold save_call. rewrite Z.add_0_l.
    split; [reflexivity|].
    specialize (Hgood pre e post Hsplit). unfold unpacks in Hgood.
    destruct (DecompressData (offset_after pre) (compFileSize e)) as [[bytes|] size];
      [rewrite Hgood; discriminate | discriminate Hgood].
  - intros bad rest Hbad.
    destruct (unpack_from_good DecompressData outputDirPath good (bad :: rest) 0 Hgood')
      as (-> & _).
    f_equal. rewrite Z.add_0_l. cbn [unpack_from].
    unfold unpacks in Hbad.
    destruct (DecompressData (offset_after good) (compFileSize bad)) as [[bytes|] size];
      [rewrite Hbad|]; reflexivity.
Qed.

Lemma unpack_stops_at_first_failure_witness :
  let D := fun (offset size : Z) =>
             if (offset =? 0)%Z then (Some [Byte.x61; Byte.x62], 2%Z)
             else if (offset =? 5)%Z then (Some [Byte.x63], 1%Z)
             else (@None (list Byte.byte), 0%Z) in
  let good := [ mkPackFileEntry 2 5 "README.md"; mkPackFileEntry 1 4 "LICENSE" ] in
  let bad := mkPackFileEntry 9 7 "src/Makefile" in
  let rest := [ mkPackFileEntry 2 5 "CONVENTIONS.md" ] in
  UnpackDirectoryData D "out" (good +++ bad :: rest)
  = [ SaveFileData "out/README.md" [Byte.x61; Byte.x62] 2;
      SaveFileData "out/LICENSE" [Byte.x63] 1;
      PackLOG ("WARNING: File data could not be decompressed!" ++ nl) ] /\
  nth_error (UnpackDirectoryData D "out" good) 1
  = Some (SaveFileData "out/LICENSE" [Byte.x63] 1).
Proof.
  intros D good bad rest.
  destruct (unpack_stops_at_first_failure D "out" good) as (_ & Hnth & H).
  - intros [|x [|y pre]] e post Heq.
    + injection Heq as <- _. reflexivity.
    + injection Heq as <- <- _. reflexivity.
    + destruct pre; discriminate Heq.
  - split.
    + rewrite (H bad rest eq_refl). reflexivity.
    + exact (proj1 (Hnth [mkPackFileEntry 2 5 "README.md"]
                      (mkPackFileEntry 1 4 "LICENSE") [] eq_refl)).
Defined.

(** X23.  [LoadFileTextPack] never returns a text: the test of the
    decompressed data reads the result pointer, which is still [NULL], so
    the call returns [NULL] for every pack, and logs its warning exactly
    when the file name is among the entries. *)
Theorem LoadFileTextPack_returns_null DecompressData fileName entries :
  LoadFileTextPack DecompressData fileName entries =
  Ok (None,
      if existsb (fun e => TextIsEqual fileName (filePath e)) entries
      then [ PackLOG ("WARNING: File not loaded properly from pack" ++ nl) ]
      else []).
Proof. apply load_from_pack_null. Qed.

(** *** [GetSubtextPtrs] *)

Lemma split_at_0 d s : split_at d s 0 = [s].
Proof.
  induction s as [|ch s IH]; [reflexivity|].
  cbn [split_at]. destruct (Ascii.eqb ch d); [reflexivity|]. now rewrite IH.
Qed.

Lemma split_at_nonempty d s cuts : split_at d s cuts <> [].
Proof.
  revert cuts; induction s as [|ch s IH]; intros cuts; cbn [split_at]; [discriminate|].
  destruct (Ascii.eqb ch d).
  - destruct cuts; discriminate.
  - destruct (split_at d s cuts); discriminate.
Qed.

Lemma concat_cons_char d ch p ps :
  String.concat d (String ch p :: ps) = String ch (String.concat d (p :: ps)).
Proof. destruct ps; reflexivity. Qed.

Lemma concat_split_at d s cuts :
  String.concat (String d "") (split_at d s cuts) = s.
Proof.
  revert cuts; induction s as [|ch s IH]; intros cuts; [reflexivity|].
  cbn [split_at]. destruct (Ascii.eqb_spec ch d) as [->|Hne].
  - destruct cuts as [|cuts]; [reflexivity|].
    specialize (IH cuts).
    destruct (split_at d s cuts) as [|p ps] eqn:E; [now apply split_at_nonempty in E|].
    cbn [String.concat append]. now rewrite <- IH.
  - specialize (IH cuts).
    destruct (split_at d s cuts) as [|p ps] eqn:E; [now apply split_at_nonempty in E|].
    rewrite concat_cons_char. now rewrite IH.
Qed.

Lemma length_split_at d s cuts :
  List.length (split_at d s cuts) = S (Nat.min (count_char d s) cuts).
Proof.
  revert cuts; induction s as [|ch s IH]; intros cuts; [reflexivity|].
  cbn [split_at count_char]. destruct (Ascii.eqb ch d).
  - destruct cuts as [|cuts]; [cbn; lia|].
    cbn [List.length]. rewrite IH. cbn [Nat.add]. lia.
  - specialize (IH cuts).
    destruct (split_at d s cuts) as [|p ps] eqn:E; [now apply split_at_nonempty in E|].
    cbn [List.length Nat.add] in *. exact IH.
Qed.

Lemma split_at_pieces d s cuts :
  count_char d s <= cuts ->
  Forall (fun p => has_char d p = false) (split_at d s cuts).
Proof.
  revert cuts; induction s as [|ch s IH]; intros cuts Hc.
  - repeat constructor.
  - cbn [split_at count_char] in *. destruct (Ascii.eqb ch d) eqn:E.
    + destruct cuts as [|cuts]; [cbn in Hc; lia|].
      constructor; [reflexivity|]. apply IH. cbn in Hc. lia.
    + specialize (IH cuts Hc).
      destruct (split_at d s cuts) as [|p ps] eqn:E2; [now apply split_at_nonempty in E2|].
      apply Forall_cons_iff in IH. destruct IH as (Hp & Hps).
      constructor; [|assumption]. cbn [has_char]. now rewrite E, Hp.
Qed.

Lemma subtext_loop_cons d ch rest i remaining counter :
  subtext_loop d (String ch rest) i (S remaining) counter =
  if Ascii.eqb ch NUL then (String ch rest, [])
  else if Ascii.eqb ch d then
    if (S counter =? MAX_SUBTEXTPTRS_COUNT)%nat then (String NUL rest, [i + 1])
    else
      let '(rest', ptrs) := subtext_loop d rest (S i) remaining (S counter) in
      (String NUL rest', (i + 1) :: ptrs)
  else
    let '(rest', ptrs) := subtext_loop d rest (S i) remaining counter in
    (String ch rest', ptrs).
Proof. reflexivity. Qed.

Lemma cstr_prefix_terminated s tail :
  has_char NUL s = false -> cstr_prefix (s ++ String NUL tail) = s.
Proof.
  induction s as [|ch s IH]; cbn [has_char append cstr_prefix]; intros H.
  - reflexivity.
  - apply orb_false_iff in H. destruct H as (H1 & H2).
    rewrite H1. now rewrite IH.
Qed.

Lemma cstr_terminated s tail :
  has_char NUL s = false -> cstr (s ++ String NUL tail) = Ok s.
Proof.
  induction s as [|ch s IH]; cbn [has_char append cstr]; intros H.
  - reflexivity.
  - apply orb_false_iff in H. destruct H as (H1 & H2).
    rewrite H1, (IH H2). reflexivity.
Qed.

(** The pieces the loop leaves, read through the pointers it stores. *)
Lemma subtext_loop_pieces d s tail :
  d <> NUL ->
  has_char NUL s = false ->
  forall i counter cells' ptrs,
    counter < MAX_SUBTEXTPTRS_COUNT ->
    subtext_loop d (s ++ String NUL tail) i (String.length s) counter = (cells', ptrs) ->
    String.length cells' = String.length (s ++ String NUL tail) /\
    Forall (fun p => i < p) ptrs /\
    cstr_prefix cells' :: map (fun p => cstr_prefix (skip (p - i) cells')) ptrs
    = split_at d s (MAX_SUBTEXTPTRS_COUNT - counter).
Proof.
  intros Hd. induction s as [|ch s IH]; intros H0 i counter cells' ptrs Hc Hloop.
  - cbn in Hloop. injection Hloop as <- <-. cbn. auto.
  - cbn [has_char] in H0. apply orb_false_iff in H0. destruct H0 as (Hch & Hs).
    cbn [append String.length] in Hloop. rewrite subtext_loop_cons, Hch in Hloop.
    cbn [split_at append String.length].
    destruct (Ascii.eqb ch d) eqn:E.
    + destruct (Nat.eqb_spec (S counter) MAX_SUBTEXTPTRS_COUNT) as [Hcap|Hcap].
      * injection Hloop as <- <-.
        replace (MAX_SUBTEXTPTRS_COUNT - counter) with 1 by lia.
        rewrite split_at_0.
        split; [reflexivity|]. split; [repeat constructor; lia|].
        cbn [cstr_prefix map]. rewrite Ascii.eqb_refl.
        replace (i + 1 - i) with 1 by lia. cbn [skip].
        now rewrite cstr_prefix_terminated.
      * destruct (subtext_loop d (s ++ String NUL tail) (S i) (String.length s) (S counter))
          as [rest' ptrs'] eqn:Hrec.
        injection Hloop as <- <-.
        destruct (IH Hs (S i) (S counter) rest' ptrs' ltac:(lia) Hrec)
          as (Hlen & Hptrs & Hpieces).
        replace (MAX_SUBTEXTPTRS_COUNT - counter)
          with (S (MAX_SUBTEXTPTRS_COUNT - S counter)) by lia.
        split; [cbn [String.length]; now rewrite Hlen|].
        split.
        { constructor; [lia|]. eapply Forall_impl; [|exact Hptrs].
          cbn. intros; lia. }
        cbn [cstr_prefix map]. rewrite Ascii.eqb_refl. f_equal.
        replace (i + 1 - i) with 1 by lia. cbn [skip].
        rewrite <- Hpieces. f_equal.
        apply map_ext_in. intros p Hp.
        rewrite Forall_forall in Hptrs. specialize (Hptrs p Hp).
        replace (p - i) with (S (p - S i)) by lia. reflexivity.
    + destruct (subtext_loop d (s ++ String NUL tail) (S i) (String.length s) counter)
        as [rest' ptrs'] eqn:Hrec.
      injection Hloop as <- <-.
      destruct (IH Hs (S i) counter rest' ptrs' Hc Hrec) as (Hlen & Hptrs & Hpieces).
      rewrite <- Hpieces.
      split; [cbn [String.length]; now rewrite Hlen|].
      split.
      { eapply Forall_impl; [|exact Hptrs]. cbn. intros; lia. }
      cbn [cstr_prefix]. rewrite Hch. f_equal.
      apply map_ext_in. intros p Hp.
      rewrite Forall_forall in Hptrs. specialize (Hptrs p Hp).
      replace (p - i) with (S (p - S i)) by lia. reflexivity.
Qed.

(** What the call returns for a text that ends in its array. *)
Lemma GetSubtextPtrs_pieces d s tail :
  d <> NUL ->
  has_char NUL s = false ->
  exists cells' ptrs,
    GetSubtextPtrs (Some (s ++ String NUL tail)) d = Ok (Some cells', map Some ptrs) /\
    String.length cells' = String.length (s ++ String NUL tail) /\
    map (subtext cells') ptrs = split_at d s (MAX_SUBTEXTPTRS_COUNT - 1).
Proof.
  intros Hd Hs. unfold GetSubtextPtrs.
  rewrite (cstr_terminated s tail Hs). cbn [bind].
  destruct (subtext_loop d (s ++ String NUL tail) 0 (String.length s) 1)
    as [cells' ptrs] eqn:Hloop.
  assert (Hc : 1 < MAX_SUBTEXTPTRS_COUNT) by (unfold MAX_SUBTEXTPTRS_COUNT; lia).
  destruct (subtext_loop_pieces d s tail Hd Hs 0 1 cells' ptrs Hc Hloop)
    as (Hlen & _ & Hpieces).
  exists cells', (0 :: ptrs). split; [reflexivity|]. split; [assumption|].
  cbn [map]. unfold subtext at 1. cbn [skip]. rewrite <- Hpieces. f_equal.
  apply map_ext. intros p. unfold subtext. now rewrite Nat.sub_0_r.
Qed.

(** X24.  For a text that ends in its array and a delimiter other than
    NUL, [GetSubtextPtrs] returns one pointer more than the text has
    delimiters, 1024 pointers at most, and leaves the array at its length.
    The strings the pointers lead to, joined by the delimiter, are the
    text; below the cap none of them holds the delimiter. *)
Theorem subtexts_of_text d s tail :
  d <> NUL ->
  has_char NUL s = false ->
  exists cells' ptrs,
    GetSubtextPtrs (Some (s ++ String NUL tail)) d = Ok (Some cells', map Some ptrs) /\
    String.length cells' = String.length (s ++ String NUL tail) /\
    List.length ptrs = Nat.min (S (count_char d s)) MAX_SUBTEXTPTRS_COUNT /\
    String.concat (String d "") (map (subtext cells') ptrs) = s /\
    (count_char d s < MAX_SUBTEXTPTRS_COUNT ->
     Forall (fun p => has_char d (subtext cells' p) = false) ptrs).
Proof.
  intros Hd Hs.
  destruct (GetSubtextPtrs_pieces d s tail Hd Hs) as (cells' & ptrs & Hcall & Hlen & Hpieces).
  exists cells', ptrs. split; [assumption|]. split; [assumption|].
  split; [|split].
  - rewrite <- (length_map (subtext cells') ptrs), Hpieces, length_split_at.
    unfold MAX_SUBTEXTPTRS_COUNT. lia.
  - rewrite Hpieces. apply concat_split_at.
  - intros Hcount.
    assert (Hall : Forall (fun p => has_char d p = false) (map (subtext cells') ptrs)).
    { rewrite Hpieces. apply split_at_pieces. lia. }
    rewrite Forall_map in Hall. exact Hall.
Qed.

Lemma subtexts_of_text_witness :
  exists cells' ptrs,
    GetSubtextPtrs (Some ("main.c|screens.h|" ++ String NUL "")) "|"
      = Ok (Some cells', map Some ptrs) /\
    String.length cells' = String.length ("main.c|screens.h|" ++ String NUL "") /\
    List.length ptrs = Nat.min (S (count_char "|" "main.c|screens.h|")) MAX_SUBTEXTPTRS_COUNT /\
    String.concat "|" (map (subtext cells') ptrs) = "main.c|screens.h|" /\
    (count_char "|" "main.c|screens.h|" < MAX_SUBTEXTPTRS_COUNT ->
     Forall (fun p => has_char "|" (subtext cells' p) = false) ptrs).
Proof.
  apply (subtexts_of_text "|" "main.c|screens.h|" "").
  - intros H; discriminate H.
  - reflexivity.
Defined.

(** *** From the store to the configuration *)

Lemma Forall2_In_r {A B} (P : A -> B -> Prop) l r b :
  Forall2 P l r -> In b r -> exists a, In a l /\ P a b.
Proof.
  induction 1 as [|x y l r Hxy _ IH]; simpl; [tauto|].
  intros [->|Hin].
  - exists x; auto.
  - destruct (IH Hin) as (a & Ha & HP). exists a; auto.
Qed.

(** Text and value of a loaded entry. *)
Lemma load_entry_text_value v e :
  load_entry v = Ok e ->
  cstr (rini.key v) = Ok (key e) /\
  text e = (if rini.isText v then rini.text v else "") /\
  value e = (if rini.isText v then 0%Z else TextToInteger (rini.text v)).
Proof.
  intros He. apply load_entry_split in He. destruct He as (e1 & He1 & He).
  destruct (load_entry_names_store _ _ He1) as (Hk & _ & Ht & Hv & _).
  destruct (load_entry_type_key _ _ _ He) as (Hkey & _).
  destruct (load_entry_type_class _ _ _ He) as (Hq & Hu).
  rewrite Hkey. split; [assumption|].
  destruct (rini.isText v).
  - destruct (Hq eq_refl) as (-> & -> & _). auto.
  - destruct (Hu eq_refl) as (-> & -> & _). auto.
Qed.

(** X25.  A load followed by a parse: the last store value under a mapped
    key decides the field.  A quoted value gives a text field its text; an
    unquoted value gives a flag whether it reads as a nonzero integer, and
    an integer field that integer.  A quoted value leaves a flag false and
    an integer 0, an unquoted one leaves a text field empty.  The two keys
    whose branch does not assign are left out. *)
Theorem loaded_value_sets_field values1 v values2 raw dst0 dst k get :
  LoadProjectConfigRaw (Some (values1 +++ v :: values2)) = Ok raw ->
  SyncProjectConfig raw dst0 = Ok dst ->
  cstr (rini.key v) = Ok k ->
  (forall v2, In v2 values2 -> cstr (rini.key v2) <> Ok k) ->
  assoc k field_table = Some get ->
  ~ In k unassigned_keys ->
  field_from_value k v (get dst).
Proof.
  intros Hload Hparse Hkey Hlast Hk Hun.
  apply LoadProjectConfigRaw_entries in Hload.
  apply Forall2_app_inv_l in Hload.
  destruct Hload as (raw1 & raw' & _ & Htail & ->).
  inversion Htail as [|v' e vs raw2 He Hrest]; subst.
  destruct (load_entry_text_value v e He) as (Hke & Ht & Hv).
  assert (Hkeq : key e = k) by (rewrite Hkey in Hke; now apply Ok_inj in Hke).
  assert (Hlater : forall e2, In e2 raw2 -> key e2 <> k).
  { intros e2 Hin Heq.
    destruct (Forall2_In_r _ _ _ _ Hrest Hin) as (v2 & Hv2 & He2).
    destruct (load_entry_text_value v2 e2 He2) as (Hk2 & _).
    apply (Hlast v2 Hv2). now rewrite Hk2, Heq. }
  unfold SyncProjectConfig in Hparse.
  rewrite foldM_app in Hparse. apply bind_Ok in Hparse.
  destruct Hparse as (dst1 & _ & Hparse).
  apply foldM_Ok_cons in Hparse. destruct Hparse as (dst2 & H2 & Hparse).
  rewrite (SyncProjectConfig_frame raw2 k get Hk Hlater _ _ Hparse).
  rewrite <- Hkeq in Hk, Hun.
  pose proof (SyncProjectConfig_entry_reads _ _ _ _ H2 Hk Hun) as Hreads.
  rewrite Hkeq in Hreads.
  unfold field_reads in Hreads. unfold field_from_value.
  destruct (get dst2); rewrite Hreads, ?Ht, ?Hv; reflexivity.
Qed.

Lemma loaded_value_sets_field_witness :
  let v1 := rini.mk (in_array 64 "BUILD_FLAG_ASSETS_PACKAGING") "0" "" false in
  let v2 := rini.mk (in_array 64 "BUILD_FLAG_ASSETS_PACKAGING") "1" "" false in
  let v3 := rini.mk (in_array 64 "PROJECT_VERSION") "1.0" "" true in
  let dst := set_Project (Project.set_version "1.0" (Project zero_config))
               (set_Build (Build.set_assetsPackaging true (Build zero_config)) zero_config) in
  field_from_value "BUILD_FLAG_ASSETS_PACKAGING" v2 (FFlag (Build.assetsPackaging (Build dst))).
Proof.
  intros v1 v2 v3 dst.
  apply (loaded_value_sets_field [v1] v2 [v3]
           [ mkEntry "BUILD_FLAG_ASSETS_PACKAGING" "" "" "FLAG ASSETS PACKAGING"
               RPC_CAT_BUILD RPC_PLATFORM_ANY RPC_TYPE_BOOL 0 false;
             mkEntry "BUILD_FLAG_ASSETS_PACKAGING" "" "" "FLAG ASSETS PACKAGING"
               RPC_CAT_BUILD RPC_PLATFORM_ANY RPC_TYPE_BOOL 1 false;
             mkEntry "PROJECT_VERSION" "1.0" "" "VERSION"
               RPC_CAT_PROJECT RPC_PLATFORM_ANY RPC_TYPE_TEXT 0 false ]
           zero_config dst "BUILD_FLAG_ASSETS_PACKAGING"
           (fun c => FFlag (Build.assetsPackaging (Build c)))).
  - reflexivity.
  - reflexivity.
  - reflexivity.
  - intros x [<-|[]]. cbn. intros H; discriminate H.
  - reflexivity.
  - cbn. intros [H|[H|[]]]; discriminate H.
Defined.

(** *** The items of the custom sources in [srcFilesBlock] *)

Lemma append_faulted (names : list string) :
  fold_left (fun block n => b <- block ;; TextAppend 1024 b (cl_compile n ++ "    "))
            names MemFault = MemFault.
Proof. induction names as [|n names IH]; [reflexivity | exact IH]. Qed.

(** The loop over the code files, from a block that holds [acc]: the items
    are appended while the text and its terminator fit the 1024 cells. *)
Lemma append_items names acc :
  String.length acc < 1024 ->
  fold_left (fun block n => b <- block ;; TextAppend 1024 b (cl_compile n ++ "    "))
            names (Ok acc)
  = let items := fold_right (fun n items => cl_compile n ++ "    " ++ items) "" names in
    if (String.length (acc ++ items) <? 1024)%nat then Ok (acc ++ items) else MemFault.
Proof.
  revert acc. induction names as [|n names IH]; intros acc Hacc; cbv zeta.
  - cbn [fold_left fold_right].
    assert (E : acc ++ "" = acc) by (clear; induction acc; simpl; congruence).
    rewrite E. apply Nat.ltb_lt in Hacc. now rewrite Hacc.
  - cbn [fold_left fold_right bind]. unfold TextAppend, strcpy.
    set (item := cl_compile n ++ "    ").
    set (rest := fold_right (fun n items => cl_compile n ++ "    " ++ items) "" names).
    assert (E : acc ++ cl_compile n ++ "    " ++ rest = (acc ++ item) ++ rest).
    { unfold item. now rewrite !append_assoc. }
    rewrite E.
    destruct (String.length item <? 1024 - String.length acc)%nat eqn:Hfit.
    + cbn [bind]. apply Nat.ltb_lt in Hfit.
      rewrite IH by (rewrite string_length_app; lia). reflexivity.
    + cbn [bind]. rewrite append_faulted.
      apply Nat.ltb_ge in Hfit.
      assert (Hge : (String.length ((acc ++ item) ++ rest) <? 1024)%nat = false).
      { apply Nat.ltb_ge. rewrite !string_length_app. lia. }
      now rewrite Hge.
Qed.

Lemma srcFilesBlock_fits names :
  srcFilesBlock names =
    if (String.length (compile_items names) <? 1024)%nat
    then Ok (compile_items names) else MemFault.
Proof.
  unfold srcFilesBlock, compile_items.
  rewrite append_items by (simpl; lia). reflexivity.
Qed.

(** X26.  With the template in place, [SetupProject] runs to its end
    unless the VS2022 project is requested for custom sources whose items
    do not fit [srcFilesBlock]: the text of the items, one for each code
    file after the first, and its terminator take more than 1024 cells. *)
Theorem generation_end env config :
  template_available env (GetApplicationDirectory env ++ "/template") = true ->
  let c := fst (SetupProject env config) in
  SetupProject_end env config =
    if requested c 3 && (Project.selectedTemplate (Project c) =? 2)%Z &&
       (1024 <=? String.length (compile_items (srcFileNames c)))%nat
    then MemFault else Ok tt.
Proof.
  intros Hav c. subst c.
  rewrite (SetupProject_end_available env config Hav), (SetupProject_config env config Hav).
  rewrite build_vs2022_end.
  destruct (requested _ 3 && (_ =? 2)%Z); [|reflexivity].
  cbn [andb]. rewrite srcFilesBlock_fits.
  destruct (Nat.ltb_spec (String.length (compile_items (srcFileNames (default_repoName config)))) 1024)
    as [Hlt|Hge].
  - apply Nat.leb_gt in Hlt. now rewrite Hlt.
  - apply Nat.leb_le in Hge. now rewrite Hge.
Qed.

Lemma generation_end_witness :
  SetupProject_end Samples.full_template
    (Samples.project "cool_project" 2 [false; true; true; true]
       ["src/main.c"; "src/player.c"; "src/player.h"])
  = Ok tt.
Proof.
  exact (generation_end Samples.full_template
           (Samples.project "cool_project" 2 [false; true; true; true]
              ["src/main.c"; "src/player.c"; "src/player.h"]) eq_refl).
Defined.



(** *** The 32 bits of a loaded value *)

(** [TextToInteger] computes in [int]: digits past the 32 bits wrap. *)
Example TextToInteger_wraps :
  TextToInteger "4294967297" = 1%Z /\
  TextToInteger "2147483648" = (-2147483648)%Z /\
  TextToInteger "4294967296" = 0%Z /\
  TextToInteger "-17" = (-17)%Z /\
  TextToInteger "2147483647" = 2147483647%Z.
Proof. repeat split; vm_compute; reflexivity. Qed.
